(** * AiJobHelper: a shallow embedding of the mock-interview coach

    The development embeds the pure logic of the browser application:
    - [AnswerEvaluator]  (src/components/Interview/AnswerEvaluator.tsx),
    - the job-description parser of the FileUpload component and the question
      generator of the SkillAnalysis component
      (src/components/Upload/FileUpload.tsx),
    - the interview store (src/store/useInterviewStore.ts),
    - the handlers of the interview page
      (src/components/Interview/InterviewInterface.tsx), the input of the
      job description and the skill-gap analysis
      (src/components/Upload/FileUpload.tsx) and the average of the results
      page, as functions of the state of the component and of the store.

    Conventions of the embedding.
    - A JavaScript string is a Rocq [string]: the development covers the
      texts whose code units are all below 256 (ASCII and Latin-1).  White
      space, [trim] and the case mappings are those of ECMAScript on these
      code units: the no-break space U+00A0 is white space, [toLowerCase]
      also maps the capital letters of Latin-1, and the result of
      [toUpperCase], which can leave the range (sharp s becomes SS, y with
      diaeresis becomes U+0178, the micro sign becomes U+039C), is a list of
      code units.
    - A JavaScript number is a [Q] where the code can produce fractions
      (scores, voice settings) and a [Z] or [nat] where the code only produces
      integers (indices, counters, lengths); the one product whose rounding
      matters, [found.length * 0.7], is computed on binary64 doubles.
    - A regular-expression literal is a term of [Regex.regex], run by a
      backtracking matcher with the priorities of the ECMAScript semantics
      (leftmost match, alternatives left to right, greedy repetition).
    - A function that may throw returns a [completion], a promise is its
      settled value, and the reading of the clock is an argument.

    The embedding comes first (one module per source file), then the
    vocabulary of the properties, then the proofs. *)

From Stdlib Require Import String Ascii List Bool Arith ZArith QArith Qround Qminmax Lia Lqa.
From Stdlib Require Import DecimalString DecimalNat.
From Stdlib Require Floats Uint63.
Import ListNotations.
Open Scope string_scope.
Open Scope nat_scope.

(* ================================================================== *)
(** * JavaScript string primitives                                      *)
(* ================================================================== *)

Module Js.

Definition code (c : ascii) : nat := nat_of_ascii c.

Definition inRange (lo hi : nat) (c : ascii) : bool :=
  (lo <=? code c) && (code c <=? hi).

Definition isUpper (c : ascii) : bool := inRange 65 90 c.
Definition isLower (c : ascii) : bool := inRange 97 122 c.
Definition isDigit (c : ascii) : bool := inRange 48 57 c.

(** White space and line terminators: what [\s] matches and [trim] strips.
    Below 256 these are the code units 9 to 13, the space and the no-break
    space U+00A0. *)
Definition isSpace (c : ascii) : bool :=
  inRange 9 13 c || (code c =? 32) || (code c =? 160).

(** Line terminators: what [.] and [[^\n\r]] refuse. *)
Definition isLineTerminator (c : ascii) : bool := (code c =? 10) || (code c =? 13).

(** The characters of [\w]. *)
Definition isWordChar (c : ascii) : bool :=
  isUpper c || isLower c || isDigit c || (code c =? 95).

(** The capital letters of Latin-1: U+00C0 to U+00DE without the
    multiplication sign U+00D7; the small ones are 32 above. *)
Definition isUpperLatin1 (c : ascii) : bool :=
  inRange 192 222 c && negb (code c =? 215).

(** [toLowerCase] on one code unit. *)
Definition lowerChar (c : ascii) : ascii :=
  if isUpper c || isUpperLatin1 c then ascii_of_nat (code c + 32) else c.

(** [toUpperCase] on one code unit: the result is one code unit or two and
    can lie above 255. *)
Definition upperUnits (c : ascii) : list nat :=
  let n := code c in
  if isLower c then [n - 32]
  else if inRange 224 254 c && negb (n =? 247) then [n - 32]
  else if n =? 223 then [83; 83]          (* sharp s: SS *)
  else if n =? 255 then [376]             (* y with diaeresis: U+0178 *)
  else if n =? 181 then [924]             (* micro sign: U+039C *)
  else [n].

Fixpoint smap (f : ascii -> ascii) (s : string) : string :=
  match s with
  | EmptyString => EmptyString
  | String c s' => String (f c) (smap f s')
  end.

Fixpoint sfilter (p : ascii -> bool) (s : string) : string :=
  match s with
  | EmptyString => EmptyString
  | String c s' => if p c then String c (sfilter p s') else sfilter p s'
  end.

(** [s.toLowerCase()] *)
Definition toLowerCase (s : string) : string := smap lowerChar s.

(** [s.toUpperCase()], as the list of its code units. *)
Definition toUpperCase (s : string) : list nat :=
  flat_map upperUnits (list_ascii_of_string s).

(** The code units of a text. *)
Definition unitsOf (s : string) : list nat := map code (list_ascii_of_string s).

Fixpoint startsWith (k u : list nat) : bool :=
  match k, u with
  | [], _ => true
  | a :: k', b :: u' => (a =? b) && startsWith k' u'
  | _ :: _, [] => false
  end.

(** [u.includes(k)] for a text [u] given by its code units. *)
Fixpoint includesUnits (u : list nat) (k : string) : bool :=
  startsWith (unitsOf k) u ||
  match u with
  | [] => false
  | _ :: u' => includesUnits u' k
  end.

(** [s.includes(k)] *)
Fixpoint includes (s k : string) : bool :=
  String.prefix k s ||
  match s with
  | EmptyString => false
  | String _ s' => includes s' k
  end.

(** [s.trim()] *)
Fixpoint trimStart (s : string) : string :=
  match s with
  | EmptyString => EmptyString
  | String c s' => if isSpace c then trimStart s' else s
  end.

Fixpoint trimEnd (s : string) : string :=
  match s with
  | EmptyString => EmptyString
  | String c s' =>
      match trimEnd s' with
      | EmptyString => if isSpace c then EmptyString else String c EmptyString
      | t => String c t
      end
  end.

Definition trim (s : string) : string := trimEnd (trimStart s).

Fixpoint drop (n : nat) (s : string) : string :=
  match n, s with
  | S n', String _ s' => drop n' s'
  | _, _ => s
  end.

(** [s.replace(pat, rep)] with a string pattern: the first occurrence only. *)
Fixpoint replaceFirst (pat rep s : string) : string :=
  if String.prefix pat s then rep ++ drop (String.length pat) s
  else match s with
       | EmptyString => EmptyString
       | String c s' => String c (replaceFirst pat rep s')
       end.

(** [l.join(sep)] *)
Definition join (sep : string) (l : list string) : string := String.concat sep l.

(** [n.toString()] for a natural number. *)
Definition natToString (n : nat) : string := NilEmpty.string_of_uint (Nat.to_uint n).

(** [n] as a double, for a length (below 2^63), and [Math.floor(x)] for a
    finite double [x], read off its mantissa and exponent. *)
Definition doubleOfNat (n : nat) : PrimFloat.float :=
  PrimFloat.of_uint63 (Uint63.of_Z (Z.of_nat n)).

Definition floor (x : PrimFloat.float) : Z :=
  match FloatOps.Prim2SF x with
  | SpecFloat.S754_finite false m e =>
      if (0 <=? e)%Z then Z.shiftl (Zpos m) e else Z.shiftr (Zpos m) (- e)
  | SpecFloat.S754_finite true m e =>
      if (0 <=? e)%Z then (- Z.shiftl (Zpos m) e)%Z
      else (- ((Zpos m + 2 ^ (- e) - 1) / 2 ^ (- e)))%Z
  | _ => 0%Z
  end.

(** A string is falsy exactly when it is empty. *)
Definition truthy (s : string) : bool :=
  match s with EmptyString => false | _ => true end.

(** The double-quote character and the line feed, for the canned texts. *)
Definition dq : string := String (ascii_of_nat 34) EmptyString.
Definition nl : string := String (ascii_of_nat 10) EmptyString.

(** The no-break space U+00A0 and two letters of Latin-1, E with acute
    accent in both cases. *)
Definition nbsp : string := String (ascii_of_nat 160) EmptyString.
Definition capitalEAcute : string := String (ascii_of_nat 201) EmptyString.
Definition smallEAcute : string := String (ascii_of_nat 233) EmptyString.

End Js.

(* ================================================================== *)
(** * Regular expressions                                               *)
(* ================================================================== *)

Module Regex.
Import Js.

Inductive regex : Type :=
| Empty                          (* the empty pattern                       *)
| Lit (c : ascii)                (* a literal character                     *)
| Class (p : ascii -> bool)      (* a character class, an escape or a dot   *)
| Seq (r1 r2 : regex)            (* r1 r2                                   *)
| Alt (r1 r2 : regex)            (* r1|r2                                   *)
| Star (r : regex)               (* r*, greedy                              *)
| Group (n : nat) (r : regex)    (* the n-th capturing group                *)
| Backref (n : nat)              (* a back reference to the n-th group      *)
| Bol                            (* ^                                       *)
| Eol                            (* $                                       *)
| WordB.                         (* \b                                      *)

Record flags : Type := { ignoreCase : bool; multiline : bool }.

Definition noFlags : flags := {| ignoreCase := false; multiline := false |}.
Definition flagI : flags := {| ignoreCase := true; multiline := false |}.
Definition flagIM : flags := {| ignoreCase := true; multiline := true |}.

(** Derived forms. *)
Definition Plus (r : regex) : regex := Seq r (Star r).        (* r+     *)
Definition Opt (r : regex) : regex := Alt r Empty.            (* r?, r not empty *)
Fixpoint AtLeast (n : nat) (r : regex) : regex :=             (* r{n,}  *)
  match n with
  | 0 => Star r
  | S n' => Seq r (AtLeast n' r)
  end.
Fixpoint Str (s : string) : regex :=                          (* abc    *)
  match s with
  | EmptyString => Empty
  | String c EmptyString => Lit c
  | String c s' => Seq (Lit c) (Str s')
  end.
Fixpoint AltOf (l : list regex) : regex :=                    (* a|b|c  *)
  match l with
  | [] => Empty
  | [r] => r
  | r :: l' => Alt r (AltOf l')
  end.
Definition Words (l : list string) : regex := AltOf (map Str l).

(** [Canonicalize] for a pattern with the flag [i] and without the flag
    [u]: the code unit of the upper-cased character, unless upper-casing
    gives more than one code unit or turns a character from 128 on into one
    below 128. *)
Definition canonicalize (c : ascii) : nat :=
  match upperUnits c with
  | [cu] => if (128 <=? code c) && (cu <? 128) then code c else cu
  | _ => code c
  end.

(** Character comparison under the flags. *)
Definition eqc (f : flags) (a b : ascii) : bool :=
  if ignoreCase f then canonicalize a =? canonicalize b else Ascii.eqb a b.

(** Under the flag [i] a class matches a character when it holds a character
    of the same canonical form.  A class is run by its predicate alone,
    which is the same thing for a class that holds, with a character, every
    character of the same canonical form ([caseClosed]); the classes of the
    patterns that carry the flag are such classes. *)
Definition allChars : list ascii := map ascii_of_nat (seq 0 256).

Definition caseClosed (p : ascii -> bool) : bool :=
  let table := map (fun c => (canonicalize c, p c)) allChars in
  forallb (fun a =>
             forallb (fun x => implb (snd a && (fst a =? fst x)) (snd x)) table)
          table.

Definition classOf (r : regex) : ascii -> bool :=
  match r with
  | Class p => p
  | _ => fun _ => false
  end.

Definition captures : Type := list (nat * list ascii).

Fixpoint capture (n : nat) (c : captures) : option (list ascii) :=
  match c with
  | [] => None
  | (i, w) :: c' => if i =? n then Some w else capture n c'
  end.

(** [w] read off the front of [s]: the remainder and the last character read. *)
Fixpoint readWord (f : flags) (w s : list ascii) (last : option ascii)
  : option (option ascii * list ascii) :=
  match w with
  | [] => Some (last, s)
  | a :: w' =>
      match s with
      | [] => None
      | b :: s' => if eqc f a b then readWord f w' s' (Some b) else None
      end
  end.

Definition isWordCharOpt (o : option ascii) : bool :=
  match o with None => false | Some c => isWordChar c end.

Section Matcher.

Variable A : Type.

(** A continuation receives the character before the current position, the
    rest of the input and the captures so far. *)
Definition cont : Type := option ascii -> list ascii -> captures -> option A.

(** Greedy repetition of [body]: another round is accepted only when it
    consumed input, as the repeat matcher of the standard requires.  [n]
    bounds the number of rounds; [m] starts it at the length of the input,
    which no run exhausts since every round consumes a character. *)
Fixpoint star (body : option ascii -> list ascii -> captures -> cont -> option A)
    (n : nat) (last : option ascii) (s : list ascii) (c : captures) (k : cont)
  : option A :=
  match n with
  | 0 => k last s c
  | S n' =>
      match body last s c
              (fun l' s' c' =>
                 if length s' <? length s then star body n' l' s' c' k else None)
      with
      | Some x => Some x
      | None => k last s c
      end
  end.

Fixpoint m (f : flags) (r : regex) (last : option ascii) (s : list ascii)
    (c : captures) (k : cont) {struct r} : option A :=
  match r with
  | Empty => k last s c
  | Lit a =>
      match s with
      | x :: s' => if eqc f a x then k (Some x) s' c else None
      | [] => None
      end
  | Class p =>
      match s with
      | x :: s' => if p x then k (Some x) s' c else None
      | [] => None
      end
  | Seq r1 r2 => m f r1 last s c (fun l' s' c' => m f r2 l' s' c' k)
  | Alt r1 r2 =>
      match m f r1 last s c k with
      | Some x => Some x
      | None => m f r2 last s c k
      end
  | Star r1 => star (m f r1) (length s) last s c k
  | Group n r1 =>
      m f r1 last s c
        (fun l' s' c' => k l' s' ((n, firstn (length s - length s') s) :: c'))
  | Backref n =>
      match capture n c with
      | None => k last s c
      | Some w =>
          match readWord f w s last with
          | Some (l', s') => k l' s' c
          | None => None
          end
      end
  | Bol =>
      match last with
      | None => k last s c
      | Some p => if multiline f && isLineTerminator p then k last s c else None
      end
  | Eol =>
      match s with
      | [] => k last s c
      | x :: _ => if multiline f && isLineTerminator x then k last s c else None
      end
  | WordB =>
      if xorb (isWordCharOpt last) (isWordCharOpt (hd_error s))
      then k last s c else None
  end.

End Matcher.

Arguments m {A} f r last s c k.
Arguments star {A} body n last s c k.

(** The result of [exec]: where the match starts, the matched text
    ([match[0]]) and the captures. *)
Record matchResult : Type :=
  { index : nat; matched : string; groups : captures }.

Fixpoint search (f : flags) (r : regex) (last : option ascii) (s : list ascii)
    (i : nat) : option matchResult :=
  match m f r last s [] (fun _ s' c' => Some (s', c')) with
  | Some (s', c') =>
      Some {| index := i;
              matched := string_of_list_ascii (firstn (length s - length s') s);
              groups := c' |}
  | None =>
      match s with
      | [] => None
      | x :: s' => search f r (Some x) s' (S i)
      end
  end.

(** [text.match(re)] for a regular expression without the [g] flag. *)
Definition exec (f : flags) (r : regex) (text : string) : option matchResult :=
  search f r None (list_ascii_of_string text) 0.

(** [re.test(text)] *)
Definition test (f : flags) (r : regex) (text : string) : bool :=
  match exec f r text with Some _ => true | None => false end.

(** [match[n]] for a capturing group: [None] is [undefined]. *)
Definition group (n : nat) (res : matchResult) : option string :=
  option_map string_of_list_ascii (capture n (groups res)).

(** Whether a pattern can match without consuming input (an upper bound). *)
Fixpoint nullable (r : regex) : bool :=
  match r with
  | Lit _ | Class _ => false
  | Seq r1 r2 => nullable r1 && nullable r2
  | Alt r1 r2 => nullable r1 || nullable r2
  | Group _ r1 => nullable r1
  | _ => true
  end.

End Regex.

(* ================================================================== *)
(** * Data model (src/types/index.ts)                                   *)
(* ================================================================== *)

(** The outcome of a call that may throw. *)
Inductive completion (A : Type) : Type :=
| Return (a : A)
| Throw (e : string).
Arguments Return {A} a.
Arguments Throw {A} e.

Inductive questionType : Type := coding | sql | theoretical | behavioral.
Inductive difficultyLevel : Type := easy | medium | hard.

Definition questionType_eqb (a b : questionType) : bool :=
  match a, b with
  | coding, coding | sql, sql | theoretical, theoretical
  | behavioral, behavioral => true
  | _, _ => false
  end.

Module Question.
Record t : Type := mk
  { id : string;
    type : questionType;
    question : string;
    difficulty : difficultyLevel;
    language : option string;
    expectedAnswer : option string;
    hints : option (list string);
    category : string;
    points : Z }.
End Question.

Module JobDescription.
Record t : Type := mk
  { title : string;
    company : string;
    requiredSkills : list string;
    preferredSkills : list string;
    description : string;
    experience : string;
    languages : list string;
    tools : list string;
    softSkills : list string }.
End JobDescription.

Inductive gapStatus : Type := gap_match | gap_partial | gap_missing.

Module SkillGap.
Record t : Type := mk
  { skill : string;
    resumeLevel : Z;
    requiredLevel : Z;
    gap : Z;
    status : gapStatus }.
End SkillGap.

Module Answer.
Record t : Type := mk
  { questionId : string;
    userAnswer : string;
    code : option string;
    score : Q;
    feedback : string;
    timeSpent : Q;
    attempts : Z;
    isCorrect : option bool;
    aiExplanation : option string }.
End Answer.

Module Badge.
Record t : Type := mk
  { id : string;
    name : string;
    description : string;
    icon : string;
    earned : bool;
    earnedAt : option Z;
    xpValue : Q }.
End Badge.

Module InterviewSession.
Record t : Type := mk
  { id : string;
    userId : string;
    questions : list Question.t;
    answers : list Answer.t;
    startTime : Z;
    endTime : option Z;
    overallScore : Q;
    skillScores : list (string * Q);
    currentQuestionIndex : Z;
    totalQuestions : Z;
    badges : list Badge.t;
    xpEarned : Q }.
End InterviewSession.

Module VoiceSettings.
Record t : Type := mk
  { isEnabled : bool;
    language : string;
    rate : Q;
    pitch : Q;
    volume : Q }.
End VoiceSettings.

Module AccessibilitySettings.
Record t : Type := mk
  { highContrast : bool;
    largeText : bool;
    screenReader : bool;
    reducedMotion : bool }.
End AccessibilitySettings.

Module UserProgress.
Record t : Type := mk
  { totalXP : Q;
    level : Z;
    completedInterviews : Z;
    skillLevels : list (string * Q);
    achievements : list Badge.t }.
End UserProgress.

(** What the evaluators return: the three mandatory fields and the optional
    field of each evaluator ([None] when absent or undefined). *)
Module Evaluation.
Record t : Type := mk
  { score : Q;
    feedback : string;
    isCorrect : bool;
    fixedCode : option string;
    idealAnswer : option string;
    starAnalysis : option string }.
End Evaluation.

(* ================================================================== *)
(** * AnswerEvaluator (src/components/Interview/AnswerEvaluator.tsx)    *)
(* ================================================================== *)

Module AnswerEvaluator.
Import Js Regex.
Local Open Scope Q_scope.

(** [n] as a JavaScript number. *)
Definition num (n : nat) : Q := inject_Z (Z.of_nat n).

Definition mkResult (score : Q) (feedback : string) (isCorrect : bool)
  : Evaluation.t :=
  Evaluation.mk score feedback isCorrect None None None.

(** ** isNonsenseInput *)

(** [input.replace(/\s+/g, '').toLowerCase()]: every run of white space is
    deleted, so every white-space character is. *)
Definition cleanedOf (input : string) : string :=
  toLowerCase (sfilter (fun c => negb (isSpace c)) input).

(** [/^[a-z]{3,}$/] *)
Definition reLettersOnly : regex :=
  Seq Bol (Seq (AtLeast 3 (Class isLower)) Eol).

(** [/\b(function|class|def|select|if|for|while|return|print|console)\b/] *)
Definition reCodeKeyword : regex :=
  Seq WordB
    (Seq (Group 1 (Words ["function"; "class"; "def"; "select"; "if"; "for";
                          "while"; "return"; "print"; "console"]))
         WordB).

(** [/(.)\1{4,}/] *)
Definition reRepeated : regex :=
  Seq (Group 1 (Class (fun c => negb (isLineTerminator c))))
      (AtLeast 4 (Backref 1)).

Definition mashPatterns : list string :=
  ["asdf"; "qwer"; "zxcv"; "hjkl"; "1234"; "abcd"].

(** The three checks of [isNonsenseInput], on the cleaned input. *)
Definition randomCharacters (cleaned : string) : bool :=
  test noFlags reLettersOnly cleaned && negb (test noFlags reCodeKeyword cleaned).

Definition repeatedCharacters (cleaned : string) : bool :=
  test noFlags reRepeated cleaned.

Definition keyboardMashing (cleaned : string) : bool :=
  existsb (fun pattern => includes cleaned pattern) mashPatterns.

Definition isNonsenseInput (input : string) : bool :=
  let cleaned := cleanedOf input in
  if randomCharacters cleaned then true
  else if repeatedCharacters cleaned then true
  else keyboardMashing cleaned.

(** [!s || s.trim().length === 0] *)
Definition isBlank (s : string) : bool :=
  negb (truthy s) || (String.length (trim s) =? 0)%nat.

(** ** Canned texts *)

Definition getJavaScriptFix (question : Question.t) : string :=
  "Here's the corrected JavaScript approach with proper syntax and logic.".

Definition getPythonFix (question : Question.t) : string :=
  "Here's the corrected Python solution with proper indentation and structure.".

Definition getSQLFix (question : Question.t) : string :=
  "Here's the corrected SQL query with proper syntax and logic.".

Definition questionMentions (question : Question.t) (k : string) : bool :=
  includes (toLowerCase (Question.question question)) k.

Definition generateJavaScriptFix (question : Question.t) : string :=
  if questionMentions question "reverse" then
"// Correct solution for reversing a string
function reverseString(str) {
    let reversed = '';
    for (let i = str.length - 1; i >= 0; i--) {
        reversed += str[i];
    }
    return reversed;
}

console.log(reverseString(" ++ dq ++ "hello" ++ dq ++ ")); // " ++ dq ++ "olleh" ++ dq
  else if questionMentions question "second largest" then
"// Correct solution for second largest number
function secondLargest(arr) {
    let largest = -Infinity;
    let secondLargest = -Infinity;
    
    for (let num of arr) {
        if (num > largest) {
            secondLargest = largest;
            largest = num;
        } else if (num > secondLargest && num < largest) {
            secondLargest = num;
        }
    }
    
    return secondLargest;
}

console.log(secondLargest([1, 5, 3, 9, 2])); // 5"
  else
"// Fixed code with proper structure
function solution() {
    // Your implementation here
    return result;
}".

Definition generatePythonFix (question : Question.t) : string :=
  if questionMentions question "reverse" then
"# Correct solution for reversing a string
def reverse_string(s):
    reversed_str = " ++ dq ++ dq ++ "
    for i in range(len(s) - 1, -1, -1):
        reversed_str += s[i]
    return reversed_str

print(reverse_string(" ++ dq ++ "hello" ++ dq ++ "))  # " ++ dq ++ "olleh" ++ dq
  else
"# Fixed Python code
def solution():
    # Your implementation here
    return result".

Definition generateSQLFix (question : Question.t) : string :=
  if questionMentions question "second highest" then
"-- Correct solution for second highest salary
SELECT salary 
FROM Employee 
ORDER BY salary DESC 
LIMIT 1 OFFSET 1;

-- Alternative using window functions
SELECT DISTINCT salary
FROM (
    SELECT salary, 
           ROW_NUMBER() OVER (ORDER BY salary DESC) as rn
    FROM Employee
) ranked
WHERE rn = 2;"
  else
"-- Fixed SQL query
SELECT column_name
FROM table_name
WHERE condition;".

Definition getIdealAnswer (question : Question.t) : string :=
  if questionMentions question "rest" && questionMentions question "graphql" then
    "REST uses multiple endpoints for different resources with standard HTTP methods, while GraphQL uses a single endpoint where clients specify exactly what data they need. GraphQL prevents over-fetching and under-fetching, offers strong typing, and provides better developer tools, but REST is simpler and has better caching."
  else
    "A comprehensive answer should cover the main concepts, provide examples, and explain the practical implications.".

(** [issues.push(x)] *)
Definition push (issues : list string) (x : string) : list string :=
  (issues ++ [x])%list.

(** [issues.length > 0 ? some : none] *)
Definition whenIssues {A : Type} (issues : list string) (some none : A) : A :=
  match issues with [] => none | _ => some end.

Section Evaluators.

(** [new Function(code)] either returns or throws a SyntaxError: the parser
    of the JavaScript engine, which is not part of the repository, decides.
    [parsesAsFunctionBody code] holds when the constructor returns. *)
Variable parsesAsFunctionBody : string -> bool.

(** ** evaluateJavaScript *)
Definition evaluateJavaScript (code : string) (question : Question.t)
  : Evaluation.t :=
  let issues : list string := [] in
  let score : Q := 0 in
  (* Check for basic syntax *)
  let issues :=
    if negb (includes code "function") && negb (includes code "=>")
       && negb (includes code "const") && negb (includes code "let")
    then push issues "Missing function declaration" else issues in
  (* Check for common patterns based on question *)
  let '(issues, score) :=
    if questionMentions question "reverse" then
      if includes code ".reverse()" then
        (push issues "You used the built-in reverse() method, but the question asks to implement without built-in methods", 3)
      else if includes code "for" || includes code "while" then (issues, 8)
      else (push issues "Consider using a loop to reverse the string", 4)
    else (issues, score) in
  let '(issues, score) :=
    if questionMentions question "second largest" then
      if includes code "sort" then
        (push issues "Sorting works but is not the most efficient approach (O(n log n))", 6)
      else if includes code "Math.max" then (issues, 7)
      else (push issues "Consider tracking the largest and second largest values in a single pass", 5)
    else (issues, score) in
  (* Check for syntax errors *)
  let '(issues, score) :=
    if parsesAsFunctionBody code then (issues, score + 2)
    else (push issues "Syntax error detected", Qmax 0 (score - 2)) in
  let feedback :=
    whenIssues issues
      ("Issues found: " ++ join ", " issues ++ ". " ++ getJavaScriptFix question)
      "Good solution! Your code demonstrates proper JavaScript syntax and logic." in
  {| Evaluation.score := Qmin 10 score;
     Evaluation.feedback := feedback;
     Evaluation.isCorrect := Qle_bool 7 score;
     Evaluation.fixedCode :=
       whenIssues issues (Some (generateJavaScriptFix question)) None;
     Evaluation.idealAnswer := None;
     Evaluation.starAnalysis := None |}.

(** ** evaluatePython *)
Definition evaluatePython (code : string) (question : Question.t)
  : Evaluation.t :=
  let issues : list string := [] in
  let score : Q := 0 in
  let issues :=
    if negb (includes code "def ") && negb (includes code "lambda")
    then push issues "Missing function definition" else issues in
  let issues :=
    if negb (includes code "return")
    then push issues "Missing return statement" else issues in
  (* Check indentation *)
  let issues :=
    if includes code "def " && negb (includes code "    ")
    then push issues "Python requires proper indentation" else issues in
  (* Question-specific checks *)
  let '(issues, score) :=
    if questionMentions question "reverse" then
      if includes code "[::-1]" then
        (push issues "You used slicing, but try implementing without built-in methods", 6)
      else if includes code "for" || includes code "while" then (issues, 8)
      else (issues, score)
    else (issues, score) in
  let score :=
    score + (match issues with
             | [] => 8
             | _ => Qmax 2 (6 - num (List.length issues))
             end) in
  {| Evaluation.score := Qmin 10 score;
     Evaluation.feedback :=
       whenIssues issues
         ("Issues: " ++ join ", " issues ++ ". " ++ getPythonFix question)
         "Excellent Python code! Good use of syntax and logic.";
     Evaluation.isCorrect := Qle_bool 7 score;
     Evaluation.fixedCode :=
       whenIssues issues (Some (generatePythonFix question)) None;
     Evaluation.idealAnswer := None;
     Evaluation.starAnalysis := None |}.

(** ** evaluateSQL *)
Definition evaluateSQL (code : string) (question : Question.t)
  : Evaluation.t :=
  let issues : list string := [] in
  let sqlKeywords :=
    ["SELECT"; "FROM"; "WHERE"; "ORDER BY"; "GROUP BY"; "HAVING"; "JOIN"] in
  let codeHas (k : string) : bool := includesUnits (toUpperCase code) k in
  let hasBasicStructure := codeHas "SELECT" && codeHas "FROM" in
  let '(issues, score) :=
    if negb hasBasicStructure
    then (push issues "Missing basic SELECT...FROM structure", 1)
    else (issues, 5) in
  (* Question-specific evaluation *)
  let '(issues, score) :=
    if questionMentions question "second highest" then
      if codeHas "LIMIT" && codeHas "OFFSET" then (issues, 8)
      else if codeHas "ROW_NUMBER()" || codeHas "RANK()" then (issues, 9)
      else (push issues "Consider using LIMIT with OFFSET or window functions for second highest", 4)
    else (issues, score) in
  let '(issues, score) :=
    if questionMentions question "join" then
      if negb (codeHas "JOIN")
      then (push issues "This question requires a JOIN operation", 2)
      else (issues, 8)
    else (issues, score) in
  {| Evaluation.score := Qmin 10 score;
     Evaluation.feedback :=
       whenIssues issues
         ("SQL Issues: " ++ join ", " issues ++ ". " ++ getSQLFix question)
         "Great SQL query! Proper syntax and logic.";
     Evaluation.isCorrect := Qle_bool 7 score;
     Evaluation.fixedCode :=
       whenIssues issues (Some (generateSQLFix question)) None;
     Evaluation.idealAnswer := None;
     Evaluation.starAnalysis := None |}.

(** ** evaluateGenericCode *)
Definition evaluateGenericCode (code : string) (question : Question.t)
  : Evaluation.t :=
  let issues : list string := [] in
  let '(issues, score) :=
    if (String.length code <? 10)%nat then (push issues "Code is too short", 1)
    else if (20 <? String.length code)%nat then (issues, 5)
    else (issues, 0) in
  (* Check for basic programming constructs *)
  let score :=
    if includes code "if" || includes code "for" || includes code "while"
    then score + 2 else score in
  mkResult (Qmin 10 score)
    (whenIssues issues
       ("Issues: " ++ join ", " issues ++ ". Please provide a more complete solution.")
       "Code structure looks reasonable.")
    (Qle_bool 6 score).

(** [question.language?.toLowerCase() || 'javascript'] *)
Definition languageOf (question : Question.t) : string :=
  match Question.language question with
  | None => "javascript"
  | Some l => if truthy (toLowerCase l) then toLowerCase l else "javascript"
  end.

(** ** evaluateCode

    The [java] case calls [this.evaluateJava], a method the class does not
    define: the call throws a TypeError. *)
Definition evaluateCode (code : string) (question : Question.t)
  : completion Evaluation.t :=
  if isBlank code then
    Return (mkResult 0 "No code provided. Please write a solution to the problem." false)
  else if isNonsenseInput code then
    Return (mkResult 0 "This is not valid code. Please write a proper function or solution." false)
  else
    let language := languageOf question in
    (* Language-specific evaluation *)
    if (language =? "javascript")%string then Return (evaluateJavaScript code question)
    else if (language =? "python")%string then Return (evaluatePython code question)
    else if (language =? "java")%string then Throw "TypeError: this.evaluateJava is not a function"
    else if (language =? "sql")%string then Return (evaluateSQL code question)
    else Return (evaluateGenericCode code question).

End Evaluators.

(** [a < b] on numbers. *)
Definition ltb (a b : Q) : bool := negb (Qle_bool b a).

(** ** evaluateByCategory

    The function runs four statements in sequence over the pair of the
    feedback list and the score; each is a definition of its own here. *)

(* API Design questions *)
Definition apiDesignCheck (answerLower : string) (question : Question.t)
    (st : list string * Q) : list string * Q :=
  let '(feedback, score) := st in
  if questionMentions question "rest" && questionMentions question "graphql" then
    let hasREST := includes answerLower "rest" || includes answerLower "representational" in
    let hasGraphQL := includes answerLower "graphql" || includes answerLower "graph ql" in
    let mentionsHTTP := includes answerLower "http" || includes answerLower "endpoint" in
    let mentionsQuery := includes answerLower "query" || includes answerLower "single endpoint" in
    let score := if hasREST && hasGraphQL then score + 4 else score in
    let score := if mentionsHTTP then score + 2 else score in
    let score := if mentionsQuery then score + 2 else score in
    let score :=
      if includes answerLower "over-fetching" || includes answerLower "under-fetching"
      then score + 2 else score in
    if ltb score 6 then
      (push feedback "Try explaining the key differences: REST uses multiple endpoints, GraphQL uses a single endpoint with flexible queries", score)
    else (feedback, score)
  else (feedback, score).

(* SOLID principles *)
Definition principles : list string :=
  ["single responsibility"; "open closed"; "liskov substitution";
   "interface segregation"; "dependency inversion"].

Definition solidCheck (answerLower : string) (question : Question.t)
    (st : list string * Q) : list string * Q :=
  let '(feedback, score) := st in
  if questionMentions question "solid" then
    let mentionedPrinciples :=
      filter (fun p => includes answerLower (replaceFirst " " "" p)) principles in
    let score := num (List.length mentionedPrinciples) * 2 in
    if ltb score 6 then
      (push feedback "SOLID includes: Single Responsibility, Open/Closed, Liskov Substitution, Interface Segregation, Dependency Inversion", score)
    else (feedback, score)
  else (feedback, score).

(* Microservices *)
Definition concepts : list string :=
  ["independent"; "scalable"; "distributed"; "api"; "database"; "deployment"].

Definition microservicesCheck (answerLower : string) (question : Question.t)
    (st : list string * Q) : list string * Q :=
  let '(feedback, score) := st in
  if questionMentions question "microservices" then
    let mentionedConcepts := filter (fun c => includes answerLower c) concepts in
    let score := Qmin 8 (num (List.length mentionedConcepts) * (3 # 2)) in
    if ltb score 6 then
      (push feedback "Mention key aspects: independent services, separate databases, API communication, independent deployment", score)
    else (feedback, score)
  else (feedback, score).

(* Default scoring for other questions *)
Definition defaultScoring (answer : string) (score : Q) : Q :=
  if Qeq_bool score 0 then
    if (100 <? String.length answer)%nat then 6
    else if (50 <? String.length answer)%nat then 4
    else 2
  else score.

Definition evaluateByCategory (answer : string) (question : Question.t)
  : Evaluation.t :=
  let answerLower := toLowerCase answer in
  let '(feedback, score) :=
    microservicesCheck answerLower question
      (solidCheck answerLower question
         (apiDesignCheck answerLower question ([], 0))) in
  let score := defaultScoring answer score in
  {| Evaluation.score := Qmin 10 score;
     Evaluation.feedback :=
       match feedback with
       | [] =>
           if Qle_bool 7 score
           then "Good explanation! You covered the key concepts well."
           else "Your answer touches on some points, but could be more comprehensive."
       | _ => join ". " feedback
       end;
     Evaluation.isCorrect := Qle_bool 7 score;
     Evaluation.fixedCode := None;
     Evaluation.idealAnswer := Some (getIdealAnswer question);
     Evaluation.starAnalysis := None |}.

(** ** evaluateTheoretical *)
Definition evaluateTheoretical (answer : string) (question : Question.t)
  : Evaluation.t :=
  if isBlank answer then
    mkResult 0 "No answer provided. Please explain the concept or provide your thoughts." false
  else if isNonsenseInput answer then
    mkResult 0 "I couldn't evaluate that. Could you provide a real answer explaining the concept?" false
  else if (String.length (trim answer) <? 10)%nat then
    mkResult 2 "Your answer is too brief. Please provide more detailed explanation with examples if possible." false
  else evaluateByCategory answer question.

(** ** evaluateSTARMethod *)
Definition evaluateSTARMethod (answer : string) (question : Question.t)
  : Evaluation.t :=
  let answerLower := toLowerCase answer in
  let score : Q := 0 in
  let starElements : list string := [] in
  (* Check for STAR components *)
  let hasSituation :=
    includes answerLower "situation" || includes answerLower "when"
    || includes answerLower "time" || includes answerLower "project" in
  let hasTask :=
    includes answerLower "task" || includes answerLower "responsible"
    || includes answerLower "needed to" || includes answerLower "had to" in
  let hasAction :=
    includes answerLower "action" || includes answerLower "did"
    || includes answerLower "implemented" || includes answerLower "decided" in
  let hasResult :=
    includes answerLower "result" || includes answerLower "outcome"
    || includes answerLower "achieved" || includes answerLower "improved" in
  let '(score, starElements) :=
    if hasSituation then (score + 2, push starElements "Situation")
    else (score, starElements) in
  let '(score, starElements) :=
    if hasTask then (score + 2, push starElements "Task")
    else (score, starElements) in
  let '(score, starElements) :=
    if hasAction then (score + 3, push starElements "Action")
    else (score, starElements) in
  let '(score, starElements) :=
    if hasResult then (score + 3, push starElements "Result")
    else (score, starElements) in
  (* Length and detail bonus *)
  let score := if (200 <? String.length answer)%nat then score + 1 else score in
  let missingElements :=
    filter (fun e => negb (existsb (String.eqb e) starElements))
      ["Situation"; "Task"; "Action"; "Result"] in
  let feedback :=
    if Qle_bool 8 score then
      "Excellent STAR format! You clearly described the situation, task, actions, and results."
    else if Qle_bool 6 score then
      "Good structure! Consider adding more detail about: "
        ++ join ", " missingElements ++ "."
    else
      "Try using the STAR method: Situation (context), Task (what needed to be done), Action (what you did), Result (outcome). Missing: "
        ++ join ", " missingElements ++ "." in
  {| Evaluation.score := Qmin 10 score;
     Evaluation.feedback := feedback;
     Evaluation.isCorrect := Qle_bool 7 score;
     Evaluation.fixedCode := None;
     Evaluation.idealAnswer := None;
     Evaluation.starAnalysis :=
       Some ("STAR Elements Found: " ++ join ", " starElements
               ++ match missingElements with
                  | [] => ""
                  | _ => ". Missing: " ++ join ", " missingElements
                  end) |}.

(** ** evaluateBehavioral *)
Definition evaluateBehavioral (answer : string) (question : Question.t)
  : Evaluation.t :=
  if isBlank answer then
    mkResult 0 "No answer provided. Please share a specific example from your experience." false
  else if isNonsenseInput answer then
    mkResult 0 "I couldn't evaluate that. Please provide a real example from your experience." false
  else evaluateSTARMethod answer question.

End AnswerEvaluator.

(* ================================================================== *)
(** * Job-description parsing (src/components/Upload/FileUpload.tsx)    *)
(* ================================================================== *)

(** A settled promise. *)
Inductive promise (A : Type) : Type :=
| Resolved (a : A)
| Rejected (message : string).
Arguments Resolved {A} a.
Arguments Rejected {A} message.

Module FileUpload.
Import Js Regex.

Definition commonSkills : list string :=
  ["JavaScript"; "Python"; "Java"; "React"; "Node.js"; "SQL"; "AWS"; "Docker"; "Git";
   "TypeScript"; "Angular"; "Vue.js"; "MongoDB"; "PostgreSQL"; "Redis"; "Kubernetes";
   "GraphQL"; "REST API"; "Microservices"; "CI/CD"; "Jenkins"; "Linux"; "Agile";
   "HTML"; "CSS"; "Express.js"; "Spring Boot"; "Django"; "Flask"; "C++"; "C#";
   "Go"; "Rust"; "PHP"; "Ruby"; "Swift"; "Kotlin"; "Scala"; "R"; "MATLAB"].

(** [s.replace(/[.\s]/g, '')] *)
Definition removeDotsAndSpaces (s : string) : string :=
  sfilter (fun c => negb ((code c =? 46) || isSpace c)) s.

(** The test of the filter of [extractSkillsFromText]. *)
Definition skillOccurs (textLower skill : string) : bool :=
  includes textLower (toLowerCase skill)
  || includes textLower (removeDotsAndSpaces (toLowerCase skill)).

(** The literal [0.7]: the double nearest to seven tenths. *)
Module Literal.
Import PrimFloat.
Definition sevenTenths : float := 0x1.6666666666666p-1%float.
End Literal.

(** [Math.floor(n * 0.7)]: the product is rounded to a double before the
    floor is taken. *)
Definition floorSevenTenths (n : nat) : nat :=
  Z.to_nat (floor (PrimFloat.mul (doubleOfNat n) Literal.sevenTenths)).

Record extractedSkills : Type :=
  { required : list string; preferred : list string }.

Definition foundSkills (text : string) : list string :=
  let textLower := toLowerCase text in
  filter (skillOccurs textLower) commonSkills.

Definition splitPointOf (found : list string) : nat :=
  Nat.max 3 (floorSevenTenths (List.length found)).

Definition extractSkillsFromText (text : string) : extractedSkills :=
  let found := foundSkills text in
  let splitPoint := splitPointOf found in
  {| required := firstn splitPoint found;
     preferred := skipn splitPoint found |}.

Definition extractLanguagesFromText (text : string) : list string :=
  let languages :=
    ["JavaScript"; "Python"; "Java"; "C++"; "C#"; "TypeScript"; "Go"; "Rust";
     "PHP"; "Ruby"; "Swift"; "Kotlin"] in
  let textLower := toLowerCase text in
  filter (fun lang => includes textLower (toLowerCase lang)) languages.

Definition extractToolsFromText (text : string) : list string :=
  let tools :=
    ["Git"; "Docker"; "Kubernetes"; "AWS"; "Azure"; "GCP"; "Jenkins"; "MongoDB";
     "PostgreSQL"; "Redis"] in
  let textLower := toLowerCase text in
  filter (fun tool => includes textLower (toLowerCase tool)) tools.

Definition extractSoftSkillsFromText (text : string) : list string :=
  let softSkills :=
    ["Communication"; "Teamwork"; "Leadership"; "Problem Solving";
     "Time Management"; "Adaptability"] in
  let textLower := toLowerCase text in
  filter (fun skill =>
            includes textLower (toLowerCase skill)
            || includes textLower "team"
            || includes textLower "collaborate"
            || includes textLower "communicate")
         softSkills.

(** ** The patterns *)

(** A regular-expression literal: its source text, its flags and its term. *)
Record pattern : Type := { source : string; pflags : flags; re : regex }.

Fixpoint SeqOf (l : list regex) : regex :=
  match l with
  | [] => Empty
  | [r] => r
  | r :: l' => Seq r (SeqOf l')
  end.

Definition space : regex := Class isSpace.                              (* \s      *)
Definition digit : regex := Class isDigit.                              (* \d      *)
Definition notNewline : regex :=                                        (* [^\n\r] *)
  Class (fun c => negb ((code c =? 10) || (code c =? 13))).
Definition spaceOrDash : regex :=                                       (* [\s-]   *)
  Class (fun c => isSpace c || (code c =? 45)).
Definition upper : regex := Class isUpper.                              (* [A-Z]   *)
Definition nameChar : regex :=                                          (* [a-zA-Z\s&] *)
  Class (fun c => isLower c || isUpper c || isSpace c || (code c =? 38)).
Definition companySuffix : regex :=
  Words ["Inc"; "LLC"; "Corp"; "Ltd"; "Company"].

Definition titlePatterns : list pattern :=
  [ {| source := "(?:position|role|job title|title):\s*([^\n\r]+)";
       pflags := flagI;
       re := SeqOf [Words ["position"; "role"; "job title"; "title"]; Str ":";
                   Star space; Group 1 (Plus notNewline)] |};
    {| source := "^([^\n\r]*(?:developer|engineer|analyst|manager|lead|senior|junior)[^\n\r]*)";
       pflags := flagIM;
       re := SeqOf [Bol;
                    Group 1 (SeqOf [Star notNewline;
                                    Words ["developer"; "engineer"; "analyst";
                                           "manager"; "lead"; "senior"; "junior"];
                                    Star notNewline])] |};
    {| source := "hiring\s+(?:for\s+)?([^\n\r]+)";
       pflags := flagI;
       re := SeqOf [Str "hiring"; Plus space; Opt (Seq (Str "for") (Plus space));
                   Group 1 (Plus notNewline)] |} ].

Definition companyPatterns : list pattern :=
  [ {| source := "(?:company|organization|employer):\s*([^\n\r]+)";
       pflags := flagI;
       re := SeqOf [Words ["company"; "organization"; "employer"]; Str ":";
                   Star space; Group 1 (Plus notNewline)] |};
    {| source := "(?:at|@)\s+([A-Z][a-zA-Z\s&]+(?:Inc|LLC|Corp|Ltd|Company))";
       pflags := noFlags;
       re := SeqOf [Words ["at"; "@"]; Plus space;
                     Group 1 (SeqOf [upper; Plus nameChar; companySuffix])] |};
    {| source := "([A-Z][a-zA-Z\s&]+(?:Inc|LLC|Corp|Ltd|Company))";
       pflags := noFlags;
       re := Group 1 (SeqOf [upper; Plus nameChar; companySuffix]) |} ].

Definition expPatterns : list pattern :=
  [ {| source := "(\d+)[\s-]*(?:to[\s-]*(\d+))?\s*years?\s*(?:of\s*)?experience";
       pflags := flagI;
       re := SeqOf [Group 1 (Plus digit); Star spaceOrDash;
                   Opt (SeqOf [Str "to"; Star spaceOrDash; Group 2 (Plus digit)]);
                   Star space; Str "year"; Opt (Str "s"); Star space;
                   Opt (Seq (Str "of") (Star space)); Str "experience"] |};
    {| source := "(\d+)\+?\s*years?\s*(?:of\s*)?experience";
       pflags := flagI;
       re := SeqOf [Group 1 (Plus digit); Opt (Str "+"); Star space;
                   Str "year"; Opt (Str "s"); Star space;
                   Opt (Seq (Str "of") (Star space)); Str "experience"] |};
    {| source := "experience:\s*(\d+[\s-]*(?:to[\s-]*\d+)?\s*years?)";
       pflags := flagI;
       re := SeqOf [Str "experience:"; Star space;
                   Group 1 (SeqOf [Plus digit; Star spaceOrDash;
                                   Opt (SeqOf [Str "to"; Star spaceOrDash; Plus digit]);
                                   Star space; Str "year"; Opt (Str "s")])] |} ].

(** [match && match[1]]: the pattern matched and its first group captured a
    non-empty text. *)
Definition firstGroup (p : pattern) (text : string) : option (matchResult * string) :=
  match exec (pflags p) (re p) text with
  | Some res =>
      match group 1 res with
      | Some w => if truthy w then Some (res, w) else None
      | None => None
      end
  | None => None
  end.

(** The loop shared by the three extractors: the first pattern whose match
    passes the test decides, and [fallback] is returned when none does. *)
Fixpoint firstOf (patterns : list pattern) (text : string)
    (select : matchResult -> string -> string) (fallback : string) : string :=
  match patterns with
  | [] => fallback
  | p :: rest =>
      match firstGroup p text with
      | Some (res, w) => select res w
      | None => firstOf rest text select fallback
      end
  end.

Definition extractTitleFromText (text : string) : string :=
  firstOf titlePatterns text (fun _ w => trim w) "Software Developer".

Definition extractCompanyFromText (text : string) : string :=
  firstOf companyPatterns text (fun _ w => trim w) "TechCorp Inc.".

Definition extractExperienceFromText (text : string) : string :=
  firstOf expPatterns text (fun res _ => matched res) "2-5 years".

(** ** parseJobDescription

    The promise is settled at once.  Nothing in the body of the [try] block
    throws, so the rejection of its [catch] block never happens. *)

Definition tooShortMessage : string :=
  "Job description too short (minimum 50 characters)".
Definition noSkillsMessage : string :=
  "No technical skills found. Please include programming languages and tools.".

Definition parseJobDescription (text : string) : promise JobDescription.t :=
  if negb (truthy text) || (String.length (trim text) <? 50) then
    Rejected tooShortMessage
  else
    let extractedSkills := extractSkillsFromText text in
    let extractedLanguages := extractLanguagesFromText text in
    let extractedTools := extractToolsFromText text in
    let extractedSoftSkills := extractSoftSkillsFromText text in
    let extractedTitle := extractTitleFromText text in
    let extractedCompany := extractCompanyFromText text in
    if (List.length (required extractedSkills) =? 0) then
      Rejected noSkillsMessage
    else
      Resolved
        {| JobDescription.title := extractedTitle;
           JobDescription.company := extractedCompany;
           JobDescription.requiredSkills := required extractedSkills;
           JobDescription.preferredSkills := preferred extractedSkills;
           JobDescription.languages := extractedLanguages;
           JobDescription.tools := extractedTools;
           JobDescription.softSkills := extractedSoftSkills;
           JobDescription.description := text;
           JobDescription.experience := extractExperienceFromText text |}.

End FileUpload.

(* ================================================================== *)
(** * Question generation (SkillAnalysis, in FileUpload.tsx)            *)
(* ================================================================== *)

Module SkillAnalysis.
Import Js.

(** An object literal of [generateQuestions]: no expected answer, no hints. *)
Definition mkQuestion (id : nat) (type : questionType) (question : string)
    (difficulty : difficultyLevel) (language : option string)
    (category : string) (points : Z) : Question.t :=
  {| Question.id := natToString id;
     Question.type := type;
     Question.question := question;
     Question.difficulty := difficulty;
     Question.language := language;
     Question.expectedAnswer := None;
     Question.hints := None;
     Question.category := category;
     Question.points := points |}.

(** The three candidate coding questions of one language; each takes the
    next value of the counter [questionId]. *)
Definition codingQuestions (questionId : nat) (language : string)
  : list Question.t :=
  [ mkQuestion questionId coding
      ("Implement a function to reverse a string without using built-in reverse methods in " ++ language)
      easy (Some (toLowerCase language)) "Data Structures" 10;
    mkQuestion (questionId + 1) coding
      ("Write a function to find the second largest number in an array using " ++ language)
      medium (Some (toLowerCase language)) "Algorithms" 15;
    mkQuestion (questionId + 2) coding
      ("Implement a binary search algorithm in " ++ language)
      medium (Some (toLowerCase language)) "Search Algorithms" 20 ].

(** [codingLanguages.forEach((language, index) => ...)]: the state is the
    list [questions] and the counter [questionId]. *)
Fixpoint codingLoop (codingLanguages : list string) (index : nat)
    (questions : list Question.t) (questionId : nat)
  : list Question.t * nat :=
  match codingLanguages with
  | [] => (questions, questionId)
  | language :: rest =>
      codingLoop rest (S index)
        (questions ++ firstn (if index =? 0 then 3 else 2)
                        (codingQuestions questionId language))
        (questionId + 3)
  end.

Definition sqlQuestions (questionId : nat) : list Question.t :=
  [ mkQuestion questionId sql
      "Write a query to find the second highest salary from an Employee table"
      medium None "Database Queries" 15;
    mkQuestion (questionId + 1) sql
      "Create a query to find employees who earn more than their managers"
      hard None "Complex Joins" 25;
    mkQuestion (questionId + 2) sql
      "Write a query to calculate running totals using window functions"
      hard None "Window Functions" 25;
    mkQuestion (questionId + 3) sql
      "Design a query to find duplicate records in a table"
      medium None "Data Analysis" 15;
    mkQuestion (questionId + 4) sql
      "Write a query to pivot data from rows to columns"
      hard None "Data Transformation" 25 ].

Definition theoreticalQuestions (questionId : nat) : list Question.t :=
  [ mkQuestion questionId theoretical
      "Explain the difference between REST and GraphQL APIs"
      medium None "API Design" 15;
    mkQuestion (questionId + 1) theoretical
      "What are the SOLID principles in object-oriented programming?"
      medium None "OOP Concepts" 15;
    mkQuestion (questionId + 2) theoretical
      "Explain database normalization and its benefits"
      medium None "Database Design" 15;
    mkQuestion (questionId + 3) theoretical
      "What is the difference between synchronous and asynchronous programming?"
      easy None "Programming Concepts" 10;
    mkQuestion (questionId + 4) theoretical
      "Explain microservices architecture and its advantages"
      hard None "System Design" 25;
    mkQuestion (questionId + 5) theoretical
      "What are design patterns and give examples of commonly used ones?"
      medium None "Design Patterns" 15;
    mkQuestion (questionId + 6) theoretical
      "Explain the concept of Big O notation and time complexity"
      medium None "Algorithm Analysis" 15;
    mkQuestion (questionId + 7) theoretical
      "What is containerization and how does Docker work?"
      medium None "DevOps" 15;
    mkQuestion (questionId + 8) theoretical
      "Explain the CAP theorem in distributed systems"
      hard None "Distributed Systems" 25;
    mkQuestion (questionId + 9) theoretical
      "What are the principles of clean code?"
      easy None "Code Quality" 10 ].

Definition behavioralQuestions (questionId : nat) : list Question.t :=
  [ mkQuestion questionId behavioral
      "Tell me about a time when you had to learn a new technology quickly for a project"
      medium None "Learning Agility" 15;
    mkQuestion (questionId + 1) behavioral
      "Describe a situation where you had to work with a difficult team member"
      medium None "Teamwork" 15;
    mkQuestion (questionId + 2) behavioral
      "Tell me about a time when you made a mistake in your code. How did you handle it?"
      medium None "Problem Solving" 15;
    mkQuestion (questionId + 3) behavioral
      "Describe a project you're most proud of and your role in it"
      easy None "Achievement" 10;
    mkQuestion (questionId + 4) behavioral
      "How do you handle tight deadlines and pressure?"
      medium None "Stress Management" 15 ].

(** [requiredSkills.some(skill => skill.toLowerCase().includes('sql'))] *)
Definition requiresSql (jd : JobDescription.t) : bool :=
  existsb (fun skill => includes (toLowerCase skill) "sql")
    (JobDescription.requiredSkills jd).

(** The component state read by [generateQuestions] is the job description of
    the store and the local list of skill gaps; a list is always truthy, so
    the guard on [skillGaps] never fires and the fallback of
    [jobDescription.languages || ...] is never taken. *)
Definition generateQuestions (jobDescription : option JobDescription.t)
    (skillGaps : list SkillGap.t) : list Question.t :=
  match jobDescription with
  | None => []
  | Some jd =>
      let questions : list Question.t := [] in
      let questionId := 1 in
      (* Coding Questions - Based on JD languages *)
      let codingLanguages := JobDescription.languages jd in
      let '(questions, questionId) :=
        codingLoop codingLanguages 0 questions questionId in
      (* SQL Questions *)
      let '(questions, questionId) :=
        if requiresSql jd
        then ((questions ++ sqlQuestions questionId)%list, questionId + 5)
        else (questions, questionId) in
      (* Theoretical Questions *)
      let '(questions, questionId) :=
        ((questions ++ theoreticalQuestions questionId)%list, questionId + 10) in
      (* Behavioral Questions *)
      let '(questions, questionId) :=
        ((questions ++ behavioralQuestions questionId)%list, questionId + 5) in
      questions
  end.

(** The number of questions of one type in a battery. *)
Definition countType (t : questionType) (l : list Question.t) : nat :=
  List.length (filter (fun q => questionType_eqb (Question.type q) t) l).

End SkillAnalysis.

(* ================================================================== *)
(** * The interview store (src/store/useInterviewStore.ts)              *)
(* ================================================================== *)

Module Store.
Import Js.
Local Open Scope Z_scope.

Inductive phase : Type :=
| phase_setup | phase_coding | phase_sql | phase_theoretical
| phase_behavioral | phase_complete.

Inductive view : Type :=
| view_upload | view_analysis | view_interview | view_results | view_settings.

Record state : Type := mkState
  { (* User data *)
    jobDescription : option JobDescription.t;
    skillGaps : list SkillGap.t;
    userProgress : UserProgress.t;
    (* Interview state *)
    currentSession : option InterviewSession.t;
    currentQuestion : option Question.t;
    currentQuestionIndex : Z;
    isInterviewActive : bool;
    interviewPhase : phase;
    (* UI state *)
    isDarkMode : bool;
    currentView : view;
    isLoading : bool;
    error : option string;
    (* Voice and accessibility *)
    voiceSettings : VoiceSettings.t;
    accessibilitySettings : AccessibilitySettings.t;
    isVoiceEnabled : bool;
    isSpeaking : bool }.

Definition initialState : state :=
  {| jobDescription := None;
     skillGaps := [];
     userProgress :=
       {| UserProgress.totalXP := 0;
          UserProgress.level := 1;
          UserProgress.completedInterviews := 0;
          UserProgress.skillLevels := [];
          UserProgress.achievements := [] |};
     currentSession := None;
     currentQuestion := None;
     currentQuestionIndex := 0;
     isInterviewActive := false;
     interviewPhase := phase_setup;
     isDarkMode := false;
     currentView := view_upload;
     isLoading := false;
     error := None;
     voiceSettings :=
       {| VoiceSettings.isEnabled := true;
          VoiceSettings.language := "en-US";
          VoiceSettings.rate := 1;
          VoiceSettings.pitch := 1;
          VoiceSettings.volume := 8 # 10 |};
     accessibilitySettings :=
       {| AccessibilitySettings.highContrast := false;
          AccessibilitySettings.largeText := false;
          AccessibilitySettings.screenReader := false;
          AccessibilitySettings.reducedMotion := false |};
     isVoiceEnabled := true;
     isSpeaking := false |}.

(** ** [set] with a partial state: one function per field written. *)

Definition set_userProgress (v : UserProgress.t) (s : state) : state :=
  mkState (jobDescription s) (skillGaps s) v (currentSession s)
    (currentQuestion s) (currentQuestionIndex s) (isInterviewActive s)
    (interviewPhase s) (isDarkMode s) (currentView s) (isLoading s) (error s)
    (voiceSettings s) (accessibilitySettings s) (isVoiceEnabled s) (isSpeaking s).

Definition set_currentSession (v : option InterviewSession.t) (s : state) : state :=
  mkState (jobDescription s) (skillGaps s) (userProgress s) v
    (currentQuestion s) (currentQuestionIndex s) (isInterviewActive s)
    (interviewPhase s) (isDarkMode s) (currentView s) (isLoading s) (error s)
    (voiceSettings s) (accessibilitySettings s) (isVoiceEnabled s) (isSpeaking s).

Definition set_currentQuestion (v : option Question.t) (s : state) : state :=
  mkState (jobDescription s) (skillGaps s) (userProgress s) (currentSession s)
    v (currentQuestionIndex s) (isInterviewActive s)
    (interviewPhase s) (isDarkMode s) (currentView s) (isLoading s) (error s)
    (voiceSettings s) (accessibilitySettings s) (isVoiceEnabled s) (isSpeaking s).

Definition set_currentQuestionIndex (v : Z) (s : state) : state :=
  mkState (jobDescription s) (skillGaps s) (userProgress s) (currentSession s)
    (currentQuestion s) v (isInterviewActive s)
    (interviewPhase s) (isDarkMode s) (currentView s) (isLoading s) (error s)
    (voiceSettings s) (accessibilitySettings s) (isVoiceEnabled s) (isSpeaking s).

Definition set_isInterviewActive (v : bool) (s : state) : state :=
  mkState (jobDescription s) (skillGaps s) (userProgress s) (currentSession s)
    (currentQuestion s) (currentQuestionIndex s) v
    (interviewPhase s) (isDarkMode s) (currentView s) (isLoading s) (error s)
    (voiceSettings s) (accessibilitySettings s) (isVoiceEnabled s) (isSpeaking s).

Definition set_interviewPhase (v : phase) (s : state) : state :=
  mkState (jobDescription s) (skillGaps s) (userProgress s) (currentSession s)
    (currentQuestion s) (currentQuestionIndex s) (isInterviewActive s)
    v (isDarkMode s) (currentView s) (isLoading s) (error s)
    (voiceSettings s) (accessibilitySettings s) (isVoiceEnabled s) (isSpeaking s).

Definition set_currentView (v : view) (s : state) : state :=
  mkState (jobDescription s) (skillGaps s) (userProgress s) (currentSession s)
    (currentQuestion s) (currentQuestionIndex s) (isInterviewActive s)
    (interviewPhase s) (isDarkMode s) v (isLoading s) (error s)
    (voiceSettings s) (accessibilitySettings s) (isVoiceEnabled s) (isSpeaking s).

Definition set_error (v : option string) (s : state) : state :=
  mkState (jobDescription s) (skillGaps s) (userProgress s) (currentSession s)
    (currentQuestion s) (currentQuestionIndex s) (isInterviewActive s)
    (interviewPhase s) (isDarkMode s) (currentView s) (isLoading s) v
    (voiceSettings s) (accessibilitySettings s) (isVoiceEnabled s) (isSpeaking s).

(** [questions[i]]: [None] is [undefined]. *)
Definition at_index {A : Type} (l : list A) (i : Z) : option A :=
  if i <? 0 then None else nth_error l (Z.to_nat i).

(** [l.length] *)
Definition len {A : Type} (l : list A) : Z := Z.of_nat (List.length l).

(** The phase chosen for a question: [behavioral] also when there is none. *)
Definition phaseOf (q : option Question.t) : phase :=
  match option_map Question.type q with
  | Some coding => phase_coding
  | Some sql => phase_sql
  | Some theoretical => phase_theoretical
  | _ => phase_behavioral
  end.

(** [with_answers cs l] is [{ ...cs, answers: l }]. *)
Definition with_answers (cs : InterviewSession.t) (l : list Answer.t)
  : InterviewSession.t :=
  InterviewSession.mk (InterviewSession.id cs) (InterviewSession.userId cs)
    (InterviewSession.questions cs) l (InterviewSession.startTime cs)
    (InterviewSession.endTime cs) (InterviewSession.overallScore cs)
    (InterviewSession.skillScores cs) (InterviewSession.currentQuestionIndex cs)
    (InterviewSession.totalQuestions cs) (InterviewSession.badges cs)
    (InterviewSession.xpEarned cs).

(** ** Actions.  [now] is a reading of the clock in milliseconds
    ([Date.now()]); [startInterview] reads the clock twice, for the identifier
    of the session ([now]) and for its start ([startTime], [new Date()]).
    Every action runs in a [try] block; the only statement that could throw
    is the reading of [nextQuestion.type], whose [catch] block is kept. *)

Definition startInterview (questions : list Question.t) (now startTime : Z)
    (s : state) : state :=
  let session :=
    {| InterviewSession.id := natToString (Z.to_nat now);
       InterviewSession.userId := "user";
       InterviewSession.questions := questions;
       InterviewSession.answers := [];
       InterviewSession.startTime := startTime;
       InterviewSession.endTime := None;
       InterviewSession.overallScore := 0;
       InterviewSession.skillScores := [];
       InterviewSession.currentQuestionIndex := 0;
       InterviewSession.totalQuestions := len questions;
       InterviewSession.badges := [];
       InterviewSession.xpEarned := 0 |} in
  set_error None
    (set_interviewPhase (phaseOf (at_index questions 0))
       (set_currentView view_interview
          (set_isInterviewActive true
             (set_currentQuestionIndex 0
                (set_currentQuestion (at_index questions 0)
                   (set_currentSession (Some session) s)))))).

Definition addXP (amount : Q) (s : state) : state :=
  let up := userProgress s in
  let newTotalXP := (UserProgress.totalXP up + amount)%Q in
  let newLevel := Qfloor (newTotalXP / 1000)%Q + 1 in
  set_userProgress
    (UserProgress.mk newTotalXP newLevel (UserProgress.completedInterviews up)
       (UserProgress.skillLevels up) (UserProgress.achievements up))
    s.

Definition submitAnswer (answer : Answer.t) (s : state) : state :=
  match currentSession s with
  | None => s
  | Some cs =>
      let updatedAnswers := (InterviewSession.answers cs ++ [answer])%list in
      let updatedSession := with_answers cs updatedAnswers in
      (* Calculate XP based on score *)
      let xpGained := Qfloor (Answer.score answer * 10)%Q in
      let s := addXP (inject_Z xpGained) s in
      set_error None (set_currentSession (Some updatedSession) s)
  end.

Definition endInterview (now : Z) (s : state) : state :=
  match currentSession s with
  | None => s
  | Some cs =>
      let up := userProgress s in
      let answers := InterviewSession.answers cs in
      let totalScore :=
        match answers with
        | [] => 0%Q
        | _ => (fold_left (fun sum answer => sum + Answer.score answer) answers 0
                / inject_Z (len answers))%Q
        end in
      let updatedSession :=
        InterviewSession.mk (InterviewSession.id cs) (InterviewSession.userId cs)
          (InterviewSession.questions cs) answers (InterviewSession.startTime cs)
          (Some now) totalScore
          (InterviewSession.skillScores cs) (InterviewSession.currentQuestionIndex cs)
          (InterviewSession.totalQuestions cs) (InterviewSession.badges cs)
          (InterviewSession.xpEarned cs) in
      (* Update user progress *)
      let updatedProgress :=
        UserProgress.mk (UserProgress.totalXP up) (UserProgress.level up)
          (UserProgress.completedInterviews up + 1)
          (UserProgress.skillLevels up) (UserProgress.achievements up) in
      set_error None
        (set_userProgress updatedProgress
           (set_interviewPhase phase_complete
              (set_currentView view_results
                 (set_isInterviewActive false
                    (set_currentSession (Some updatedSession) s)))))
  end.

Definition nextQuestion (now : Z) (s : state) : state :=
  match currentSession s with
  | None => s
  | Some cs =>
      let nextIndex := currentQuestionIndex s + 1 in
      if nextIndex <? len (InterviewSession.questions cs) then
        match at_index (InterviewSession.questions cs) nextIndex with
        | Some nextQuestion =>
            set_error None
              (set_interviewPhase (phaseOf (Some nextQuestion))
                 (set_currentQuestion (Some nextQuestion)
                    (set_currentQuestionIndex nextIndex s)))
        | None =>
            (* reading [type] of undefined throws; the catch block runs *)
            set_error (Some "Failed to load next question. Please try again.") s
        end
      else endInterview now s
  end.

Definition retryQuestion (s : state) : state :=
  match currentSession s with
  | None => s
  | Some cs =>
      (* Remove the last answer for this question if it exists *)
      let currentQuestionId :=
        option_map Question.id
          (at_index (InterviewSession.questions cs) (currentQuestionIndex s)) in
      let updatedAnswers :=
        filter (fun answer =>
                  match currentQuestionId with
                  | Some i => negb (Answer.questionId answer =? i)%string
                  | None => true
                  end)
          (InterviewSession.answers cs) in
      set_error None (set_currentSession (Some (with_answers cs updatedAnswers)) s)
  end.

(** ** Persistence: the [partialize] option of the [persist] middleware. *)

(** The object written to the storage. *)
Module Persisted.
Record t : Type := mk
  { isDarkMode : bool;
    voiceSettings : VoiceSettings.t;
    accessibilitySettings : AccessibilitySettings.t;
    userProgress : UserProgress.t }.
End Persisted.

Definition partialize (s : state) : Persisted.t :=
  {| Persisted.isDarkMode := isDarkMode s;
     Persisted.voiceSettings := voiceSettings s;
     Persisted.accessibilitySettings := accessibilitySettings s;
     Persisted.userProgress := userProgress s |}.

(** ** Runs of an interview *)

Inductive action : Type :=
| SubmitAnswer (answer : Answer.t)
| RetryQuestion
| NextQuestion (now : Z).

Definition step (a : action) (s : state) : state :=
  match a with
  | SubmitAnswer answer => submitAnswer answer s
  | RetryQuestion => retryQuestion s
  | NextQuestion now => nextQuestion now s
  end.

(** The states reached from [startInterview questions] by the three actions. *)
Inductive reachable (questions : list Question.t) : state -> Prop :=
| reach_start : forall (s0 : state) (now startTime : Z),
    reachable questions (startInterview questions now startTime s0)
| reach_step : forall (s : state) (a : action),
    reachable questions s -> reachable questions (step a s).

End Store.

(* ================================================================== *)
(** * The other actions of the store (src/store/useInterviewStore.ts)   *)
(* ================================================================== *)

(** [Partial<VoiceSettings>] and [Partial<AccessibilitySettings>]: a field
    that is [None] is absent from the object. *)
Module PartialVoiceSettings.
Record t : Type := mk
  { isEnabled : option bool;
    language : option string;
    rate : option Q;
    pitch : option Q;
    volume : option Q }.
End PartialVoiceSettings.

Module PartialAccessibilitySettings.
Record t : Type := mk
  { highContrast : option bool;
    largeText : option bool;
    screenReader : option bool;
    reducedMotion : option bool }.
End PartialAccessibilitySettings.

Module StoreActions.
Import Js Store.
Local Open Scope Z_scope.

(** ** [set] with a partial state, for the fields the first part leaves. *)

Definition set_jobDescription (v : option JobDescription.t) (s : state) : state :=
  mkState v (skillGaps s) (userProgress s) (currentSession s)
    (currentQuestion s) (currentQuestionIndex s) (isInterviewActive s)
    (interviewPhase s) (isDarkMode s) (currentView s) (isLoading s) (error s)
    (voiceSettings s) (accessibilitySettings s) (isVoiceEnabled s) (isSpeaking s).

Definition set_skillGaps (v : list SkillGap.t) (s : state) : state :=
  mkState (jobDescription s) v (userProgress s) (currentSession s)
    (currentQuestion s) (currentQuestionIndex s) (isInterviewActive s)
    (interviewPhase s) (isDarkMode s) (currentView s) (isLoading s) (error s)
    (voiceSettings s) (accessibilitySettings s) (isVoiceEnabled s) (isSpeaking s).

Definition set_isDarkMode (v : bool) (s : state) : state :=
  mkState (jobDescription s) (skillGaps s) (userProgress s) (currentSession s)
    (currentQuestion s) (currentQuestionIndex s) (isInterviewActive s)
    (interviewPhase s) v (currentView s) (isLoading s) (error s)
    (voiceSettings s) (accessibilitySettings s) (isVoiceEnabled s) (isSpeaking s).

Definition set_isLoading (v : bool) (s : state) : state :=
  mkState (jobDescription s) (skillGaps s) (userProgress s) (currentSession s)
    (currentQuestion s) (currentQuestionIndex s) (isInterviewActive s)
    (interviewPhase s) (isDarkMode s) (currentView s) v (error s)
    (voiceSettings s) (accessibilitySettings s) (isVoiceEnabled s) (isSpeaking s).

Definition set_voiceSettings (v : VoiceSettings.t) (s : state) : state :=
  mkState (jobDescription s) (skillGaps s) (userProgress s) (currentSession s)
    (currentQuestion s) (currentQuestionIndex s) (isInterviewActive s)
    (interviewPhase s) (isDarkMode s) (currentView s) (isLoading s) (error s)
    v (accessibilitySettings s) (isVoiceEnabled s) (isSpeaking s).

Definition set_accessibilitySettings (v : AccessibilitySettings.t) (s : state)
  : state :=
  mkState (jobDescription s) (skillGaps s) (userProgress s) (currentSession s)
    (currentQuestion s) (currentQuestionIndex s) (isInterviewActive s)
    (interviewPhase s) (isDarkMode s) (currentView s) (isLoading s) (error s)
    (voiceSettings s) v (isVoiceEnabled s) (isSpeaking s).

Definition set_isVoiceEnabled (v : bool) (s : state) : state :=
  mkState (jobDescription s) (skillGaps s) (userProgress s) (currentSession s)
    (currentQuestion s) (currentQuestionIndex s) (isInterviewActive s)
    (interviewPhase s) (isDarkMode s) (currentView s) (isLoading s) (error s)
    (voiceSettings s) (accessibilitySettings s) v (isSpeaking s).

Definition set_isSpeaking (v : bool) (s : state) : state :=
  mkState (jobDescription s) (skillGaps s) (userProgress s) (currentSession s)
    (currentQuestion s) (currentQuestionIndex s) (isInterviewActive s)
    (interviewPhase s) (isDarkMode s) (currentView s) (isLoading s) (error s)
    (voiceSettings s) (accessibilitySettings s) (isVoiceEnabled s) v.

(** [a ?? b] for an optional field of a partial object. *)
Definition orElse {A : Type} (o : option A) (d : A) : A :=
  match o with Some v => v | None => d end.

(** ** Actions *)

Definition setJobDescription (jobDescription : JobDescription.t) (s : state)
  : state :=
  set_error None (set_jobDescription (Some jobDescription) s).

Definition setSkillGaps (skillGaps : list SkillGap.t) (s : state) : state :=
  set_skillGaps skillGaps s.

(** [{ ...a, aiExplanation: explanation }] *)
Definition with_aiExplanation (a : Answer.t) (explanation : string) : Answer.t :=
  Answer.mk (Answer.questionId a) (Answer.userAnswer a) (Answer.code a)
    (Answer.score a) (Answer.feedback a) (Answer.timeSpent a)
    (Answer.attempts a) (Answer.isCorrect a) (Some explanation).

Definition explainAnswer (questionId : string) (s : state) : state :=
  match currentSession s with
  | None => s
  | Some cs =>
      match find (fun a => (Answer.questionId a =? questionId)%string)
                 (InterviewSession.answers cs) with
      | None => s
      | Some answer =>
          (* Simulate AI explanation *)
          let explanation :=
            ("Here's a detailed explanation: " ++ Answer.feedback answer
             ++ ". Key concepts: The solution demonstrates proper problem-solving approach and coding best practices.")%string in
          let updatedAnswers :=
            map (fun a =>
                   if (Answer.questionId a =? questionId)%string
                   then with_aiExplanation a explanation
                   else a)
                (InterviewSession.answers cs) in
          set_error None
            (set_currentSession (Some (with_answers cs updatedAnswers)) s)
      end
  end.


Definition toggleDarkMode (s : state) : state :=
  set_isDarkMode (negb (isDarkMode s)) s.

Definition setCurrentView (currentView : view) (s : state) : state :=
  set_error None (set_currentView currentView s).

Definition setLoading (isLoading : bool) (s : state) : state :=
  set_isLoading isLoading s.

Definition setError (error : option string) (s : state) : state :=
  set_error error s.

Definition clearError (s : state) : state := set_error None s.

Definition toggleVoice (s : state) : state :=
  set_isVoiceEnabled (negb (isVoiceEnabled s)) s.

(** [speak]: what the call does to the store.  [speechSynthesis] tells
    whether the browser has [window.speechSynthesis]; the text goes to the
    browser, and the end of the utterance is an event of its own. *)
Definition speak (speechSynthesis : bool) (s : state) : state :=
  if negb (isVoiceEnabled s) || negb speechSynthesis then s
  else set_isSpeaking true s.

(** [utterance.onend] and [utterance.onerror] *)
Definition utteranceEnded (s : state) : state := set_isSpeaking false s.

Definition stopSpeaking (s : state) : state := set_isSpeaking false s.

Definition updateVoiceSettings (settings : PartialVoiceSettings.t) (s : state)
  : state :=
  let v := voiceSettings s in
  set_voiceSettings
    {| VoiceSettings.isEnabled :=
         orElse (PartialVoiceSettings.isEnabled settings) (VoiceSettings.isEnabled v);
       VoiceSettings.language :=
         orElse (PartialVoiceSettings.language settings) (VoiceSettings.language v);
       VoiceSettings.rate :=
         orElse (PartialVoiceSettings.rate settings) (VoiceSettings.rate v);
       VoiceSettings.pitch :=
         orElse (PartialVoiceSettings.pitch settings) (VoiceSettings.pitch v);
       VoiceSettings.volume :=
         orElse (PartialVoiceSettings.volume settings) (VoiceSettings.volume v) |}
    s.

Definition updateAccessibilitySettings
    (settings : PartialAccessibilitySettings.t) (s : state) : state :=
  let a := accessibilitySettings s in
  set_accessibilitySettings
    {| AccessibilitySettings.highContrast :=
         orElse (PartialAccessibilitySettings.highContrast settings)
                (AccessibilitySettings.highContrast a);
       AccessibilitySettings.largeText :=
         orElse (PartialAccessibilitySettings.largeText settings)
                (AccessibilitySettings.largeText a);
       AccessibilitySettings.screenReader :=
         orElse (PartialAccessibilitySettings.screenReader settings)
                (AccessibilitySettings.screenReader a);
       AccessibilitySettings.reducedMotion :=
         orElse (PartialAccessibilitySettings.reducedMotion settings)
                (AccessibilitySettings.reducedMotion a) |}
    s.

Definition unlockBadge (badge : Badge.t) (now : Z) (s : state) : state :=
  let up := userProgress s in
  set_userProgress
    (UserProgress.mk (UserProgress.totalXP up) (UserProgress.level up)
       (UserProgress.completedInterviews up) (UserProgress.skillLevels up)
       (UserProgress.achievements up
        ++ [Badge.mk (Badge.id badge) (Badge.name badge) (Badge.description badge)
              (Badge.icon badge) true (Some now) (Badge.xpValue badge)])%list)
    s.

(** [{ ...skillLevels, [skill]: level }] on an object kept as the list of its
    entries: the key keeps its place when the object has it and comes last
    otherwise (the names of skills are not numbers, which an object would
    list first). *)
Fixpoint setKey (skill : string) (level : Q) (skillLevels : list (string * Q))
  : list (string * Q) :=
  match skillLevels with
  | [] => [(skill, level)]
  | (k, v) :: rest =>
      if (k =? skill)%string then (skill, level) :: rest
      else (k, v) :: setKey skill level rest
  end.

(** [skillLevels[skill]] *)
Fixpoint getKey (skill : string) (skillLevels : list (string * Q)) : option Q :=
  match skillLevels with
  | [] => None
  | (k, v) :: rest => if (k =? skill)%string then Some v else getKey skill rest
  end.

Definition updateSkillLevel (skill : string) (level : Q) (s : state) : state :=
  let up := userProgress s in
  set_userProgress
    (UserProgress.mk (UserProgress.totalXP up) (UserProgress.level up)
       (UserProgress.completedInterviews up)
       (setKey skill level (UserProgress.skillLevels up))
       (UserProgress.achievements up))
    s.

Definition resetInterview (s : state) : state :=
  set_error None
    (set_currentView view_upload
       (set_interviewPhase phase_setup
          (set_isInterviewActive false
             (set_currentQuestionIndex 0
                (set_currentQuestion None
                   (set_currentSession None s)))))).

Definition resetAll (s : state) : state :=
  set_error None
    (set_isLoading false
       (set_currentView view_upload
          (set_interviewPhase phase_setup
             (set_isInterviewActive false
                (set_currentQuestionIndex 0
                   (set_currentQuestion None
                      (set_currentSession None
                         (set_skillGaps []
                            (set_jobDescription None s))))))))).

(** ** Every action of the store as a command, and runs of commands. *)

Inductive command : Type :=
| SetJobDescription (jd : JobDescription.t)
| SetSkillGaps (gaps : list SkillGap.t)
| StartInterview (questions : list Question.t) (now startTime : Z)
| SubmitAnswer (answer : Answer.t)
| NextQuestion (now : Z)
| EndInterview (now : Z)
| RetryQuestion
| ExplainAnswer (questionId : string)
| ToggleDarkMode
| SetCurrentView (v : view)
| SetLoading (loading : bool)
| SetError (e : option string)
| ClearError
| ToggleVoice
| Speak (speechSynthesis : bool)
| UtteranceEnded
| StopSpeaking
| UpdateVoiceSettings (settings : PartialVoiceSettings.t)
| UpdateAccessibilitySettings (settings : PartialAccessibilitySettings.t)
| AddXP (amount : Q)
| UnlockBadge (badge : Badge.t) (now : Z)
| UpdateSkillLevel (skill : string) (level : Q)
| ResetInterview
| ResetAll.

Definition run (c : command) (s : state) : state :=
  match c with
  | SetJobDescription jd => setJobDescription jd s
  | SetSkillGaps gaps => setSkillGaps gaps s
  | StartInterview questions now startTime => startInterview questions now startTime s
  | SubmitAnswer answer => submitAnswer answer s
  | NextQuestion now => nextQuestion now s
  | EndInterview now => endInterview now s
  | RetryQuestion => retryQuestion s
  | ExplainAnswer questionId => explainAnswer questionId s
  | ToggleDarkMode => toggleDarkMode s
  | SetCurrentView v => setCurrentView v s
  | SetLoading loading => setLoading loading s
  | SetError e => setError e s
  | ClearError => clearError s
  | ToggleVoice => toggleVoice s
  | Speak speechSynthesis => speak speechSynthesis s
  | UtteranceEnded => utteranceEnded s
  | StopSpeaking => stopSpeaking s
  | UpdateVoiceSettings settings => updateVoiceSettings settings s
  | UpdateAccessibilitySettings settings => updateAccessibilitySettings settings s
  | AddXP amount => addXP amount s
  | UnlockBadge badge now => unlockBadge badge now s
  | UpdateSkillLevel skill level => updateSkillLevel skill level s
  | ResetInterview => resetInterview s
  | ResetAll => resetAll s
  end.

(** The commands of a list, run from left to right. *)
Definition runAll (cs : list command) (s : state) : state :=
  fold_left (fun st c => run c st) cs s.

End StoreActions.

(* ================================================================== *)
(** * The skill-gap analysis of SkillAnalysis                           *)
(**   (src/components/Upload/FileUpload.tsx)                            *)
(* ================================================================== *)

Module GapAnalysis.
Import Js.
Local Open Scope Z_scope.

(** [skills.includes(skill)] *)
Definition includesSkill (skills : list string) (skill : string) : bool :=
  existsb (fun s => (s =? skill)%string) skills.

(** The body of [allRequiredSkills.forEach].  [draw] is the value of
    [Math.floor(Math.random() * 3)]: the double that [Math.random] returns
    lies in [0, 1), so the floor of its product with 3 is 0, 1 or 2. *)
Definition gapFor (jobDescription : JobDescription.t) (skill : string)
    (draw : Z) : SkillGap.t :=
  let requiredLevel :=
    if includesSkill (JobDescription.requiredSkills jobDescription) skill
    then 8 else 6 in
  (* Since we don't have resume, assume user has basic knowledge (level 5-7) *)
  let assumedLevel := draw + 5 in
  let gap := Z.max 0 (requiredLevel - assumedLevel) in
  {| SkillGap.skill := skill;
     SkillGap.resumeLevel := assumedLevel;
     SkillGap.requiredLevel := requiredLevel;
     SkillGap.gap := gap;
     SkillGap.status :=
       if gap =? 0 then gap_match
       else if gap <=? 2 then gap_partial else gap_missing |}.

(** The loop: the [call]-th use of the random generator gives [draws call]. *)
Fixpoint gapsFrom (jobDescription : JobDescription.t) (skills : list string)
    (draws : nat -> Z) (call : nat) : list SkillGap.t :=
  match skills with
  | [] => []
  | skill :: rest =>
      gapFor jobDescription skill (draws call)
      :: gapsFrom jobDescription rest draws (S call)
  end.

(** The list [gaps] that the effect passes to [setSkillGaps]. *)
Definition analyseGaps (jobDescription : JobDescription.t) (draws : nat -> Z)
  : list SkillGap.t :=
  let allRequiredSkills :=
    (JobDescription.requiredSkills jobDescription
     ++ JobDescription.preferredSkills jobDescription)%list in
  gapsFrom jobDescription allRequiredSkills draws 0.

End GapAnalysis.

(* ================================================================== *)
(** * The input of the job description (FileUpload.handleJDInput)       *)
(* ================================================================== *)

Module JobInput.
Import Js Store StoreActions FileUpload.

Inductive status : Type :=
  status_idle | status_uploading | status_success | status_error.

(** The state of the component: the text of the box and the upload status. *)
Record component : Type := mkComponent
  { jdText : string; uploadStatus : status }.

(** What [handleJDInput] does at once: [pending] is the text whose analysis
    the timer holds, if any. *)
Definition handleJDInput (text : string) (c : component) (s : state)
  : component * state * option string :=
  if (String.length text <? 50)%nat then
    ({| jdText := text; uploadStatus := status_idle |}, s, None)
  else
    ({| jdText := text; uploadStatus := status_uploading |}, clearError s, Some text).

(** The callback of the timer, one second later. *)
Definition analyse (speechSynthesis : bool) (text : string) (c : component)
    (s : state) : component * state :=
  let isVoiceEnabled := isVoiceEnabled s in
  match parseJobDescription text with
  | Resolved jdData =>
      let s := setJobDescription jdData s in
      ({| jdText := jdText c; uploadStatus := status_success |},
       if isVoiceEnabled then speak speechSynthesis s else s)
  | Rejected errorMessage =>
      let s := setError (Some errorMessage) s in
      ({| jdText := jdText c; uploadStatus := status_error |},
       if isVoiceEnabled then speak speechSynthesis s else s)
  end.

(** An input that no later input follows within the second. *)
Definition input (speechSynthesis : bool) (text : string) (c : component)
    (s : state) : component * state :=
  match handleJDInput text c s with
  | (c', s', Some pending) => analyse speechSynthesis pending c' s'
  | (c', s', None) => (c', s')
  end.

(** [canProceed] *)
Definition canProceed (c : component) : bool :=
  match uploadStatus c with status_success => true | _ => false end.

End JobInput.

(* ================================================================== *)
(** * InterviewInterface (src/components/Interview/InterviewInterface.tsx) *)
(* ================================================================== *)

Module InterviewInterface.
Import Js Store StoreActions AnswerEvaluator.

(** The cells of the component. *)
Record component : Type := mkComponent
  { answer : string;
    code : string;
    isRecording : bool;
    timeSpent : Z;
    hasSubmitted : bool;
    evaluation : option Evaluation.t;
    isEvaluating : bool;
    showExplanation : bool }.

(** What a handler leaves behind: the component, the store and the error of
    a timer callback, which nothing catches. *)
Record outcome : Type := mkOutcome
  { after : component; store : state; uncaught : option string }.

Section Handlers.

Variable parsesAsFunctionBody : string -> bool.
Variable speechSynthesis : bool.

(** [if (isVoiceEnabled) speak(...)] with the flag the handler was built with. *)
Definition say (isVoiceEnabled : bool) (s : state) : state :=
  if isVoiceEnabled then speak speechSynthesis s else s.

Definition userAnswerOf (currentQuestion : Question.t) (c : component) : string :=
  if questionType_eqb (Question.type currentQuestion) coding
  then code c else answer c.

(** The callback of the timer of [handleSubmitAnswer].  The switch has a
    default case that no question type reaches. *)
Definition evaluationTimer (currentQuestion : Question.t) (isVoiceEnabled : bool)
    (c : component) (s : state) : outcome :=
  let userAnswer := userAnswerOf currentQuestion c in
  let evaluationResult :=
    match Question.type currentQuestion with
    | coding => evaluateCode parsesAsFunctionBody (code c) currentQuestion
    | sql => evaluateCode parsesAsFunctionBody (code c) currentQuestion
    | theoretical => Return (evaluateTheoretical (answer c) currentQuestion)
    | behavioral => Return (evaluateBehavioral (answer c) currentQuestion)
    end in
  match evaluationResult with
  | Throw e => mkOutcome c s (Some e)
  | Return evaluationResult =>
      let answerData :=
        {| Answer.questionId := Question.id currentQuestion;
           Answer.userAnswer := userAnswer;
           Answer.code :=
             match Question.type currentQuestion with
             | coding | sql => Some (code c)
             | _ => None
             end;
           Answer.score := Evaluation.score evaluationResult;
           Answer.feedback := Evaluation.feedback evaluationResult;
           Answer.timeSpent := inject_Z (timeSpent c);
           Answer.attempts := 1;
           Answer.isCorrect := Some (Evaluation.isCorrect evaluationResult);
           Answer.aiExplanation := None |} in
      mkOutcome
        {| answer := answer c; code := code c; isRecording := isRecording c;
           timeSpent := timeSpent c;
           hasSubmitted := true;
           evaluation := Some evaluationResult;
           isEvaluating := false;
           showExplanation := showExplanation c |}
        (say isVoiceEnabled (submitAnswer answerData s))
        None
  end.

Definition handleSubmitAnswer (c : component) (s : state) : outcome :=
  match currentQuestion s with
  | None => mkOutcome c s None
  | Some currentQuestion =>
      let userAnswer := userAnswerOf currentQuestion c in
      (* Check for empty answers *)
      if negb (truthy (trim userAnswer)) then
        mkOutcome c (say (isVoiceEnabled s) s) None
      else
        evaluationTimer currentQuestion (isVoiceEnabled s)
          {| answer := answer c; code := code c; isRecording := isRecording c;
             timeSpent := timeSpent c; hasSubmitted := hasSubmitted c;
             evaluation := evaluation c;
             isEvaluating := true;
             showExplanation := showExplanation c |}
          s
  end.

Definition handleRetryQuestion (c : component) (s : state) : outcome :=
  mkOutcome
    {| answer := ""; code := ""; isRecording := isRecording c;
       timeSpent := timeSpent c;
       hasSubmitted := false;
       evaluation := None;
       isEvaluating := isEvaluating c;
       showExplanation := false |}
    (say (isVoiceEnabled s) (retryQuestion s))
    None.

Definition handleNextQuestion (now : Z) (c : component) (s : state) : outcome :=
  let atLast :=
    match currentSession s with
    | Some currentSession =>
        (len (InterviewSession.questions currentSession) - 1
         <=? currentQuestionIndex s)%Z
    | None => false
    end in
  if atLast then mkOutcome c (say (isVoiceEnabled s) (endInterview now s)) None
  else mkOutcome c (say (isVoiceEnabled s) (nextQuestion now s)) None.

End Handlers.

(** ** What the page shows *)

(** The Submit button: [!hasSubmitted && !isEvaluating]. *)
Definition submitShown (c : component) : bool :=
  negb (hasSubmitted c) && negb (isEvaluating c).

(** The Next button: [hasSubmitted]. *)
Definition nextShown (c : component) : bool := hasSubmitted c.

(** The Retry button: [hasSubmitted && evaluation && !evaluation.isCorrect]. *)
Definition retryShown (c : component) : bool :=
  hasSubmitted c
  && match evaluation c with
     | Some e => negb (Evaluation.isCorrect e)
     | None => false
     end.

End InterviewInterface.

(* ================================================================== *)
(** * InterviewResults                                                  *)
(* ================================================================== *)

Module InterviewResults.
Import Js Store.

(** A number that may be [NaN]. *)
Definition number : Type := option Q.

(** [answers.reduce((sum, answer) => sum + answer.score, 0) / answeredQuestions]:
    the quotient of zero by zero is [NaN]. *)
Definition averageScore (currentSession : InterviewSession.t) : number :=
  let answers := InterviewSession.answers currentSession in
  let answeredQuestions := len answers in
  let total := fold_left (fun sum answer => sum + Answer.score answer)%Q answers 0%Q in
  if (answeredQuestions =? 0)%Z then None
  else Some (total / inject_Z answeredQuestions)%Q.

End InterviewResults.

(* ================================================================== *)
(** * The vocabulary of the properties                                  *)
(* ================================================================== *)

Module Properties.
Import Js Regex.

(** ** Evaluators *)

Section Evaluators.
Import AnswerEvaluator.
Local Open Scope Q_scope.

(** A score on the scale of the application. *)
Definition inScale (x : Q) : bool := Qle_bool 0 x && Qle_bool x 10.

(** What holds of the value of a call, when the call returns one. *)
Definition returns {A : Type} (c : completion A) (P : A -> Prop) : Prop :=
  match c with
  | Return a => P a
  | Throw _ => True
  end.

(** The substrings whose presence in the submission the code evaluators
    test, and those they test in the upper-cased submission. *)
Definition presenceChecks : list string :=
  ["function"; "=>"; "const"; "let"; ".reverse()"; "for"; "while"; "sort";
   "Math.max"; "def "; "lambda"; "return"; "    "; "[::-1]"; "if"].

Definition upperCaseChecks : list string :=
  ["SELECT"; "FROM"; "LIMIT"; "OFFSET"; "ROW_NUMBER()"; "RANK()"; "JOIN"].

(** Two submissions pass the same guards, the same presence checks and the
    same length thresholds. *)
Definition sameChecks (c1 c2 : string) : bool :=
  Bool.eqb (isBlank c1) (isBlank c2)
  && Bool.eqb (isNonsenseInput c1) (isNonsenseInput c2)
  && forallb (fun k => Bool.eqb (includes c1 k) (includes c2 k)) presenceChecks
  && forallb (fun k => Bool.eqb (includesUnits (toUpperCase c1) k)
                                (includesUnits (toUpperCase c2) k)) upperCaseChecks
  && Bool.eqb (String.length c1 <? 10)%nat (String.length c2 <? 10)%nat
  && Bool.eqb (20 <? String.length c1)%nat (20 <? String.length c2)%nat.

(** The result of evaluateCode is a function of those checks alone. *)
Definition presenceOnly : Prop :=
  forall (parses : string -> bool) (c1 c2 : string) (q : Question.t),
    sameChecks c1 c2 = true ->
    evaluateCode parses c1 q = evaluateCode parses c2 q.

(** The score that the checks of evaluateJavaScript on the question and on
    the submission give before the syntax check: 0 for a question that
    mentions neither [reverse] nor [second largest]. *)
Definition patternScore (code : string) (q : Question.t) : Q :=
  if questionMentions q "second largest" then
    if includes code "sort" then 6
    else if includes code "Math.max" then 7 else 5
  else if questionMentions q "reverse" then
    if includes code ".reverse()" then 3
    else if includes code "for" || includes code "while" then 8 else 4
  else 0.

(** What the verdict of the syntax check does to the result: two points
    more when the submission parses, two points less (not below 0) and the
    issue [Syntax error detected] when it does not; the score is capped at
    10 and the answer is correct from 7 on. *)
Definition syntaxChecked (parses : string -> bool) (code : string)
    (q : Question.t) : Prop :=
  let adjusted :=
    if parses code then patternScore code q + 2
    else Qmax 0 (patternScore code q - 2) in
  exists r,
    evaluateCode parses code q = Return r
    /\ Evaluation.score r = Qmin 10 adjusted
    /\ Evaluation.isCorrect r = Qle_bool 7 adjusted
    /\ includes (Evaluation.feedback r) "Syntax error detected"
       = negb (parses code).

(** The analysis names Situation among the elements found. *)
Definition listsSituation (r : Evaluation.t) : Prop :=
  exists analysis,
    Evaluation.starAnalysis r = Some analysis
    /\ String.prefix "STAR Elements Found: Situation" analysis = true.

(** The answer is scored by its STAR elements, Situation among them. *)
Definition scoredBySituation (answer : string) (q : Question.t) : Prop :=
  2 <= Evaluation.score (evaluateBehavioral answer q)
  /\ listsSituation (evaluateBehavioral answer q).

(** Every non-empty answer with no run of five equal characters and no mash
    pattern that contains the word is scored so. *)
Definition behavioralClaim : Prop :=
  forall (answer : string) (q : Question.t),
    answer <> "" ->
    repeatedCharacters (cleanedOf answer) = false ->
    keyboardMashing (cleanedOf answer) = false ->
    includes answer "situation" = true ->
    scoredBySituation answer q.

End Evaluators.

(** ** Job descriptions *)

Section Parsing.
Import FileUpload.

(** The text is empty or its trimmed length is below 50. *)
Definition tooShort (text : string) : Prop :=
  text = "" \/ String.length (trim text) < 50.

(** Skill extraction finds no required skill. *)
Definition noRequiredSkills (text : string) : Prop :=
  required (extractSkillsFromText text) = [].

(** The skill occurs in the text whatever the case of the letters, as it is
    written or with its dots and white space removed. *)
Definition occursIn (text skill : string) : Prop :=
  includes (toLowerCase text) (toLowerCase skill) = true
  \/ includes (toLowerCase text) (removeDotsAndSpaces (toLowerCase skill)) = true.

(** The match of the first pattern of the list that matches the text. *)
Fixpoint firstMatch (patterns : list pattern) (text : string)
  : option matchResult :=
  match patterns with
  | [] => None
  | p :: rest =>
      match exec (pflags p) (re p) text with
      | Some res => Some res
      | None => firstMatch rest text
      end
  end.

(** [out] is the trimmed first capture of the match [res]. *)
Definition trimmedFirstCapture (res : matchResult) (out : string) : Prop :=
  exists w, group 1 res = Some w /\ out = trim w.

(** [out] is what the first matching pattern captures, trimmed, or the
    fallback when no pattern matches. *)
Definition firstCaptureOr (patterns : list pattern) (text fallback out : string)
  : Prop :=
  match firstMatch patterns text with
  | Some res => trimmedFirstCapture res out
  | None => out = fallback
  end.

(** A pattern that ends with its first group, whose body consumes input. *)
Fixpoint capturesLast (r : regex) : bool :=
  match r with
  | Group 1 body => negb (nullable body)
  | Seq _ r2 => capturesLast r2
  | _ => false
  end.

End Parsing.

(** ** Question batteries *)

Section Batteries.
Import FileUpload SkillAnalysis.

(** The number of coding questions the loop keeps from position [index]. *)
Fixpoint codingKept (codingLanguages : list string) (index : nat) : nat :=
  match codingLanguages with
  | [] => 0
  | _ :: rest => (if index =? 0 then 3 else 2) + codingKept rest (S index)
  end.

(** The battery has questions of the four types: some coding ones, 5 sql,
    10 theoretical and 5 behavioral ones. *)
Definition fourTypes (battery : list Question.t) : Prop :=
  0 < countType coding battery
  /\ countType sql battery = 5
  /\ countType theoretical battery = 10
  /\ countType behavioral battery = 5.

(** Every parsed job description gets such a battery. *)
Definition batteryClaim : Prop :=
  forall (text : string) (jd : JobDescription.t) (skillGaps : list SkillGap.t),
    parseJobDescription text = Resolved jd ->
    fourTypes (generateQuestions (Some jd) skillGaps).

End Batteries.

(** ** The store *)

Section Interviews.
Import Store.
Local Open Scope Z_scope.

(** The invariant of an active interview. *)
Definition activeInvariant (s : state) : Prop :=
  exists cs,
    currentSession s = Some cs
    /\ 0 <= currentQuestionIndex s < len (InterviewSession.questions cs)
    /\ currentQuestion s
       = at_index (InterviewSession.questions cs) (currentQuestionIndex s).

(** What [nextQuestion] does to a state [s], giving [s']: it advances the
    index by one, or it ends the interview when no question is left. *)
Definition advancesOrEnds (s s' : state) : Prop :=
  (currentQuestionIndex s' = currentQuestionIndex s + 1
   /\ isInterviewActive s' = true)
  \/ (isInterviewActive s' = false
      /\ forall cs, currentSession s = Some cs ->
                    len (InterviewSession.questions cs) <= currentQuestionIndex s + 1).

(** The invariant kept by every action once an interview has started on the
    list [questions]. *)
Definition runInvariant (questions : list Question.t) (s : state) : Prop :=
  exists cs,
    currentSession s = Some cs
    /\ InterviewSession.questions cs = questions
    /\ 0 <= currentQuestionIndex s < len questions
    /\ currentQuestion s = at_index questions (currentQuestionIndex s).

(** The invariant holds in every active state of every run. *)
Definition storeClaim : Prop :=
  forall (questions : list Question.t) (s : state),
    reachable questions s ->
    isInterviewActive s = true ->
    activeInvariant s.

(** Two states agree on the four persisted fields. *)
Definition samePreferences (s1 s2 : state) : Prop :=
  isDarkMode s1 = isDarkMode s2
  /\ voiceSettings s1 = voiceSettings s2
  /\ accessibilitySettings s1 = accessibilitySettings s2
  /\ userProgress s1 = userProgress s2.

End Interviews.

(** ** Sample inputs *)

Definition javascriptQuestion : Question.t :=
  Question.mk "3" coding "Implement a binary search algorithm in JavaScript"
    medium (Some "javascript") None None "Search Algorithms" 20.

Definition javaQuestion : Question.t :=
  Question.mk "3" coding "Implement a binary search algorithm in Java"
    medium (Some "java") None None "Search Algorithms" 20.

Definition javaSubmission : string :=
  "public int twice(int x) { return 2 * x; }".

Definition teamworkQuestion : Question.t :=
  Question.mk "22" behavioral
    "Describe a situation where you had to work with a difficult team member"
    medium None None None "Teamwork" 15.

Definition cleanCodeQuestion : Question.t :=
  Question.mk "1" theoretical "What are the principles of clean code?"
    easy None None None "Code Quality" 10.

Definition deadlineQuestion : Question.t :=
  Question.mk "2" behavioral "How do you handle tight deadlines and pressure?"
    medium None None None "Stress Management" 15.

Definition sampleAnswer : Answer.t :=
  Answer.mk "1" "Small functions and clear names." None 2 "Too brief" 30 1
    (Some false) None.

(** An interview on two questions: the first is answered, then left. *)
Definition sampleRun : Store.state :=
  Store.step (Store.NextQuestion 2000)
    (Store.step (Store.SubmitAnswer sampleAnswer)
       (Store.startInterview [cleanCodeQuestion; deadlineQuestion] 1000 1000
          Store.initialState)).

Definition opsDescription : string :=
  "We need Docker and Kubernetes skills and AWS and Linux in this team. Join us today!!".

Definition pythonDescription : string :=
  "Title: Backend Developer. We need a Python developer with Docker and Linux skills.".

Definition pythonJob : JobDescription.t :=
  {| JobDescription.title :=
       "Backend Developer. We need a Python developer with Docker and Linux skills.";
     JobDescription.company := "TechCorp Inc.";
     JobDescription.requiredSkills := ["Python"; "Docker"; "Linux"];
     JobDescription.preferredSkills := ["R"];
     JobDescription.description := pythonDescription;
     JobDescription.experience := "2-5 years";
     JobDescription.languages := ["Python"];
     JobDescription.tools := ["Docker"];
     JobDescription.softSkills := [] |}.

End Properties.

(* ================================================================== *)
(** * The vocabulary of the other properties                        *)
(* ================================================================== *)

Module StoreProperties.
Import Store StoreActions.
Local Open Scope Z_scope.

(** The current question is the one at the index whenever there is a
    session, and there is none, at index 0 and with no active interview,
    when there is no session. *)
Definition questionConsistent (s : state) : Prop :=
  match currentSession s with
  | Some cs =>
      currentQuestion s
      = at_index (InterviewSession.questions cs) (currentQuestionIndex s)
      /\ 0 <= currentQuestionIndex s
      /\ (currentQuestionIndex s < len (InterviewSession.questions cs)
          \/ currentQuestionIndex s = 0)
  | None =>
      currentQuestion s = None
      /\ currentQuestionIndex s = 0
      /\ isInterviewActive s = false
  end.

(** While an interview is active the phase is the one of the current
    question. *)
Definition phaseConsistent (s : state) : Prop :=
  isInterviewActive s = true -> interviewPhase s = phaseOf (currentQuestion s).

(** The level is the one the total of experience points gives. *)
Definition levelConsistent (s : state) : Prop :=
  UserProgress.level (userProgress s)
  = Qfloor (UserProgress.totalXP (userProgress s) / 1000)%Q + 1.

(** The number of [NextQuestion] actions of a list. *)
Fixpoint nexts (l : list action) : Z :=
  match l with
  | [] => 0
  | Store.NextQuestion _ :: l' => 1 + nexts l'
  | _ :: l' => nexts l'
  end.

(** The actions of a list, run from left to right. *)
Definition steps (l : list action) (s : state) : state :=
  fold_left (fun st a => step a st) l s.

(** Where an interview on [n] questions stands after [k] calls of
    [nextQuestion], given the [c] interviews completed before it. *)
Definition standsAt (questions : list Question.t) (c k : Z) (s : state) : Prop :=
  (exists cs, currentSession s = Some cs
              /\ InterviewSession.questions cs = questions)
  /\ currentQuestionIndex s = Z.min k (len questions - 1)
  /\ isInterviewActive s = (k <? len questions)
  /\ UserProgress.completedInterviews (userProgress s)
     = c + Z.max 0 (k - len questions + 1).

(** The answers of the session, none when there is no session. *)
Definition answersOf (s : state) : list Answer.t :=
  match currentSession s with
  | Some cs => InterviewSession.answers cs
  | None => []
  end.

Definition inScaleAnswer (a : Answer.t) : Prop :=
  (0 <= Answer.score a <= 10)%Q.

(** The mean of a list of numbers. *)
Definition mean (l : list Q) : Q :=
  (fold_right Qplus 0 l / inject_Z (len l))%Q.

(** An answer with its explanation taken away. *)
Definition withoutExplanation (a : Answer.t) : Answer.t :=
  Answer.mk (Answer.questionId a) (Answer.userAnswer a) (Answer.code a)
    (Answer.score a) (Answer.feedback a) (Answer.timeSpent a)
    (Answer.attempts a) (Answer.isCorrect a) None.

(** The state with its session and its error message taken away, and the
    session with its answers taken away. *)
Definition outsideSession (s : state) : state :=
  set_error None (set_currentSession None s).

Definition outsideAnswers (s : state) : option InterviewSession.t :=
  option_map (fun cs => with_answers cs []) (currentSession s).

(** The text explainAnswer writes for an answer with this feedback. *)
Definition explanationOf (feedback : string) : string :=
  ("Here's a detailed explanation: " ++ feedback
   ++ ". Key concepts: The solution demonstrates proper problem-solving approach and coding best practices.")%string.

(** An interview on two questions, just started, and its session. *)
Definition sampleStart : state :=
  startInterview [Properties.cleanCodeQuestion; Properties.deadlineQuestion]
    1000 1000 initialState.

Definition sampleSession : InterviewSession.t :=
  {| InterviewSession.id := "1000";
     InterviewSession.userId := "user";
     InterviewSession.questions :=
       [Properties.cleanCodeQuestion; Properties.deadlineQuestion];
     InterviewSession.answers := [];
     InterviewSession.startTime := 1000;
     InterviewSession.endTime := None;
     InterviewSession.overallScore := 0;
     InterviewSession.skillScores := [];
     InterviewSession.currentQuestionIndex := 0;
     InterviewSession.totalQuestions := 2;
     InterviewSession.badges := [];
     InterviewSession.xpEarned := 0 |}.

End StoreProperties.

Module EvaluatorProperties.
Import Js AnswerEvaluator SkillAnalysis Properties.
Local Open Scope Q_scope.

(** The score from which a question counts as answered correctly: 6 in the
    generic evaluator and 7 everywhere else. *)
Definition thresholdOf (q : Question.t) : Q :=
  let language := languageOf q in
  if (language =? "javascript")%string || (language =? "python")%string
     || (language =? "sql")%string
  then 7 else 6.

(** The result of a guard: no point and not correct. *)
Definition rejected (r : Evaluation.t) : Prop :=
  Evaluation.score r = 0 /\ Evaluation.isCorrect r = false.

(** The question has no text the JavaScript evaluator knows. *)
Definition unknownToJavaScript (q : Question.t) : bool :=
  negb (questionMentions q "reverse") && negb (questionMentions q "second largest").

(** The question has no category the theoretical evaluator knows. *)
Definition plainQuestion (q : Question.t) : bool :=
  negb (questionMentions q "rest" && questionMentions q "graphql")
  && negb (questionMentions q "solid")
  && negb (questionMentions q "microservices").

(** The keywords of the Action and Result elements. *)
Definition actionAndResultWords : list string :=
  ["action"; "did"; "implemented"; "decided";
   "result"; "outcome"; "achieved"; "improved"].

Definition mentionsNone (answer : string) (words : list string) : bool :=
  forallb (fun w => negb (includes (toLowerCase answer) w)) words.

Definition allSpace (s : string) : bool :=
  forallb isSpace (list_ascii_of_string s).

(** The characters of [k] all pass the filter. *)
Fixpoint allPass (p : ascii -> bool) (k : string) : bool :=
  match k with
  | EmptyString => true
  | String c k' => p c && allPass p k'
  end.

(** A job description that requires SQL, and the first sql question of
    its battery with a query that answers it. *)
Definition sqlJob : JobDescription.t :=
  {| JobDescription.title := "Backend Developer";
     JobDescription.company := "TechCorp Inc.";
     JobDescription.requiredSkills := ["Python"; "SQL"; "Docker"];
     JobDescription.preferredSkills := [];
     JobDescription.description :=
       "Backend Developer. We need Python, SQL and Docker skills in our data platform group.";
     JobDescription.experience := "2-5 years";
     JobDescription.languages := ["Python"];
     JobDescription.tools := ["Docker"];
     JobDescription.softSkills := [] |}.

Definition salaryQuestion : Question.t :=
  Question.mk "4" sql
    "Write a query to find the second highest salary from an Employee table"
    medium None None None "Database Queries" 15.

Definition salaryQuery : string :=
  "SELECT MAX(salary) FROM Employee WHERE salary < (SELECT MAX(salary) FROM Employee);".

End EvaluatorProperties.

Module NonsenseProperties.
Import Js Regex AnswerEvaluator.

(** The words of [reCodeKeyword]. *)
Definition codeKeywords : list string :=
  ["function"; "class"; "def"; "select"; "if"; "for";
   "while"; "return"; "print"; "console"].

(** Letters of the English alphabet and white space only: no digit, no
    punctuation mark. *)
Definition lettersAndSpaces (input : string) : bool :=
  forallb (fun c => isLower c || isUpper c || isSpace c)
    (list_ascii_of_string input).

(** The input, cleaned, is one of the keywords. *)
Definition isCodeKeyword (input : string) : bool :=
  existsb (String.eqb (cleanedOf input)) codeKeywords.

(** What a character before the position and the rest of the input allow:
    at the start the whole input is not a keyword, and later the character
    before is a word character. *)
Definition noKeywordAt (last : option ascii) (s : list ascii) : Prop :=
  match last with
  | None => ~ In (string_of_list_ascii s) codeKeywords
  | Some p => isWordChar p = true
  end.

End NonsenseProperties.

Module PipelineProperties.
Import Js AnswerEvaluator FileUpload SkillAnalysis.

(** The values [languageOf] takes on the questions of a battery. *)
Definition batteryLanguages : list string :=
  ["javascript"; "python"; "java"; "c++"; "c#"; "typescript"; "go"; "rust";
   "php"; "ruby"; "swift"; "kotlin"].

(** The six soft skills of [extractSoftSkillsFromText]. *)
Definition allSoftSkills : list string :=
  ["Communication"; "Teamwork"; "Leadership"; "Problem Solving";
   "Time Management"; "Adaptability"].

(** One of the three words that select every soft skill occurs. *)
Definition mentionsTeamwork (text : string) : bool :=
  includes (toLowerCase text) "team"
  || includes (toLowerCase text) "collaborate"
  || includes (toLowerCase text) "communicate".

(** The identifiers of [qs] are the numbers [ks], in order. *)
Definition numbered (qs : list Question.t) (ks : list nat) : Prop :=
  map Question.id qs = map natToString ks.

(** Strictly increasing numbers between two bounds. *)
Fixpoint ascending (lo : nat) (ks : list nat) (hi : nat) : Prop :=
  match ks with
  | [] => lo <= hi
  | k :: ks' => lo <= k /\ ascending (S k) ks' hi
  end.

(** A job description that asks for JavaScript, as the parser reads it. *)
Definition javascriptDescription : string :=
  "We are hiring a JavaScript developer with React and SQL experience for our web team.".

Definition javascriptJob : JobDescription.t :=
  {| JobDescription.title := javascriptDescription;
     JobDescription.company := "TechCorp Inc.";
     JobDescription.requiredSkills := ["JavaScript"; "Java"; "React"];
     JobDescription.preferredSkills := ["SQL"; "R"];
     JobDescription.description := javascriptDescription;
     JobDescription.experience := "2-5 years";
     JobDescription.languages := ["JavaScript"; "Java"];
     JobDescription.tools := [];
     JobDescription.softSkills := allSoftSkills |}.

(** The first question of the battery of [Properties.pythonJob]. *)
Definition pythonReverseQuestion : Question.t :=
  Question.mk "1" coding
    "Implement a function to reverse a string without using built-in reverse methods in Python"
    easy (Some "python") None None "Data Structures" 10.

End PipelineProperties.

Module ComponentProperties.
Import Js Store StoreActions.
Local Open Scope Z_scope.

(** The levels of one entry of the gap analysis, for a skill that is
    required and for one that is only preferred. *)
Definition requiredGap (g : SkillGap.t) : Prop :=
  SkillGap.requiredLevel g = 8
  /\ 1 <= SkillGap.gap g <= 3
  /\ SkillGap.status g <> gap_match
  /\ (SkillGap.status g = gap_missing <-> SkillGap.resumeLevel g = 5).

Definition preferredGap (g : SkillGap.t) : Prop :=
  SkillGap.requiredLevel g = 6
  /\ 0 <= SkillGap.gap g <= 1
  /\ SkillGap.status g <> gap_missing
  /\ (SkillGap.status g = gap_match <-> 6 <= SkillGap.resumeLevel g).

End ComponentProperties.

Module InterfaceProperties.
Import Js Store StoreActions StoreProperties InterviewInterface.
Local Open Scope Z_scope.

(** The component of a question just shown, with the two inputs filled in. *)
Definition typed (answer code : string) : component :=
  {| answer := answer; code := code; isRecording := false; timeSpent := 30;
     hasSubmitted := false; evaluation := None; isEvaluating := false;
     showExplanation := false |}.

(** The facts a recorded submission comes with. *)
Definition recorded (q : Question.t) (cs : InterviewSession.t) (s : state)
    (o : outcome) : Prop :=
  exists (r : Evaluation.t) (a : Answer.t),
    evaluation (after o) = Some r
    /\ submitShown (after o) = false
    /\ nextShown (after o) = true
    /\ retryShown (after o) = negb (Evaluation.isCorrect r)
    /\ answersOf (store o) = (InterviewSession.answers cs ++ [a])%list
    /\ Answer.questionId a = Question.id q
    /\ Answer.score a = Evaluation.score r
    /\ (0 <= Answer.score a <= 10)%Q
    /\ UserProgress.totalXP (userProgress (store o))
       = (UserProgress.totalXP (userProgress s)
          + inject_Z (Qfloor (Answer.score a * 10)))%Q
    /\ 0 <= Qfloor (Answer.score a * 10) <= 100.

End InterfaceProperties.

(* ================================================================== *)
(** * The embedding at work                                             *)
(* ================================================================== *)

Module Examples.
Import Js AnswerEvaluator FileUpload SkillAnalysis Properties.

Example letters_only_pattern :
  Regex.test Regex.noFlags reLettersOnly "abc" = true
  /\ Regex.test Regex.noFlags reLettersOnly "ab" = false
  /\ Regex.test Regex.noFlags reLettersOnly "abc1" = false.
Proof. repeat split. Qed.

Example repeated_pattern :
  option_map Regex.matched (Regex.exec Regex.noFlags reRepeated "abcccccccd")
  = Some "ccccccc"
  /\ Regex.test Regex.noFlags reRepeated "abccccd" = false.
Proof. split; vm_compute; reflexivity. Qed.

Example keyword_pattern :
  option_map Regex.index (Regex.exec Regex.noFlags reCodeKeyword "a if b") = Some 2
  /\ Regex.test Regex.noFlags reCodeKeyword "gift" = false.
Proof. split; vm_compute; reflexivity. Qed.

Example nonsense_mash : isNonsenseInput "x = 1234;" = true.
Proof. vm_compute. reflexivity. Qed.

Example nonsense_letters_only :
  isNonsenseInput "We faced a difficult situation" = true
  /\ isNonsenseInput "We faced a difficult situation." = false.
Proof. split; vm_compute; reflexivity. Qed.

Example javascript_loop_scores_ten :
  option_map Evaluation.score
    (match evaluateCode (fun _ => true)
             "function rev(s) { let out = ''; for (const c of s) { out = c + out; } return out; }"
             (Question.mk "1" coding
                "Implement a function to reverse a string without using built-in reverse methods in JavaScript"
                easy (Some "javascript") None None "Data Structures" 10)
     with Return r => Some r | Throw _ => None end)
  = Some 10%Q.
Proof. vm_compute. reflexivity. Qed.

Example microservices_four_concepts :
  Evaluation.score
    (evaluateTheoretical
       "Independent, scalable services, each with its own database and deployment."
       (Question.mk "9" theoretical
          "Explain microservices architecture and its advantages"
          hard None None None "System Design" 25))
  = (12 # 2)%Q.
Proof. vm_compute. reflexivity. Qed.

Example star_complete :
  Evaluation.starAnalysis
    (evaluateBehavioral
       "When our release failed, I was responsible for the fix. I implemented a rollback and the outcome was good."
       teamworkQuestion)
  = Some "STAR Elements Found: Situation, Task, Action, Result".
Proof. vm_compute. reflexivity. Qed.

Example title_of_position_line :
  extractTitleFromText ("Position: Senior React Developer" ++ nl ++ "Acme Corp is growing")
  = "Senior React Developer".
Proof. vm_compute. reflexivity. Qed.

Example company_after_at :
  extractCompanyFromText "Join us at Big Data Inc today" = "Big Data Inc".
Proof. vm_compute. reflexivity. Qed.

Example experience_range :
  extractExperienceFromText "You bring 3 to 5 years of experience."
  = "3 to 5 years of experience".
Proof. vm_compute. reflexivity. Qed.

Example skills_split :
  extractSkillsFromText "We use React, NodeJS, Docker and PostgreSQL on AWS."
  = {| required := ["React"; "Node.js"; "SQL"; "AWS"];
       preferred := ["Docker"; "PostgreSQL"; "R"] |}.
Proof. vm_compute. reflexivity. Qed.

Example python_job_parsed :
  parseJobDescription pythonDescription = Resolved pythonJob.
Proof. vm_compute. reflexivity. Qed.

Example python_job_question_ids :
  map Question.id (generateQuestions (Some pythonJob) [])
  = ["1"; "2"; "3"; "4"; "5"; "6"; "7"; "8"; "9"; "10"; "11"; "12"; "13";
     "14"; "15"; "16"; "17"; "18"].
Proof. vm_compute. reflexivity. Qed.

(** The question of [javaQuestion] is the third one of the battery of a job
    description that asks for Java. *)
Example java_question_generated :
  match parseJobDescription
          "Title: Backend Developer. We need a Java developer with Docker and Linux skills."
  with
  | Resolved jd => nth_error (generateQuestions (Some jd) []) 2 = Some javaQuestion
  | Rejected _ => False
  end.
Proof. vm_compute. reflexivity. Qed.

(** White space and letters beyond ASCII. *)
Example no_break_space_is_white_space :
  trim (nbsp ++ " Engineer" ++ nbsp) = "Engineer"
  /\ isBlank (nbsp ++ nbsp) = true
  /\ cleanedOf ("situation" ++ nbsp ++ "one") = "situationone"
  /\ extractTitleFromText ("Title:" ++ nbsp ++ "Engineer") = "Engineer".
Proof. repeat split. Qed.

Example padded_text_is_too_short :
  String.length ("We need Python and Docker and Linux skills today.." ++ nbsp) = 51
  /\ parseJobDescription
       ("We need Python and Docker and Linux skills today.." ++ nbsp)
     = Resolved
         {| JobDescription.title := "Software Developer";
            JobDescription.company := "TechCorp Inc.";
            JobDescription.requiredSkills := ["Python"; "Docker"; "Linux"];
            JobDescription.preferredSkills := ["R"];
            JobDescription.description :=
              "We need Python and Docker and Linux skills today.." ++ nbsp;
            JobDescription.experience := "2-5 years";
            JobDescription.languages := ["Python"];
            JobDescription.tools := ["Docker"];
            JobDescription.softSkills := [] |}
  /\ parseJobDescription
       ("We need Python and Docker and Linux skills today." ++ nbsp)
     = Rejected tooShortMessage.
Proof. vm_compute. repeat split. Qed.

Example latin1_case_mappings :
  toLowerCase (capitalEAcute ++ "cole") = smallEAcute ++ "cole"
  /\ toUpperCase (smallEAcute ++ "t" ++ smallEAcute) = [201; 84; 201]
  /\ toUpperCase (String (ascii_of_nat 223) EmptyString) = [83; 83]
  /\ toUpperCase (String (ascii_of_nat 255) EmptyString) = [376]
  /\ toLowerCase (String (ascii_of_nat 215) EmptyString)
     = String (ascii_of_nat 215) EmptyString
  /\ isNonsenseInput
       (capitalEAcute ++ smallEAcute ++ capitalEAcute ++ smallEAcute
        ++ capitalEAcute ++ " situation.") = true.
Proof. vm_compute. repeat split. Qed.

Example sample_run_state :
  Store.currentQuestionIndex sampleRun = 1%Z
  /\ Store.currentQuestion sampleRun = Some deadlineQuestion
  /\ Store.isInterviewActive sampleRun = true
  /\ Store.isInterviewActive (Store.nextQuestion 3000 sampleRun) = false.
Proof. repeat split. Qed.

End Examples.

(* ================================================================== *)
(** * Facts about the string primitives                                 *)
(* ================================================================== *)

Module StringFacts.
Import Js.

Lemma prefix_smap (f : ascii -> ascii) (s k : string) :
  String.prefix k s = true -> String.prefix (smap f k) (smap f s) = true.
Proof.
  revert k. induction s as [ | b s IH ]; intros [ | a k ]; cbn; trivial.
  destruct (ascii_dec a b) as [ -> | ]; [ | discriminate ].
  intros H. destruct (ascii_dec (f b) (f b)); [ auto | congruence ].
Qed.

(** A substring stays one when both texts go through a character map. *)
Lemma includes_smap (f : ascii -> ascii) (s k : string) :
  includes s k = true -> includes (smap f s) (smap f k) = true.
Proof.
  induction s as [ | b s IH ]; cbn [includes smap]; intros H;
    apply orb_true_iff in H; apply orb_true_iff; destruct H as [ H | H ].
  - left. apply (prefix_smap f "" k H).
  - discriminate.
  - left. apply (prefix_smap f (String b s) k H).
  - right. auto.
Qed.

Definition nonSpace (c : ascii) : bool := negb (isSpace c).

Lemma sfilter_cons (p : ascii -> bool) (c : ascii) (s : string) :
  sfilter p (String c s)
  = if p c then String c (sfilter p s) else sfilter p s.
Proof. reflexivity. Qed.

Lemma sfilter_trimStart (s : string) :
  sfilter nonSpace (trimStart s) = sfilter nonSpace s.
Proof.
  induction s as [ | c s IH ]; cbn [trimStart]; [ reflexivity | ].
  destruct (isSpace c) eqn:E; [ | reflexivity ].
  rewrite sfilter_cons. unfold nonSpace at 2. rewrite E. exact IH.
Qed.

Lemma sfilter_trimEnd (s : string) :
  sfilter nonSpace (trimEnd s) = sfilter nonSpace s.
Proof.
  induction s as [ | c s IH ]; cbn [trimEnd]; [ reflexivity | ].
  rewrite (sfilter_cons nonSpace c s), <- IH.
  destruct (trimEnd s) as [ | d t ].
  - unfold nonSpace at 2. destruct (isSpace c) eqn:E; [ reflexivity | ].
    rewrite sfilter_cons. unfold nonSpace at 1. rewrite E. reflexivity.
  - apply sfilter_cons.
Qed.

(** Trimming removes white space only. *)
Lemma sfilter_trim (s : string) :
  sfilter nonSpace (trim s) = sfilter nonSpace s.
Proof.
  unfold trim. rewrite sfilter_trimEnd. apply sfilter_trimStart.
Qed.

Lemma length_zero_empty (s : string) : String.length s = 0 -> s = "".
Proof.
  destruct s; [ reflexivity | discriminate ].
Qed.

(** A text that contains, once lower-cased, a word whose first character no
    white space is mapped to, has a character that is not white space. *)
Lemma includes_nonSpace (c : ascii) (k s : string) :
  (forall a, lowerChar a = c -> isSpace a = false) ->
  includes (toLowerCase s) (String c k) = true ->
  sfilter nonSpace s <> "".
Proof.
  intros Hc. induction s as [ | a s IH ]; cbn; [ discriminate | ].
  destruct (ascii_dec c (lowerChar a)) as [ E | _ ].
  - intros _. unfold nonSpace. rewrite (Hc a (eq_sym E)). discriminate.
  - cbn [orb]. intros H. specialize (IH H).
    destruct (nonSpace a); [ discriminate | assumption ].
Qed.

Lemma lowerChar_s_not_space (a : ascii) :
  lowerChar a = "s"%char -> isSpace a = false.
Proof.
  destruct a as [ [] [] [] [] [] [] [] [] ]; vm_compute; intros H;
    try reflexivity; discriminate H.
Qed.

End StringFacts.

(* ================================================================== *)
(** * Facts about the matcher                                           *)
(* ================================================================== *)

Module RegexFacts.
Import Js Regex Properties.

Section Progress.

Variable A : Type.
Variable f : flags.

Lemma readWord_length (w s : list ascii) (last l' : option ascii) (s' : list ascii) :
  readWord f w s last = Some (l', s') -> length s' <= length s.
Proof.
  revert s last. induction w as [ | a w IH ]; intros s last H; cbn in H.
  - injection H as _ <-. apply le_n.
  - destruct s as [ | b s ]; [ discriminate | ].
    destruct (eqc f a b); [ | discriminate ].
    apply IH in H. cbn. lia.
Qed.

(** What a successful run of a pattern owes to its continuation: the
    continuation succeeded on a suffix of the input, a proper one when the
    pattern cannot match the empty text. *)
Definition progress (r : regex) : Prop :=
  forall (last : option ascii) (s : list ascii) (c : captures) (k : cont A) (x : A),
    m f r last s c k = Some x ->
    exists l' s' c',
      k l' s' c' = Some x
      /\ length s' <= length s
      /\ (nullable r = false -> length s' < length s).

Lemma star_progress (r : regex) :
  progress r ->
  forall (n : nat) (last : option ascii) (s : list ascii) (c : captures)
         (k : cont A) (x : A),
    star (m f r) n last s c k = Some x ->
    exists l' s' c', k l' s' c' = Some x /\ length s' <= length s.
Proof.
  intros Hr. induction n as [ | n IH ]; intros last s c k x H; cbn [star] in H.
  - exists last, s, c. auto.
  - destruct (m f r last s c _) as [ y | ] eqn:E.
    + injection H as ->.
      apply Hr in E. destruct E as (l1 & s1 & c1 & E & _ & _).
      destruct (length s1 <? length s) eqn:Hlt; [ | discriminate ].
      apply Nat.ltb_lt in Hlt.
      apply IH in E. destruct E as (l2 & s2 & c2 & E & Hle).
      exists l2, s2, c2. split; [ assumption | lia ].
    + exists last, s, c. auto.
Qed.

Lemma m_progress (r : regex) : progress r.
Proof.
  induction r as [ | a | p | r1 IH1 r2 IH2 | r1 IH1 r2 IH2 | r1 IH1 | n r1 IH1
                 | n | | | ];
    intros last s c k x H; cbn [m] in H; cbn [nullable].
  - exists last, s, c. repeat split; [ assumption | apply le_n | discriminate ].
  - destruct s as [ | b s ]; [ discriminate | ].
    destruct (eqc f a b); [ | discriminate ].
    exists (Some b), s, c. cbn. repeat split; [ assumption | lia | lia ].
  - destruct s as [ | b s ]; [ discriminate | ].
    destruct (p b); [ | discriminate ].
    exists (Some b), s, c. cbn. repeat split; [ assumption | lia | lia ].
  - apply IH1 in H. destruct H as (l1 & s1 & c1 & H & Hle1 & Hlt1).
    apply IH2 in H. destruct H as (l2 & s2 & c2 & H & Hle2 & Hlt2).
    exists l2, s2, c2. repeat split; [ assumption | lia | ].
    intros Hn. apply andb_false_iff in Hn. destruct Hn as [ Hn | Hn ].
    + specialize (Hlt1 Hn). lia.
    + specialize (Hlt2 Hn). lia.
  - destruct (m f r1 last s c k) as [ y | ] eqn:E.
    + injection H as ->. apply IH1 in E.
      destruct E as (l1 & s1 & c1 & E & Hle & Hlt).
      exists l1, s1, c1. repeat split; [ assumption | assumption | ].
      intros Hn. apply orb_false_iff in Hn. apply Hlt, Hn.
    + apply IH2 in H. destruct H as (l1 & s1 & c1 & E' & Hle & Hlt).
      exists l1, s1, c1. repeat split; [ assumption | assumption | ].
      intros Hn. apply orb_false_iff in Hn. apply Hlt, Hn.
  - apply (star_progress r1 IH1) in H.
    destruct H as (l1 & s1 & c1 & H & Hle).
    exists l1, s1, c1. repeat split; [ assumption | assumption | discriminate ].
  - apply IH1 in H. destruct H as (l1 & s1 & c1 & H & Hle & Hlt).
    eexists l1, s1, _. repeat split; [ exact H | assumption | assumption ].
  - destruct (capture n c) as [ w | ].
    + destruct (readWord f w s last) as [ [l' s'] | ] eqn:E; [ | discriminate ].
      apply readWord_length in E.
      exists l', s', c. repeat split; [ assumption | assumption | discriminate ].
    + exists last, s, c. repeat split; [ assumption | apply le_n | discriminate ].
  - assert (Hk : k last s c = Some x).
    { destruct last as [ p | ]; [ | assumption ].
      destruct (multiline f && isLineTerminator p); [ assumption | discriminate ]. }
    exists last, s, c. repeat split; [ assumption | apply le_n | discriminate ].
  - assert (Hk : k last s c = Some x).
    { destruct s as [ | b s ]; [ assumption | ].
      destruct (multiline f && isLineTerminator b); [ assumption | discriminate ]. }
    exists last, s, c. repeat split; [ assumption | apply le_n | discriminate ].
  - destruct (xorb _ _); [ | discriminate ].
    exists last, s, c. repeat split; [ assumption | apply le_n | discriminate ].
Qed.

(** A match of a pattern that ends with its first group hands the
    continuation a non-empty capture for that group. *)
Lemma capturesLast_sound (r : regex) :
  capturesLast r = true ->
  forall (last : option ascii) (s : list ascii) (c : captures) (k : cont A) (x : A),
    m f r last s c k = Some x ->
    exists l' s' c' w, w <> [] /\ k l' s' ((1, w) :: c') = Some x.
Proof.
  induction r as [ | a | p | r1 IH1 r2 IH2 | r1 IH1 r2 IH2 | r1 IH1 | n r1 IH1
                 | n | | | ];
    cbn [capturesLast]; try discriminate; intros Hc last s c k x H.
  - cbn [m] in H. apply m_progress in H.
    destruct H as (l1 & s1 & c1 & H & _ & _).
    apply (IH2 Hc) in H. exact H.
  - destruct n as [ | [ | n ] ]; try discriminate.
    apply negb_true_iff in Hc.
    cbn [m] in H. apply m_progress in H.
    destruct H as (l1 & s1 & c1 & H & _ & Hlt). specialize (Hlt Hc).
    exists l1, s1, c1, (firstn (length s - length s1) s).
    split; [ | exact H ].
    destruct s as [ | b s ]; cbn [length] in *; [ lia | ].
    replace (S (length s) - length s1) with (S (length s - length s1)) by lia.
    discriminate.
Qed.

End Progress.

Lemma search_groups (f : flags) (r : regex) (s : list ascii) :
  forall (last : option ascii) (i : nat) (res : matchResult),
    search f r last s i = Some res ->
    exists l0 s0 s',
      m f r l0 s0 [] (fun _ s' c' => Some (s', c')) = Some (s', groups res).
Proof.
  induction s as [ | b s IH ]; intros last i res H; cbn [search] in H.
  - destruct (m f r last [] [] _) as [ [s' c'] | ] eqn:E; [ | discriminate ].
    injection H as <-. exists last, [], s'. exact E.
  - destruct (m f r last (b :: s) [] _) as [ [s' c'] | ] eqn:E.
    + injection H as <-. exists last, (b :: s), s'. exact E.
    + apply IH in H. exact H.
Qed.

Lemma truthy_string_of_list (w : list ascii) :
  w <> [] -> truthy (string_of_list_ascii w) = true.
Proof.
  destruct w; [ congruence | reflexivity ].
Qed.

(** A match of such a pattern defines group 1 with a non-empty text. *)
Lemma exec_group1 (f : flags) (r : regex) (text : string) (res : matchResult) :
  capturesLast r = true ->
  exec f r text = Some res ->
  exists w, group 1 res = Some w /\ truthy w = true.
Proof.
  intros Hc H. unfold exec in H. apply search_groups in H.
  destruct H as (l0 & s0 & s' & H).
  apply (capturesLast_sound _ f r Hc) in H.
  destruct H as (l1 & s1 & c1 & w & Hw & H).
  injection H as _ H. unfold group. rewrite <- H. cbn.
  eexists. split; [ reflexivity | ]. apply truthy_string_of_list, Hw.
Qed.

Section Fuel.

Variable A : Type.
Variable f : flags.

(** Continuations that agree everywhere are interchangeable. *)
Definition extensional (r : regex) : Prop :=
  forall (last : option ascii) (s : list ascii) (c : captures) (k k' : cont A),
    (forall l' s' c', k l' s' c' = k' l' s' c') ->
    m f r last s c k = m f r last s c k'.

Lemma star_ext (r : regex) :
  extensional r ->
  forall (n : nat) (last : option ascii) (s : list ascii) (c : captures)
         (k k' : cont A),
    (forall l' s' c', k l' s' c' = k' l' s' c') ->
    star (m f r) n last s c k = star (m f r) n last s c k'.
Proof.
  intros Hr. induction n as [ | n IH ]; intros last s c k k' Hk; cbn [star].
  - apply Hk.
  - rewrite (Hr last s c _
               (fun l' s' c' =>
                  if length s' <? length s then star (m f r) n l' s' c' k' else None)).
    + rewrite Hk. reflexivity.
    + intros l' s' c'. destruct (length s' <? length s); [ | reflexivity ].
      apply IH, Hk.
Qed.

Lemma m_ext (r : regex) : extensional r.
Proof.
  induction r as [ | a | p | r1 IH1 r2 IH2 | r1 IH1 r2 IH2 | r1 IH1 | n r1 IH1
                 | n | | | ];
    intros last s c k k' Hk; cbn [m]; rewrite ?Hk; try reflexivity.
  - destruct s as [ | b s ]; [ reflexivity | ]. rewrite Hk. reflexivity.
  - destruct s as [ | b s ]; [ reflexivity | ]. rewrite Hk. reflexivity.
  - apply IH1. intros l' s' c'. apply IH2, Hk.
  - rewrite (IH1 last s c k k' Hk), (IH2 last s c k k' Hk). reflexivity.
  - apply star_ext; assumption.
  - apply IH1. intros l' s' c'. apply Hk.
  - destruct (capture n c) as [ w | ]; [ | reflexivity ].
    destruct (readWord f w s last) as [ [l' s'] | ]; [ apply Hk | reflexivity ].
Qed.

Lemma m_none (r : regex) (last : option ascii) (s : list ascii) (c : captures) :
  m f r last s c (fun _ _ _ => @None A) = None.
Proof.
  destruct (m f r last s c _) as [ x | ] eqn:E; [ | reflexivity ].
  apply m_progress in E. destruct E as (l' & s' & c' & E & _). discriminate E.
Qed.

(** The repetition never runs short of rounds: it starts with as many as
    the input has characters, every round consumes one, and a round more
    changes nothing. *)
Lemma star_fuel (r : regex) (k : cont A) :
  forall (n : nat) (last : option ascii) (s : list ascii) (c : captures),
    length s <= n ->
    star (m f r) (S n) last s c k = star (m f r) n last s c k.
Proof.
  induction n as [ | n IH ]; intros last s c Hn.
  - destruct s as [ | b s ]; [ | cbn in Hn; lia ].
    cbn [star length]. rewrite (m_ext r last [] c _ (fun _ _ _ => None)).
    + rewrite m_none. reflexivity.
    + intros l' s' c'. reflexivity.
  - change (star (m f r) (S (S n)) last s c k)
      with (match m f r last s c
                    (fun l' s' c' =>
                       if length s' <? length s
                       then star (m f r) (S n) l' s' c' k else None)
            with Some x => Some x | None => k last s c end).
    change (star (m f r) (S n) last s c k)
      with (match m f r last s c
                    (fun l' s' c' =>
                       if length s' <? length s
                       then star (m f r) n l' s' c' k else None)
            with Some x => Some x | None => k last s c end).
    rewrite (m_ext r last s c _
               (fun l' s' c' =>
                  if length s' <? length s then star (m f r) n l' s' c' k else None)).
    + reflexivity.
    + intros l' s' c'. destruct (length s' <? length s) eqn:E; [ | reflexivity ].
      apply Nat.ltb_lt in E. apply IH. lia.
Qed.

End Fuel.
End RegexFacts.

(* ================================================================== *)
(** * The evaluators                                                    *)
(* ================================================================== *)

Module EvaluatorFacts.
Import Js AnswerEvaluator Properties StringFacts.
Local Open Scope Q_scope.

Lemma inScale_spec (x : Q) : inScale x = true -> 0 <= x <= 10.
Proof.
  unfold inScale. intros H. apply andb_prop in H. destruct H as [H0 H1].
  split; apply Qle_bool_iff; assumption.
Qed.

(** Case analysis on the conditions of the conditionals, outermost first;
    the lists of issues are computed on the way. *)
Ltac split_if :=
  repeat (cbn [push app];
          match goal with
          | |- context [if ?c then _ else _] =>
              lazymatch type of c with bool => destruct c end
          end).

(** ** Scores *)

Lemma evaluateJavaScript_inScale parses code q :
  inScale (Evaluation.score (evaluateJavaScript parses code q)) = true.
Proof. unfold evaluateJavaScript. split_if; reflexivity. Qed.

Lemma evaluatePython_inScale code q :
  inScale (Evaluation.score (evaluatePython code q)) = true.
Proof. unfold evaluatePython. split_if; reflexivity. Qed.

Lemma evaluateSQL_inScale code q :
  inScale (Evaluation.score (evaluateSQL code q)) = true.
Proof. unfold evaluateSQL. split_if; reflexivity. Qed.

Lemma evaluateGenericCode_inScale code q :
  inScale (Evaluation.score (evaluateGenericCode code q)) = true.
Proof. unfold evaluateGenericCode. split_if; reflexivity. Qed.

Lemma evaluateSTARMethod_inScale answer q :
  inScale (Evaluation.score (evaluateSTARMethod answer q)) = true.
Proof. unfold evaluateSTARMethod. split_if; reflexivity. Qed.

Lemma apiDesignCheck_inScale al q :
  inScale (snd (apiDesignCheck al q ([], 0))) = true.
Proof. unfold apiDesignCheck. split_if; reflexivity. Qed.

Lemma solidCheck_inScale al q st :
  inScale (snd st) = true -> inScale (snd (solidCheck al q st)) = true.
Proof.
  destruct st as [feedback score]. unfold solidCheck, principles.
  destruct (questionMentions q "solid"); [ | trivial ].
  intros _. cbn [filter]. split_if; reflexivity.
Qed.

Lemma microservicesCheck_inScale al q st :
  inScale (snd st) = true -> inScale (snd (microservicesCheck al q st)) = true.
Proof.
  destruct st as [feedback score]. unfold microservicesCheck, concepts.
  destruct (questionMentions q "microservices"); [ | trivial ].
  intros _. cbn [filter]. split_if; reflexivity.
Qed.

Lemma defaultScoring_inScale answer score :
  inScale score = true -> inScale (defaultScoring answer score) = true.
Proof.
  unfold defaultScoring. intros H. split_if; trivial.
Qed.

Lemma Qmin_10_inScale x : inScale x = true -> inScale (Qmin 10 x) = true.
Proof.
  intros H. apply inScale_spec in H. destruct H as [H0 H1].
  unfold inScale. apply andb_true_intro. split; apply Qle_bool_iff.
  - apply Q.min_glb; [ discriminate | assumption ].
  - apply Q.le_min_l.
Qed.

Lemma evaluateByCategory_inScale answer q :
  inScale (Evaluation.score (evaluateByCategory answer q)) = true.
Proof.
  unfold evaluateByCategory.
  pose proof (microservicesCheck_inScale (toLowerCase answer) q _
                (solidCheck_inScale (toLowerCase answer) q _
                   (apiDesignCheck_inScale (toLowerCase answer) q))) as H.
  destruct (microservicesCheck _ _ _) as [feedback score].
  cbn [snd] in H. cbn [Evaluation.score].
  apply Qmin_10_inScale, defaultScoring_inScale, H.
Qed.

Lemma evaluateTheoretical_inScale answer q :
  inScale (Evaluation.score (evaluateTheoretical answer q)) = true.
Proof.
  unfold evaluateTheoretical.
  destruct (isBlank answer); [ reflexivity | ].
  destruct (isNonsenseInput answer); [ reflexivity | ].
  destruct (_ <? _)%nat; [ reflexivity | apply evaluateByCategory_inScale ].
Qed.

Lemma evaluateBehavioral_inScale answer q :
  inScale (Evaluation.score (evaluateBehavioral answer q)) = true.
Proof.
  unfold evaluateBehavioral.
  destruct (isBlank answer); [ reflexivity | ].
  destruct (isNonsenseInput answer); [ reflexivity | ].
  apply evaluateSTARMethod_inScale.
Qed.

(** C9. Every result returned by evaluateCode, evaluateTheoretical and
    evaluateBehavioral carries a score between 0 and 10, whatever the input
    strings, the question and the verdict of the syntax check. *)
Theorem evaluator_scores_in_scale (parses : string -> bool)
    (code answer : string) (q : Question.t) :
  returns (evaluateCode parses code q)
          (fun r => 0 <= Evaluation.score r <= 10)
  /\ 0 <= Evaluation.score (evaluateTheoretical answer q) <= 10
  /\ 0 <= Evaluation.score (evaluateBehavioral answer q) <= 10.
Proof.
  split; [ | split ].
  - unfold evaluateCode.
    destruct (isBlank code); [ apply inScale_spec; reflexivity | ].
    destruct (isNonsenseInput code); [ apply inScale_spec; reflexivity | ].
    cbv zeta.
    repeat match goal with
           | |- context [if ?c then _ else _] => destruct c
           end; cbn [returns]; trivial; apply inScale_spec.
    + apply evaluateJavaScript_inScale.
    + apply evaluatePython_inScale.
    + apply evaluateSQL_inScale.
    + apply evaluateGenericCode_inScale.
  - apply inScale_spec, evaluateTheoretical_inScale.
  - apply inScale_spec, evaluateBehavioral_inScale.
Qed.

(** ** What the result of evaluateCode depends on *)

Ltac split_checks H :=
  repeat match type of H with
         | (_ && _) = true =>
             let H' := fresh "H" in
             apply andb_prop in H; destruct H as [H H'];
             try apply eqb_prop in H'
         end;
  try apply eqb_prop in H.

(** The verdict of the syntax check decides two submissions that pass the
    same checks: a counterexample to the reading of claim C3. *)
Lemma presenceOnly_fails : ~ presenceOnly.
Proof.
  intros H.
  specialize (H (fun s => (s =? "let xy = 1;")%string)
                "let xy = 1;" "let xy = 1 +;" javascriptQuestion eq_refl).
  vm_compute in H. discriminate H.
Qed.

(** Two submissions that pass the same checks and get the same verdict get
    the same result. *)
Lemma evaluateCode_checks_and_verdict (p1 p2 : string -> bool) (c1 c2 : string)
    (q : Question.t) :
  sameChecks c1 c2 = true ->
  p1 c1 = p2 c2 ->
  evaluateCode p1 c1 q = evaluateCode p2 c2 q.
Proof.
  unfold sameChecks, presenceChecks, upperCaseChecks. intros H Hp.
  cbn [forallb] in H.
  repeat rewrite andb_true_r in H.
  repeat rewrite andb_assoc in H.
  split_checks H.
  unfold evaluateCode, evaluateJavaScript, evaluatePython, evaluateSQL,
    evaluateGenericCode.
  repeat match goal with
         | E : _ = _ |- _ => rewrite E; clear E
         end.
  reflexivity.
Qed.

(** Outside the JavaScript branch the verdict is not consulted. *)
Lemma evaluateCode_verdict_unused (p1 p2 : string -> bool) (code : string)
    (q : Question.t) :
  languageOf q <> "javascript" ->
  evaluateCode p1 code q = evaluateCode p2 code q.
Proof.
  intros Hl. unfold evaluateCode.
  destruct (isBlank code); [ reflexivity | ].
  destruct (isNonsenseInput code); [ reflexivity | ].
  cbv zeta. destruct (String.eqb_spec (languageOf q) "javascript");
    [ contradiction | reflexivity ].
Qed.

(** In the JavaScript branch the verdict moves the score by two points and
    names the syntax error. *)
Lemma evaluateCode_syntaxChecked (parses : string -> bool) (code : string)
    (q : Question.t) :
  languageOf q = "javascript" ->
  isBlank code = false ->
  isNonsenseInput code = false ->
  syntaxChecked parses code q.
Proof.
  intros Hl Hb Hn. unfold syntaxChecked, evaluateCode. cbv zeta.
  rewrite Hb, Hn, Hl. cbn [String.eqb Ascii.eqb Bool.eqb].
  eexists. split; [ reflexivity | ].
  unfold evaluateJavaScript, patternScore.
  destruct (parses code); cbn [negb];
    destruct (questionMentions q "second largest");
    destruct (questionMentions q "reverse");
    split_if; repeat split; reflexivity.
Qed.

(** C3, amended. evaluateCode computes its result from the blank and
    nonsense guards, the substring presence checks on the submission and the
    question, the two length thresholds and, in the JavaScript branch only,
    the verdict of new Function(code), which parses the submission and never
    runs it.  Two submissions that pass the same checks and get the same
    verdict get the same result; outside the JavaScript branch the verdict
    plays no role; in the JavaScript branch, past the two guards, a
    submission that parses gets two points more than the pattern checks
    give, and one that does not gets two points less (not below 0) and the
    issue Syntax error detected in its feedback, which a submission that
    parses never has. *)
Theorem evaluateCode_same_checks (p1 p2 : string -> bool) (c1 c2 : string)
    (q : Question.t) :
  (sameChecks c1 c2 = true -> p1 c1 = p2 c2 ->
   evaluateCode p1 c1 q = evaluateCode p2 c2 q)
  /\ (languageOf q <> "javascript" ->
      evaluateCode p1 c1 q = evaluateCode p2 c1 q)
  /\ (languageOf q = "javascript" ->
      isBlank c1 = false -> isNonsenseInput c1 = false ->
      syntaxChecked p1 c1 q).
Proof.
  split; [ | split ].
  - apply evaluateCode_checks_and_verdict.
  - apply evaluateCode_verdict_unused.
  - apply evaluateCode_syntaxChecked.
Qed.

Lemma evaluateCode_same_checks_witness :
  evaluateCode (fun _ => true) "let xy = 1;" javascriptQuestion
  = evaluateCode (fun _ => true) "let ab = 2;" javascriptQuestion.
Proof.
  apply (proj1 (evaluateCode_same_checks (fun _ => true) (fun _ => true)
                  "let xy = 1;" "let ab = 2;" javascriptQuestion));
    reflexivity.
Defined.

(** ** The missing Java evaluator *)

(** C4, at the failing input. A submission for a question whose language is
    java passes both guards and reaches the call of evaluateJava, which the
    class does not define: evaluateCode throws instead of returning. *)
Theorem evaluateCode_java_throws (parses : string -> bool) :
  evaluateCode parses javaSubmission javaQuestion
  = Throw "TypeError: this.evaluateJava is not a function".
Proof. reflexivity. Qed.

(** Every other language has a handler. *)
Lemma evaluateCode_returns (parses : string -> bool) (code : string)
    (q : Question.t) :
  languageOf q <> "java" ->
  exists r, evaluateCode parses code q = Return r.
Proof.
  intros Hl. unfold evaluateCode.
  destruct (isBlank code); [ eexists; reflexivity | ].
  destruct (isNonsenseInput code); [ eexists; reflexivity | ].
  cbv zeta.
  destruct (String.eqb_spec (languageOf q) "javascript"); [ eexists; reflexivity | ].
  destruct (String.eqb_spec (languageOf q) "python"); [ eexists; reflexivity | ].
  destruct (String.eqb_spec (languageOf q) "java"); [ contradiction | ].
  destruct (String.eqb_spec (languageOf q) "sql"); eexists; reflexivity.
Qed.

(** ** Behavioral answers *)

Lemma isBlank_sfilter (s : string) :
  isBlank s = true -> sfilter nonSpace s = "".
Proof.
  unfold isBlank. intros H. apply orb_true_iff in H. destruct H as [ H | H ].
  - destruct s; [ reflexivity | discriminate ].
  - apply Nat.eqb_eq, length_zero_empty in H.
    rewrite <- sfilter_trim, H. reflexivity.
Qed.

Lemma evaluateSTARMethod_situation (answer : string) (q : Question.t) :
  includes (toLowerCase answer) "situation" = true ->
  2 <= Evaluation.score (evaluateSTARMethod answer q)
  /\ listsSituation (evaluateSTARMethod answer q).
Proof.
  intros H. unfold evaluateSTARMethod, listsSituation. rewrite H. cbn [orb].
  split_if;
    (split; [ apply Qle_bool_iff; reflexivity
            | eexists; split; [ reflexivity | reflexivity ] ]).
Qed.

(** An answer made of letters and spaces only is taken for random
    characters: a counterexample to the reading of claim C2. *)
Lemma behavioralClaim_fails : ~ behavioralClaim.
Proof.
  intros H.
  assert (answer_not_empty : "We faced a difficult situation" <> "") by discriminate.
  destruct (H "We faced a difficult situation" teamworkQuestion
              answer_not_empty eq_refl eq_refl eq_refl) as [ Hs _ ].
  vm_compute in Hs. apply Hs. reflexivity.
Qed.

(** C2, amended. A non-empty behavioral answer that passes the three checks
    of isNonsenseInput (it is not taken for random characters, has no
    character five times in a row and no mash pattern) and contains the word
    situation is scored by its STAR elements: its score is at least 2 and the
    STAR analysis lists Situation. *)
Theorem evaluateBehavioral_situation (answer : string) (q : Question.t) :
  answer <> "" ->
  randomCharacters (cleanedOf answer) = false ->
  repeatedCharacters (cleanedOf answer) = false ->
  keyboardMashing (cleanedOf answer) = false ->
  includes answer "situation" = true ->
  scoredBySituation answer q.
Proof.
  intros _ Hrandom Hrepeated Hmash Hword.
  apply (includes_smap lowerChar) in Hword.
  change (smap lowerChar "situation") with "situation" in Hword.
  fold (toLowerCase answer) in Hword.
  unfold scoredBySituation, evaluateBehavioral.
  destruct (isBlank answer) eqn:Hblank.
  - apply isBlank_sfilter in Hblank.
    exfalso. revert Hblank.
    apply (includes_nonSpace "s"%char "ituation" answer lowerChar_s_not_space Hword).
  - unfold isNonsenseInput. rewrite Hrandom, Hrepeated, Hmash.
    apply evaluateSTARMethod_situation, Hword.
Qed.

Lemma evaluateBehavioral_situation_witness :
  scoredBySituation "We faced a difficult situation." teamworkQuestion.
Proof.
  apply evaluateBehavioral_situation;
    [ discriminate | reflexivity | reflexivity | reflexivity | reflexivity ].
Defined.

End EvaluatorFacts.

(* ================================================================== *)
(** * Parsing a job description                                         *)
(* ================================================================== *)

Module ParseFacts.
Import Js Regex FileUpload Properties RegexFacts.

(** ** The two rejections *)

Lemma tooShort_guard (text : string) :
  negb (truthy text) || (String.length (trim text) <? 50) = true
  <-> tooShort text.
Proof.
  unfold tooShort. rewrite orb_true_iff, Nat.ltb_lt.
  destruct text; cbn; intuition (discriminate || auto).
Qed.

Lemma no_required_guard (text : string) :
  (List.length (required (extractSkillsFromText text)) =? 0) = true
  <-> noRequiredSkills text.
Proof.
  unfold noRequiredSkills. rewrite Nat.eqb_eq.
  destruct (required _); cbn; intuition (discriminate || auto).
Qed.

(** C5. parseJobDescription rejects with the too-short error exactly when
    the text is empty or its trimmed length is below 50; past that check it
    rejects with the no-technical-skills error exactly when skill extraction
    finds no required skill; otherwise it resolves with a job description
    whose description field is the pasted text, unchanged. *)
Theorem parseJobDescription_outcomes (text : string) :
  (parseJobDescription text = Rejected tooShortMessage <-> tooShort text)
  /\ (parseJobDescription text = Rejected noSkillsMessage
      <-> ~ tooShort text /\ noRequiredSkills text)
  /\ (~ tooShort text -> ~ noRequiredSkills text ->
      exists jd, parseJobDescription text = Resolved jd
                 /\ JobDescription.description jd = text).
Proof.
  pose proof (tooShort_guard text) as Hshort.
  pose proof (no_required_guard text) as Hnone.
  unfold parseJobDescription.
  destruct (negb (truthy text) || (String.length (trim text) <? 50)).
  - assert (Hs : tooShort text) by (apply Hshort; reflexivity).
    split; [ | split ].
    + split; intros _; [ exact Hs | reflexivity ].
    + split; [ intros E; discriminate E | intros [ Hn _ ]; contradiction ].
    + intros Hn. contradiction.
  - assert (Hs : ~ tooShort text) by (rewrite <- Hshort; discriminate).
    cbv zeta.
    destruct (List.length (required (extractSkillsFromText text)) =? 0).
    + assert (Hn : noRequiredSkills text) by (apply Hnone; reflexivity).
      split; [ | split ].
      * split; [ intros E; discriminate E | intros Hs'; contradiction ].
      * split; intros _; [ split; assumption | reflexivity ].
      * intros _ Hn'. contradiction.
    + assert (Hn : ~ noRequiredSkills text) by (rewrite <- Hnone; discriminate).
      split; [ | split ].
      * split; [ intros E; discriminate E | intros Hs'; contradiction ].
      * split; [ intros E; discriminate E | intros [ _ Hn' ]; contradiction ].
      * intros _ _. eexists. split; reflexivity.
Qed.

Lemma parseJobDescription_outcomes_witness :
  exists jd, parseJobDescription opsDescription = Resolved jd
             /\ JobDescription.description jd = opsDescription.
Proof.
  apply (parseJobDescription_outcomes opsDescription).
  - intros [ H | H ]; [ discriminate H | vm_compute in H; lia ].
  - intros H. vm_compute in H. discriminate H.
Defined.

(** ** Skills *)

Fixpoint distinct (l : list string) : bool :=
  match l with
  | [] => true
  | x :: l' => negb (existsb (String.eqb x) l') && distinct l'
  end.

Lemma distinct_NoDup (l : list string) : distinct l = true -> NoDup l.
Proof.
  induction l as [ | x l IH ]; cbn [distinct]; intros H; constructor.
  - apply andb_prop in H. destruct H as [ H _ ].
    apply negb_true_iff in H. intros Hin.
    assert (existsb (String.eqb x) l = true) as E
        by (apply existsb_exists; exists x; split;
            [ assumption | apply String.eqb_refl ]).
    congruence.
  - apply andb_prop in H. apply IH, H.
Qed.

Lemma commonSkills_NoDup : NoDup commonSkills.
Proof. apply distinct_NoDup. vm_compute. reflexivity. Qed.

(** The filter finds at most the forty skills of the list, and up to forty
    the floor of the rounded product is the floor of the exact one (at 90
    it is not). *)
Lemma foundSkills_length (text : string) :
  List.length (foundSkills text) <= 40.
Proof.
  unfold foundSkills. apply (filter_length_le _ commonSkills).
Qed.

Lemma floorSevenTenths_exact (n : nat) :
  n <= 40 -> floorSevenTenths n = (7 * n) / 10.
Proof.
  intros Hn.
  assert (H : forallb (fun i => floorSevenTenths i =? (7 * i) / 10) (seq 0 41) = true)
    by (vm_compute; reflexivity).
  rewrite forallb_forall in H. apply Nat.eqb_eq, H, in_seq. lia.
Qed.

Lemma floorSevenTenths_rounded : floorSevenTenths 90 = 62.
Proof. vm_compute. reflexivity. Qed.

Lemma NoDup_split_disjoint {A : Type} (n : nat) (l : list A) (x : A) :
  NoDup l -> In x (firstn n l) -> ~ In x (skipn n l).
Proof.
  intros Hl. rewrite <- (firstn_skipn n l) in Hl.
  revert Hl. generalize (firstn n l) (skipn n l). clear.
  intros l1 l2. induction l1 as [ | a l1 IH ]; cbn; [ tauto | ].
  intros Hl [ -> | Hin ]; inversion Hl as [ | ? ? Ha Hrest ]; subst.
  - intros H2. apply Ha, in_or_app. right. exact H2.
  - apply IH; assumption.
Qed.

(** C6. Every skill returned by extractSkillsFromText, required or
    preferred, belongs to commonSkills and occurs in the text without regard
    to case, as written or with dots and spaces removed; with n skills found,
    the required list is the first max(3, floor(0.7 n)) of them and the
    preferred list is the rest, so that the two lists are disjoint and their
    concatenation is the list found. *)
Theorem extractSkillsFromText_split (text : string) :
  let skills := extractSkillsFromText text in
  let found := foundSkills text in
  let n := List.length found in
  (forall skill, In skill (required skills ++ preferred skills)%list ->
                 In skill commonSkills /\ occursIn text skill)
  /\ required skills = firstn (Nat.max 3 ((7 * n) / 10)) found
  /\ preferred skills = skipn (Nat.max 3 ((7 * n) / 10)) found
  /\ (forall skill, In skill (required skills) -> ~ In skill (preferred skills))
  /\ (required skills ++ preferred skills)%list = found.
Proof.
  cbv zeta. unfold extractSkillsFromText. cbn [required preferred].
  unfold splitPointOf.
  rewrite (floorSevenTenths_exact _ (foundSkills_length text)).
  set (found := foundSkills text).
  set (k := Nat.max 3 (7 * List.length found / 10)).
  split; [ | split; [ reflexivity | split; [ reflexivity | split ] ] ].
  - intros skill. rewrite (firstn_skipn k found).
    unfold found, foundSkills. intros Hin. apply filter_In in Hin.
    destruct Hin as [ Hin Hocc ]. split; [ assumption | ].
    unfold occursIn. apply orb_true_iff. exact Hocc.
  - intros skill. apply NoDup_split_disjoint.
    apply NoDup_filter, commonSkills_NoDup.
  - apply firstn_skipn.
Qed.

(** ** Title and company *)

Lemma firstOf_firstMatch (patterns : list pattern) (text fallback : string) :
  Forall (fun p => capturesLast (re p) = true) patterns ->
  firstCaptureOr patterns text fallback
    (firstOf patterns text (fun _ w => trim w) fallback).
Proof.
  unfold firstCaptureOr.
  induction 1 as [ | p rest Hp _ IH ]; cbn [firstMatch firstOf].
  - reflexivity.
  - unfold firstGroup.
    destruct (exec (pflags p) (re p) text) as [ res | ] eqn:E.
    + destruct (exec_group1 _ _ _ _ Hp E) as (w & Hw & Ht).
      rewrite Hw, Ht. exists w. split; [ assumption | reflexivity ].
    + exact IH.
Qed.

(** The classes of the patterns with the flag [i] are closed under the
    canonical form, so that running them by their predicate is what the
    flag asks for. *)
Lemma classes_caseClosed :
  caseClosed (classOf space) = true
  /\ caseClosed (classOf digit) = true
  /\ caseClosed (classOf notNewline) = true
  /\ caseClosed (classOf spaceOrDash) = true.
Proof. vm_compute. repeat split. Qed.

(** C7. extractTitleFromText returns the trimmed first capture group of the
    first of its three patterns that matches the text and Software Developer
    when none matches; extractCompanyFromText does the same with its three
    patterns and TechCorp Inc. *)
Theorem extract_title_and_company (text : string) :
  (List.length titlePatterns = 3
   /\ firstCaptureOr titlePatterns text "Software Developer"
        (extractTitleFromText text))
  /\ (List.length companyPatterns = 3
      /\ firstCaptureOr companyPatterns text "TechCorp Inc."
           (extractCompanyFromText text)).
Proof.
  split; (split; [ reflexivity | apply firstOf_firstMatch; repeat constructor ]).
Qed.

End ParseFacts.

(* ================================================================== *)
(** * The question battery                                              *)
(* ================================================================== *)

Module BatteryFacts.
Import Js FileUpload SkillAnalysis Properties.

Lemma countType_app (t : questionType) (a b : list Question.t) :
  countType t (a ++ b) = countType t a + countType t b.
Proof.
  unfold countType. rewrite filter_app. apply length_app.
Qed.

Lemma codingKept_later (l : list string) (index : nat) :
  codingKept l (S index) = 2 * List.length l.
Proof.
  revert index. induction l as [ | x l IH ]; intros index; cbn [codingKept];
    [ reflexivity | ].
  rewrite IH. cbn. lia.
Qed.

Lemma codingKept_first (l : list string) :
  l <> [] -> codingKept l 0 = 2 * List.length l + 1.
Proof.
  destruct l as [ | x l ]; [ congruence | intros _ ].
  cbn [codingKept]. rewrite codingKept_later. cbn. lia.
Qed.

Lemma codingLoop_count (t : questionType) (l : list string) :
  forall (index : nat) (questions : list Question.t) (questionId : nat),
    countType t (fst (codingLoop l index questions questionId))
    = countType t questions
      + (if questionType_eqb coding t then codingKept l index else 0).
Proof.
  induction l as [ | language l IH ]; intros index questions questionId;
    cbn [codingLoop codingKept fst].
  - destruct (questionType_eqb coding t); lia.
  - rewrite IH, countType_app.
    destruct (index =? 0); destruct t; cbn; lia.
Qed.

Lemma codingLoop_length (l : list string) :
  forall (index : nat) (questions : list Question.t) (questionId : nat),
    List.length (fst (codingLoop l index questions questionId))
    = List.length questions + codingKept l index.
Proof.
  induction l as [ | language l IH ]; intros index questions questionId;
    cbn [codingLoop codingKept fst].
  - lia.
  - rewrite IH, length_app.
    destruct (index =? 0); cbn; lia.
Qed.

(** A job description that names no SQL skill gets no sql question: a
    counterexample to the reading of claim C1. *)
Lemma batteryClaim_fails : ~ batteryClaim.
Proof.
  intros H.
  assert (E : parseJobDescription pythonDescription = Resolved pythonJob)
    by (vm_compute; reflexivity).
  destruct (H pythonDescription pythonJob [] E) as (_ & Hsql & _).
  vm_compute in Hsql. discriminate Hsql.
Qed.

(** C1, amended. For every job description that names at least one
    language, generateQuestions returns 3 coding questions for the first
    language and 2 for each later one, the 5 sql questions exactly when a
    required skill contains sql (whatever the case), the 10 theoretical and
    the 5 behavioral questions, and nothing else. *)
Theorem generateQuestions_battery (jd : JobDescription.t)
    (skillGaps : list SkillGap.t) :
  JobDescription.languages jd <> [] ->
  let battery := generateQuestions (Some jd) skillGaps in
  let n := List.length (JobDescription.languages jd) in
  countType coding battery = 2 * n + 1
  /\ countType sql battery = (if requiresSql jd then 5 else 0)
  /\ countType theoretical battery = 10
  /\ countType behavioral battery = 5
  /\ List.length battery = 2 * n + 1 + (if requiresSql jd then 5 else 0) + 15.
Proof.
  intros Hl. cbv zeta. unfold generateQuestions.
  pose proof (fun t => codingLoop_count t (JobDescription.languages jd) 0 [] 1) as Hc.
  pose proof (codingLoop_length (JobDescription.languages jd) 0 [] 1) as Hn.
  rewrite (codingKept_first _ Hl) in Hn.
  pose proof (Hc coding) as Hcoding. pose proof (Hc sql) as Hsql.
  pose proof (Hc theoretical) as Htheoretical.
  pose proof (Hc behavioral) as Hbehavioral. clear Hc.
  cbn [questionType_eqb] in *. rewrite (codingKept_first _ Hl) in Hcoding.
  destruct (codingLoop _ 0 [] 1) as [ questions questionId ].
  cbn [fst] in *. unfold countType in Hcoding, Hsql, Htheoretical, Hbehavioral.
  cbn [filter List.length] in *.
  destruct (requiresSql jd);
    rewrite ?countType_app, ?length_app; unfold countType; cbn; lia.
Qed.

Lemma generateQuestions_battery_witness :
  let battery := generateQuestions (Some pythonJob) [] in
  countType coding battery = 3
  /\ countType sql battery = 0
  /\ countType theoretical battery = 10
  /\ countType behavioral battery = 5
  /\ List.length battery = 18.
Proof.
  apply (generateQuestions_battery pythonJob []). discriminate.
Defined.

End BatteryFacts.

(* ================================================================== *)
(** * The interview store                                               *)
(* ================================================================== *)

Module StoreFacts.
Import Store Properties.
Local Open Scope Z_scope.

Lemma at_index_in_range {A : Type} (l : list A) (i : Z) :
  0 <= i < len l -> exists x, at_index l i = Some x.
Proof.
  unfold at_index, len. intros [ H0 H1 ].
  destruct (i <? 0) eqn:E; [ apply Z.ltb_lt in E; lia | ].
  destruct (nth_error l (Z.to_nat i)) as [ x | ] eqn:En; [ exists x; reflexivity | ].
  apply nth_error_None in En. lia.
Qed.

Lemma startInterview_invariant (questions : list Question.t) (now startTime : Z)
    (s : state) :
  questions <> [] -> runInvariant questions (startInterview questions now startTime s).
Proof.
  intros Hq. unfold runInvariant, startInterview. cbn.
  eexists. repeat split; try reflexivity.
  unfold len. destruct questions; [ congruence | cbn; lia ].
Qed.

Lemma submitAnswer_invariant (questions : list Question.t) (a : Answer.t) (s : state) :
  runInvariant questions s -> runInvariant questions (submitAnswer a s).
Proof.
  intros (cs & Hcs & Hq & Hi & Hc). unfold runInvariant, submitAnswer.
  rewrite Hcs. cbn. eexists. repeat split; try eassumption; apply Hi.
Qed.

Lemma retryQuestion_invariant (questions : list Question.t) (s : state) :
  runInvariant questions s -> runInvariant questions (retryQuestion s).
Proof.
  intros (cs & Hcs & Hq & Hi & Hc). unfold runInvariant, retryQuestion.
  rewrite Hcs. cbn. eexists. repeat split; try eassumption; apply Hi.
Qed.

Lemma endInterview_invariant (questions : list Question.t) (now : Z) (s : state) :
  runInvariant questions s -> runInvariant questions (endInterview now s).
Proof.
  intros (cs & Hcs & Hq & Hi & Hc). unfold runInvariant, endInterview.
  rewrite Hcs. cbn. eexists. repeat split; try eassumption; apply Hi.
Qed.

Lemma nextQuestion_invariant (questions : list Question.t) (now : Z) (s : state) :
  runInvariant questions s -> runInvariant questions (nextQuestion now s).
Proof.
  intros Hinv. pose proof Hinv as (cs & Hcs & Hq & Hi & Hc).
  unfold nextQuestion. rewrite Hcs. cbv zeta. rewrite Hq.
  destruct (currentQuestionIndex s + 1 <? len questions) eqn:E.
  - apply Z.ltb_lt in E.
    destruct (at_index_in_range questions (currentQuestionIndex s + 1))
      as [ q Hnext ]; [ lia | ].
    rewrite Hnext. unfold runInvariant. cbn.
    exists cs. repeat split; try assumption; try lia. symmetry. exact Hnext.
  - apply endInterview_invariant, Hinv.
Qed.

Lemma reachable_invariant (questions : list Question.t) (s : state) :
  questions <> [] -> reachable questions s -> runInvariant questions s.
Proof.
  intros Hq. induction 1 as [ s0 now startTime | s a _ IH ].
  - apply startInterview_invariant, Hq.
  - destruct a as [ answer | | now ]; cbn [step].
    + apply submitAnswer_invariant, IH.
    + apply retryQuestion_invariant, IH.
    + apply nextQuestion_invariant, IH.
Qed.

Lemma nextQuestion_advancesOrEnds (questions : list Question.t) (now : Z) (s : state) :
  runInvariant questions s ->
  isInterviewActive s = true ->
  advancesOrEnds s (nextQuestion now s).
Proof.
  intros (cs & Hcs & Hq & Hi & Hc) Hactive. unfold advancesOrEnds, nextQuestion.
  rewrite Hcs. cbv zeta. rewrite Hq.
  destruct (currentQuestionIndex s + 1 <? len questions) eqn:E.
  - apply Z.ltb_lt in E.
    destruct (at_index_in_range questions (currentQuestionIndex s + 1))
      as [ q Hnext ]; [ lia | ].
    rewrite Hnext. left. cbn. split; [ reflexivity | exact Hactive ].
  - apply Z.ltb_ge in E. right. unfold endInterview. rewrite Hcs. cbn.
    split; [ reflexivity | ]. intros cs' Hcs'. injection Hcs' as <-.
    rewrite Hq. exact E.
Qed.

(** An interview started on no question is active with no current
    question: a counterexample to the reading of claim C10. *)
Lemma storeClaim_fails : ~ storeClaim.
Proof.
  intros H.
  destruct (H [] (startInterview [] 0 0 initialState)
              (reach_start [] initialState 0 0) eq_refl) as (cs & Hcs & Hi & _).
  cbn in Hcs. injection Hcs as <-. cbn in Hi. lia.
Qed.

(** C10, amended. In every state reached from startInterview on a non-empty
    list of questions by submitAnswer, retryQuestion and nextQuestion, while
    the interview is active, the index is within the questions of the
    session and the current question is the one at the index; nextQuestion
    then advances the index by exactly one, or ends the interview when no
    question is left. *)
Theorem active_interview_invariant (questions : list Question.t) (s : state) :
  questions <> [] ->
  reachable questions s ->
  isInterviewActive s = true ->
  activeInvariant s /\ forall now, advancesOrEnds s (nextQuestion now s).
Proof.
  intros Hq Hr Hactive.
  pose proof (reachable_invariant questions s Hq Hr) as Hinv.
  split.
  - destruct Hinv as (cs & Hcs & Hqs & Hi & Hc).
    exists cs. rewrite Hqs. repeat split; try assumption; apply Hi.
  - intros now. apply (nextQuestion_advancesOrEnds questions); assumption.
Qed.

Lemma active_interview_invariant_witness :
  activeInvariant sampleRun
  /\ forall now, advancesOrEnds sampleRun (nextQuestion now sampleRun).
Proof.
  apply (active_interview_invariant [cleanCodeQuestion; deadlineQuestion] sampleRun).
  - discriminate.
  - unfold sampleRun. repeat apply reach_step. apply reach_start.
  - reflexivity.
Defined.

(** ** Persistence *)

(** C8. The persisted object holds exactly isDarkMode, voiceSettings,
    accessibilitySettings and userProgress: two states have the same
    persisted object exactly when they agree on these four fields, and
    nothing of the job description, the skill gaps, the session, the current
    question and its index, the activity flag, the phase, the view, the
    loading flag, the error and the voice flags enters it. *)
Theorem partialize_exact :
  (forall s1 s2 : state,
      partialize s1 = partialize s2 <-> samePreferences s1 s2)
  /\ (forall (s : state) jd gaps session question index active phase view
             loading err voiceEnabled speaking,
         partialize
           (mkState jd gaps (userProgress s) session question index active phase
              (isDarkMode s) view loading err (voiceSettings s)
              (accessibilitySettings s) voiceEnabled speaking)
         = partialize s).
Proof.
  split.
  - intros s1 s2. unfold partialize, samePreferences. split.
    + intros E. injection E as E1 E2 E3 E4. auto.
    + intros (E1 & E2 & E3 & E4). rewrite E1, E2, E3, E4. reflexivity.
  - intros. reflexivity.
Qed.

End StoreFacts.

(* ================================================================== *)
(** * The other actions of the store                                *)
(* ================================================================== *)

Module StoreActionFacts.
Import Js Store StoreActions StoreProperties.
Local Open Scope Z_scope.

Lemma run_questionConsistent (c : command) (s : state) :
  questionConsistent s -> questionConsistent (run c s).
Proof.
  intros H. destruct c; cbn [run];
    try (unfold questionConsistent in *; cbn; exact H).
  - (* startInterview *)
    unfold questionConsistent, startInterview. cbn.
    split; [ reflexivity | split; [ lia | right; reflexivity ] ].
  - (* submitAnswer *)
    unfold questionConsistent, submitAnswer in *.
    destruct (currentSession s) as [ cs | ] eqn:Hcs; cbn; [ exact H | rewrite Hcs; exact H ].
  - (* nextQuestion *)
    unfold questionConsistent, nextQuestion in *.
    destruct (currentSession s) as [ cs | ] eqn:Hcs; [ | rewrite Hcs; exact H ].
    cbv zeta.
    destruct (currentQuestionIndex s + 1 <? len (InterviewSession.questions cs)) eqn:E.
    + apply Z.ltb_lt in E. destruct H as (Hq & H0 & Hi).
      destruct (StoreFacts.at_index_in_range (InterviewSession.questions cs)
                  (currentQuestionIndex s + 1)) as [ q Hn ]; [ lia | ].
      rewrite Hn. cbn. rewrite Hcs. rewrite Hn. repeat split; [ lia | left; lia ].
    + unfold endInterview. rewrite Hcs. cbn. exact H.
  - (* endInterview *)
    unfold questionConsistent, endInterview in *.
    destruct (currentSession s) as [ cs | ] eqn:Hcs; cbn; [ exact H | rewrite Hcs; exact H ].
  - (* retryQuestion *)
    unfold questionConsistent, retryQuestion in *.
    destruct (currentSession s) as [ cs | ] eqn:Hcs; cbn; [ exact H | rewrite Hcs; exact H ].
  - (* explainAnswer *)
    unfold questionConsistent, explainAnswer in *.
    destruct (currentSession s) as [ cs | ] eqn:Hcs; [ | rewrite Hcs; exact H ].
    destruct (find _ _); cbn; [ exact H | rewrite Hcs; exact H ].
  - (* speak *)
    unfold questionConsistent, speak in *.
    destruct (negb (isVoiceEnabled s) || negb speechSynthesis); cbn; exact H.
  - (* resetInterview *)
    unfold questionConsistent, resetInterview. cbn. auto.
  - (* resetAll *)
    unfold questionConsistent, resetAll. cbn. auto.
Qed.

Lemma run_phaseConsistent (c : command) (s : state) :
  phaseConsistent s -> phaseConsistent (run c s).
Proof.
  intros H. destruct c; cbn [run];
    try (unfold phaseConsistent in *; cbn; exact H).
  - unfold phaseConsistent, startInterview. cbn. reflexivity.
  - unfold phaseConsistent, submitAnswer in *.
    destruct (currentSession s); cbn; exact H.
  - unfold phaseConsistent, nextQuestion in *.
    destruct (currentSession s) as [ cs | ] eqn:Hcs; [ | exact H ]. cbv zeta.
    destruct (_ <? _).
    + destruct (at_index _ _); cbn; [ reflexivity | exact H ].
    + unfold endInterview. rewrite Hcs. cbn. discriminate.
  - unfold phaseConsistent, endInterview in *.
    destruct (currentSession s); cbn; [ discriminate | exact H ].
  - unfold phaseConsistent, retryQuestion in *.
    destruct (currentSession s); cbn; exact H.
  - unfold phaseConsistent, explainAnswer in *.
    destruct (currentSession s); [ | exact H ].
    destruct (find _ _); cbn; exact H.
  - unfold phaseConsistent, speak in *.
    destruct (negb (isVoiceEnabled s) || negb speechSynthesis); cbn; exact H.
  - unfold phaseConsistent, resetInterview. cbn. discriminate.
  - unfold phaseConsistent, resetAll. cbn. discriminate.
Qed.

Lemma run_levelConsistent (c : command) (s : state) :
  levelConsistent s -> levelConsistent (run c s).
Proof.
  intros H. destruct c; cbn [run];
    try (unfold levelConsistent in *; cbn; exact H).
  - unfold levelConsistent, submitAnswer in *.
    destruct (currentSession s); cbn; [ reflexivity | exact H ].
  - unfold levelConsistent, nextQuestion in *.
    destruct (currentSession s) as [ cs | ] eqn:Hcs; [ | exact H ]. cbv zeta.
    destruct (_ <? _).
    + destruct (at_index _ _); cbn; exact H.
    + unfold endInterview. rewrite Hcs. cbn. exact H.
  - unfold levelConsistent, endInterview in *.
    destruct (currentSession s); cbn; exact H.
  - unfold levelConsistent, retryQuestion in *.
    destruct (currentSession s); cbn; exact H.
  - unfold levelConsistent, explainAnswer in *.
    destruct (currentSession s); [ | exact H ].
    destruct (find _ _); cbn; exact H.
  - unfold levelConsistent, speak in *.
    destruct (negb (isVoiceEnabled s) || negb speechSynthesis); cbn; exact H.
  - unfold levelConsistent, addXP. cbn. reflexivity.
Qed.

Lemma runAll_preserves (P : state -> Prop) :
  (forall c s, P s -> P (run c s)) ->
  forall cs s, P s -> P (runAll cs s).
Proof.
  intros Hstep. unfold runAll.
  induction cs as [ | c cs IH ]; intros s H; cbn [fold_left]; auto.
Qed.

(** X1. In every state the store reaches from its initial state, by any
    sequence of its actions, the current question is the question of the
    session at the current index when there is a session, and there is no
    current question, index 0 and no active interview when there is none. *)
Theorem store_question_consistent (cs : list command) :
  questionConsistent (runAll cs initialState).
Proof.
  apply runAll_preserves; [ apply run_questionConsistent | ].
  unfold questionConsistent. cbn. auto.
Qed.

(** X2. In every state the store reaches from its initial state, while an
    interview is active, the phase is the type of the current question
    (behavioral when the interview was started on no question). *)
Theorem store_phase_consistent (cs : list command) :
  phaseConsistent (runAll cs initialState).
Proof.
  apply runAll_preserves; [ apply run_phaseConsistent | ].
  unfold phaseConsistent. cbn. discriminate.
Qed.

(** X3. Every action of the store keeps the level in step with the
    experience points: from a state where the level is floor(totalXP / 1000)
    + 1, as in the initial state, every sequence of actions leads to such a
    state. *)
Theorem store_level_consistent (cs : list command) (s : state) :
  levelConsistent s -> levelConsistent (runAll cs s).
Proof.
  apply runAll_preserves. apply run_levelConsistent.
Qed.

Lemma store_level_consistent_witness :
  levelConsistent
    (runAll [AddXP 2500; ResetAll; AddXP (1 # 2)] initialState).
Proof.
  apply store_level_consistent. reflexivity.
Defined.

(** ** The length of an interview *)

Lemma step_standsAt (questions : list Question.t) (c k : Z) (a : action) (s : state) :
  questions <> [] -> 0 <= k ->
  standsAt questions c k s ->
  standsAt questions c (k + nexts [a]) (step a s).
Proof.
  intros Hq Hk ((cs & Hcs & Hqs) & Hi & Ha & Hc).
  assert (Hn : 0 < len questions)
    by (unfold len; destruct questions; [ congruence | cbn; lia ]).
  destruct a as [ answer | | now ]; cbn [step nexts].
  - rewrite Z.add_0_r. unfold standsAt, submitAnswer. rewrite Hcs. cbn.
    repeat split; try assumption. eexists. split; [ reflexivity | exact Hqs ].
  - rewrite Z.add_0_r. unfold standsAt, retryQuestion. rewrite Hcs. cbn.
    repeat split; try assumption. eexists. split; [ reflexivity | exact Hqs ].
  - replace (k + (1 + 0)) with (k + 1) by lia.
    unfold standsAt, nextQuestion. rewrite Hcs. cbv zeta. rewrite Hqs, Hi.
    destruct (Z.min k (len questions - 1) + 1 <? len questions) eqn:E.
    + apply Z.ltb_lt in E.
      destruct (StoreFacts.at_index_in_range questions (Z.min k (len questions - 1) + 1))
        as [ q Hnext ]; [ lia | ].
      rewrite Hnext. cbn. rewrite Ha, Hc.
      repeat split.
      * exists cs. auto.
      * lia.
      * destruct (k <? len questions) eqn:E1, (k + 1 <? len questions) eqn:E2;
          try reflexivity;
          rewrite ?Z.ltb_lt, ?Z.ltb_ge in *; lia.
      * lia.
    + apply Z.ltb_ge in E. unfold endInterview. rewrite Hcs. cbn. rewrite Hc.
      repeat split.
      * eexists. split; [ reflexivity | exact Hqs ].
      * rewrite Hi. lia.
      * symmetry. apply Z.ltb_ge. lia.
      * lia.
Qed.

Lemma nexts_nonneg (l : list action) : 0 <= nexts l.
Proof.
  induction l as [ | [ | | ] l IH ]; cbn [nexts]; lia.
Qed.

Lemma steps_standsAt (questions : list Question.t) (c : Z) (l : list action) :
  questions <> [] ->
  forall (k : Z) (s : state),
    0 <= k ->
    standsAt questions c k s ->
    standsAt questions c (k + nexts l) (steps l s).
Proof.
  intros Hq. unfold steps.
  induction l as [ | a l IH ]; intros k s Hk H; cbn [fold_left].
  - cbn [nexts]. rewrite Z.add_0_r. exact H.
  - replace (k + nexts (a :: l)) with ((k + nexts [a]) + nexts l)
      by (destruct a; cbn [nexts]; lia).
    apply IH.
    + pose proof (nexts_nonneg [a]). lia.
    + apply step_standsAt; assumption.
Qed.

(** X4. An interview started on n questions, n at least 1, stands at question
    min(k, n-1) after k calls of nextQuestion, whatever answers are
    submitted and retried in between: it is active exactly while k is below
    n, and every call from the n-th on ends the interview once more, each
    counted as a completed interview. *)
Theorem interview_length (questions : list Question.t) (now startTime : Z)
    (s0 : state) (l : list action) :
  questions <> [] ->
  standsAt questions (UserProgress.completedInterviews (userProgress s0))
    (nexts l) (steps l (startInterview questions now startTime s0)).
Proof.
  intros Hq.
  apply (steps_standsAt questions _ l Hq 0); [ lia | ].
  assert (Hn : 0 < len questions)
    by (unfold len; destruct questions; [ congruence | cbn; lia ]).
  unfold standsAt, startInterview. cbn. repeat split.
  - eexists. split; reflexivity.
  - lia.
  - symmetry. apply Z.ltb_lt. exact Hn.
  - lia.
Qed.

Lemma interview_length_witness :
  standsAt [Properties.cleanCodeQuestion; Properties.deadlineQuestion]
    (UserProgress.completedInterviews (userProgress initialState))
    (nexts [Store.SubmitAnswer Properties.sampleAnswer; Store.NextQuestion 2000;
            Store.NextQuestion 3000; Store.NextQuestion 4000])
    (steps [Store.SubmitAnswer Properties.sampleAnswer; Store.NextQuestion 2000;
            Store.NextQuestion 3000; Store.NextQuestion 4000]
       (startInterview [Properties.cleanCodeQuestion; Properties.deadlineQuestion]
          1000 1000 initialState)).
Proof.
  apply interview_length. discriminate.
Defined.

(** ** Retrying *)

(** X5. Retrying the current question right after an answer to it was
    submitted leaves the answers as retrying before the submission would
    have: no answer to the current question is left, the answers to the
    other questions are untouched, and the experience points the answer
    earned are kept. *)
Theorem retry_after_submit (s : state) (cs : InterviewSession.t)
    (q : Question.t) (a : Answer.t) :
  currentSession s = Some cs ->
  at_index (InterviewSession.questions cs) (currentQuestionIndex s) = Some q ->
  Answer.questionId a = Question.id q ->
  let s' := retryQuestion (submitAnswer a s) in
  answersOf s' = answersOf (retryQuestion s)
  /\ answersOf s'
     = filter (fun x => negb (Answer.questionId x =? Question.id q)%string)
         (InterviewSession.answers cs)
  /\ userProgress s' = userProgress (submitAnswer a s)
  /\ UserProgress.totalXP (userProgress s')
     = (UserProgress.totalXP (userProgress s)
        + inject_Z (Qfloor (Answer.score a * 10)))%Q.
Proof.
  intros Hcs Hq Ha. cbv zeta.
  unfold answersOf, retryQuestion, submitAnswer. rewrite Hcs. cbn.
  rewrite Hq. cbn. rewrite filter_app. cbn. rewrite Ha, String.eqb_refl. cbn.
  rewrite app_nil_r. repeat split.
Qed.

Lemma retry_after_submit_witness :
  let s' := retryQuestion (submitAnswer Properties.sampleAnswer sampleStart) in
  answersOf s' = answersOf (retryQuestion sampleStart)
  /\ answersOf s'
     = filter (fun x => negb (Answer.questionId x
                              =? Question.id Properties.cleanCodeQuestion)%string)
         (InterviewSession.answers sampleSession)
  /\ userProgress s' = userProgress (submitAnswer Properties.sampleAnswer sampleStart)
  /\ UserProgress.totalXP (userProgress s')
     = (UserProgress.totalXP (userProgress sampleStart)
        + inject_Z (Qfloor (Answer.score Properties.sampleAnswer * 10)))%Q.
Proof.
  apply (retry_after_submit sampleStart sampleSession Properties.cleanCodeQuestion
           Properties.sampleAnswer); reflexivity.
Defined.

(** ** The overall score *)

Lemma sum_scores_bounds (l : list Answer.t) :
  Forall inScaleAnswer l ->
  forall acc : Q,
    (acc <= fold_left (fun sum answer => sum + Answer.score answer) l acc
     <= acc + 10 * inject_Z (len l))%Q.
Proof.
  induction 1 as [ | a l Ha _ IH ]; intros acc; cbn [fold_left].
  - change (inject_Z (len (@nil Answer.t))) with 0%Q. lra.
  - specialize (IH (acc + Answer.score a)%Q). unfold inScaleAnswer in Ha.
    assert (E : (inject_Z (len (a :: l)) == inject_Z (len l) + 1)%Q).
    { unfold len. cbn [List.length]. rewrite Nat2Z.inj_succ.
      unfold Z.succ. rewrite inject_Z_plus. reflexivity. }
    rewrite E. lra.
Qed.

Lemma length_map_len {A B : Type} (f : A -> B) (l : list A) :
  len (map f l) = len l.
Proof. unfold len. rewrite length_map. reflexivity. Qed.

Lemma sum_scores_fold (l : list Answer.t) :
  forall acc : Q,
    (fold_left (fun sum answer => sum + Answer.score answer) l acc
     == acc + fold_right Qplus 0 (map Answer.score l))%Q.
Proof.
  induction l as [ | a l IH ]; intros acc; cbn [fold_left fold_right map].
  - ring.
  - rewrite IH. ring.
Qed.

(** X6. endInterview records as overall score the mean of the scores of the
    answers of the session, and 0 for a session without answers; when every
    answer has a score between 0 and 10 the overall score lies between 0
    and 10.  The answers are left as they are and the end time is the
    reading of the clock. *)
Theorem endInterview_overall_score (now : Z) (s : state) (cs : InterviewSession.t) :
  currentSession s = Some cs ->
  exists cs',
    currentSession (endInterview now s) = Some cs'
    /\ (InterviewSession.answers cs <> [] ->
        (InterviewSession.overallScore cs'
         == mean (map Answer.score (InterviewSession.answers cs)))%Q)
    /\ (InterviewSession.answers cs = [] -> InterviewSession.overallScore cs' = 0%Q)
    /\ (Forall inScaleAnswer (InterviewSession.answers cs) ->
        (0 <= InterviewSession.overallScore cs' <= 10)%Q)
    /\ InterviewSession.answers cs' = InterviewSession.answers cs
    /\ InterviewSession.endTime cs' = Some now.
Proof.
  intros Hcs. unfold endInterview. rewrite Hcs. cbn.
  eexists. split; [ reflexivity | ]. cbn.
  destruct (InterviewSession.answers cs) as [ | a l ] eqn:El.
  - split; [ congruence | ]. split; [ reflexivity | ].
    split; [ intros _; lra | split; reflexivity ].
  - assert (Hpos : (0 < inject_Z (len (a :: l)))%Q).
    { unfold len. cbn [List.length]. rewrite Nat2Z.inj_succ.
      change 0%Q with (inject_Z 0). rewrite <- Zlt_Qlt. lia. }
    split; [ intros _ | split; [ discriminate | split; [ | split; reflexivity ] ] ].
    + unfold mean. rewrite (sum_scores_fold (a :: l) 0).
      rewrite length_map_len. apply Qdiv_comp; [ ring | reflexivity ].
    + intros Hall.
      pose proof (sum_scores_bounds (a :: l) Hall 0%Q) as [ Hlo Hhi ].
      split.
      * apply Qle_shift_div_l; [ exact Hpos | lra ].
      * apply Qle_shift_div_r; [ exact Hpos | lra ].
Qed.

Lemma endInterview_overall_score_witness :
  exists cs',
    currentSession
      (endInterview 5000 (submitAnswer Properties.sampleAnswer sampleStart))
    = Some cs'
    /\ (InterviewSession.answers
          (with_answers sampleSession [Properties.sampleAnswer]) <> [] ->
        (InterviewSession.overallScore cs'
         == mean (map Answer.score
                    (InterviewSession.answers
                       (with_answers sampleSession [Properties.sampleAnswer]))))%Q)
    /\ (InterviewSession.answers
          (with_answers sampleSession [Properties.sampleAnswer]) = [] ->
        InterviewSession.overallScore cs' = 0%Q)
    /\ (Forall inScaleAnswer
          (InterviewSession.answers
             (with_answers sampleSession [Properties.sampleAnswer])) ->
        (0 <= InterviewSession.overallScore cs' <= 10)%Q)
    /\ InterviewSession.answers cs'
       = InterviewSession.answers
           (with_answers sampleSession [Properties.sampleAnswer])
    /\ InterviewSession.endTime cs' = Some 5000.
Proof.
  apply (endInterview_overall_score 5000
           (submitAnswer Properties.sampleAnswer sampleStart)
           (with_answers sampleSession [Properties.sampleAnswer])).
  reflexivity.
Defined.

(** ** Resets *)

Lemma resetInterview_session (s : state) :
  currentSession (resetInterview s) = None.
Proof. reflexivity. Qed.

Lemma resetAll_session (s : state) : currentSession (resetAll s) = None.
Proof. reflexivity. Qed.

Definition sessionCommand (c : command) : bool :=
  match c with
  | SubmitAnswer _ | NextQuestion _ | EndInterview _ | RetryQuestion
  | ExplainAnswer _ => true
  | _ => false
  end.

(** X7. resetAll and resetInterview leave the persisted preferences and
    the progress of the user as they are (experience points, level and
    completed interviews survive a fresh start), and after either of them the
    actions on the session do nothing until an interview is started. *)
Theorem reset_keeps_progress (s : state) (c : command) :
  partialize (resetAll s) = partialize s
  /\ partialize (resetInterview s) = partialize s
  /\ (sessionCommand c = true ->
      run c (resetAll s) = resetAll s
      /\ run c (resetInterview s) = resetInterview s).
Proof.
  split; [ reflexivity | split; [ reflexivity | ] ].
  intros H.
  pose proof (resetAll_session s) as Ha.
  pose proof (resetInterview_session s) as Hi.
  split; destruct c; try discriminate H; cbn [run];
    unfold submitAnswer, nextQuestion, endInterview, retryQuestion, explainAnswer;
    rewrite ?Ha, ?Hi; reflexivity.
Qed.

(** ** Explanations *)

Lemma map_ext_id_on {A B : Type} (f : A -> A) (g : A -> B) (l : list A) :
  (forall a, g (f a) = g a) -> map g (map f l) = map g l.
Proof.
  intros H. rewrite map_map. apply map_ext. exact H.
Qed.

Section Explained.

Variable questionId : string.
Variable explanation : string.

Let asked (a : Answer.t) : bool := (Answer.questionId a =? questionId)%string.
Let explain (a : Answer.t) : Answer.t :=
  if asked a then with_aiExplanation a explanation else a.

Lemma explained_without (l : list Answer.t) :
  map withoutExplanation (map explain l) = map withoutExplanation l.
Proof.
  apply map_ext_id_on. intros a. unfold explain. destruct (asked a); reflexivity.
Qed.

Lemma explained_others (l : list Answer.t) :
  filter (fun a => negb (asked a)) (map explain l)
  = filter (fun a => negb (asked a)) l.
Proof.
  induction l as [ | a l IH ]; cbn [map filter]; [ reflexivity | ].
  unfold explain at 1 2. destruct (asked a) eqn:E.
  - unfold asked in *. cbn [with_aiExplanation Answer.questionId].
    rewrite E. cbn [negb]. exact IH.
  - rewrite E. cbn [negb]. rewrite IH. reflexivity.
Qed.

Lemma explained_asked (l : list Answer.t) :
  Forall (fun a => Answer.aiExplanation a = Some explanation)
    (filter asked (map explain l)).
Proof.
  induction l as [ | a l IH ]; cbn [map filter]; [ constructor | ].
  unfold explain at 1 2. destruct (asked a) eqn:E.
  - unfold asked in *. cbn [with_aiExplanation Answer.questionId].
    rewrite E. constructor; [ reflexivity | exact IH ].
  - rewrite E. exact IH.
Qed.

End Explained.

(** X8. explainAnswer changes nothing but the explanation field of the
    answers to the given question and the error message.  Every field of the
    state other than the session and the error is left as it is, and so is
    every field of the session other than its answers; the answers keep
    their number and order and all their fields other than the explanation,
    and the answers to other questions keep their explanation too.  When
    the session has an answer to the question, the error is cleared and
    every answer to the question gets the explanation built from the
    feedback of the first of them; when it has none (or there is no
    session) the whole state is left as it is. *)
Theorem explainAnswer_frame (questionId : string) (s : state) :
  let s' := explainAnswer questionId s in
  let asked := fun a => (Answer.questionId a =? questionId)%string in
  outsideSession s' = outsideSession s
  /\ outsideAnswers s' = outsideAnswers s
  /\ map withoutExplanation (answersOf s') = map withoutExplanation (answersOf s)
  /\ filter (fun a => negb (asked a)) (answersOf s')
     = filter (fun a => negb (asked a)) (answersOf s)
  /\ (forall first,
        find asked (answersOf s) = Some first ->
        Store.error s' = None
        /\ Forall (fun a => Answer.aiExplanation a
                            = Some (explanationOf (Answer.feedback first)))
             (filter asked (answersOf s')))
  /\ (find asked (answersOf s) = None -> s' = s).
Proof.
  cbv zeta. unfold explainAnswer, answersOf, outsideAnswers.
  destruct (currentSession s) as [ cs | ] eqn:Hcs.
  - destruct (find _ (InterviewSession.answers cs)) as [ answer | ] eqn:Hf.
    + cbn [currentSession set_error set_currentSession option_map].
      split; [ reflexivity | ].
      split; [ reflexivity | ].
      cbn [with_answers InterviewSession.answers].
      split; [ apply explained_without | ].
      split; [ apply explained_others | ].
      split; [ | discriminate ].
      intros first Hfirst. injection Hfirst as <-.
      split; [ reflexivity | apply explained_asked ].
    + rewrite ?Hcs. repeat split; discriminate.
  - rewrite ?Hcs. cbn [find filter map]. repeat split; discriminate.
Qed.

(** ** Skill levels *)

(** X9. updateSkillLevel stores the level under the skill: reading the skill
    afterwards gives that level, every other skill reads as before, and the
    second of two updates of a skill wins. *)
Theorem updateSkillLevel_lookup (skill other : string) (level level' : Q)
    (s : state) :
  let levels st := UserProgress.skillLevels (userProgress st) in
  getKey skill (levels (updateSkillLevel skill level s)) = Some level
  /\ (other <> skill ->
      getKey other (levels (updateSkillLevel skill level s))
      = getKey other (levels s))
  /\ levels (updateSkillLevel skill level' (updateSkillLevel skill level s))
     = levels (updateSkillLevel skill level' s).
Proof.
  cbv zeta. unfold updateSkillLevel. cbn.
  generalize (UserProgress.skillLevels (userProgress s)). intros l.
  repeat split.
  - induction l as [ | [k v] l IH ]; cbn.
    + rewrite String.eqb_refl. reflexivity.
    + destruct (k =? skill)%string eqn:E; cbn.
      * rewrite String.eqb_refl. reflexivity.
      * rewrite E. exact IH.
  - intros Hne. induction l as [ | [k v] l IH ]; cbn.
    + destruct (String.eqb_spec skill other); [ congruence | reflexivity ].
    + destruct (String.eqb_spec k skill) as [ -> | Hk ]; cbn.
      * destruct (String.eqb_spec skill other); [ congruence | reflexivity ].
      * destruct (k =? other)%string; [ reflexivity | exact IH ].
  - induction l as [ | [k v] l IH ]; cbn.
    + rewrite String.eqb_refl. reflexivity.
    + destruct (k =? skill)%string eqn:E; cbn.
      * rewrite String.eqb_refl. reflexivity.
      * rewrite E. rewrite IH. reflexivity.
Qed.

(** ** The simulated code fixer *)





End StoreActionFacts.

(* ================================================================== *)
(** * Verdicts, caps and guards of the evaluators                   *)
(* ================================================================== *)

Module ScoringFacts.
Import Js AnswerEvaluator SkillAnalysis Properties StringFacts EvaluatorFacts.
Import EvaluatorProperties.
Local Open Scope Q_scope.

(** ** The verdict and the score *)

Lemma Qle_bool_min_10 (t x : Q) :
  t <= 10 -> Qle_bool t (Qmin 10 x) = Qle_bool t x.
Proof.
  intros Ht. destruct (Qle_bool t x) eqn:E.
  - apply Qle_bool_iff. apply Qle_bool_iff in E. apply Q.min_glb; assumption.
  - destruct (Qle_bool t (Qmin 10 x)) eqn:E'; [ | reflexivity ].
    apply Qle_bool_iff in E'.
    assert (t <= x) by (eapply Qle_trans; [ exact E' | apply Q.le_min_r ]).
    apply Qle_bool_iff in H. congruence.
Qed.

Lemma evaluateJavaScript_verdict parses code q :
  Evaluation.isCorrect (evaluateJavaScript parses code q)
  = Qle_bool 7 (Evaluation.score (evaluateJavaScript parses code q)).
Proof. unfold evaluateJavaScript. split_if; reflexivity. Qed.

Lemma evaluatePython_verdict code q :
  Evaluation.isCorrect (evaluatePython code q)
  = Qle_bool 7 (Evaluation.score (evaluatePython code q)).
Proof. unfold evaluatePython. split_if; reflexivity. Qed.

Lemma evaluateSQL_verdict code q :
  Evaluation.isCorrect (evaluateSQL code q)
  = Qle_bool 7 (Evaluation.score (evaluateSQL code q)).
Proof. unfold evaluateSQL. split_if; reflexivity. Qed.

Lemma evaluateGenericCode_verdict code q :
  Evaluation.isCorrect (evaluateGenericCode code q)
  = Qle_bool 6 (Evaluation.score (evaluateGenericCode code q)).
Proof. unfold evaluateGenericCode. split_if; reflexivity. Qed.

Lemma evaluateSTARMethod_verdict answer q :
  Evaluation.isCorrect (evaluateSTARMethod answer q)
  = Qle_bool 7 (Evaluation.score (evaluateSTARMethod answer q)).
Proof. unfold evaluateSTARMethod. split_if; reflexivity. Qed.

Lemma evaluateByCategory_verdict answer q :
  Evaluation.isCorrect (evaluateByCategory answer q)
  = Qle_bool 7 (Evaluation.score (evaluateByCategory answer q)).
Proof.
  unfold evaluateByCategory. destruct (microservicesCheck _ _ _) as [ f sc ].
  cbn. symmetry. apply Qle_bool_min_10. discriminate.
Qed.

(** X11. The verdict goes with the score that is returned: a result is
    marked correct exactly when its score, after the cap at 10, is at least
    7, and at least 6 in the generic code evaluator. *)
Theorem verdict_matches_score (parses : string -> bool) (code answer : string)
    (q : Question.t) :
  returns (evaluateCode parses code q)
    (fun r => Evaluation.isCorrect r = Qle_bool (thresholdOf q) (Evaluation.score r))
  /\ Evaluation.isCorrect (evaluateTheoretical answer q)
     = Qle_bool 7 (Evaluation.score (evaluateTheoretical answer q))
  /\ Evaluation.isCorrect (evaluateBehavioral answer q)
     = Qle_bool 7 (Evaluation.score (evaluateBehavioral answer q)).
Proof.
  split; [ | split ].
  - unfold evaluateCode, thresholdOf.
    destruct (isBlank code);
      [ cbn; destruct (_ || _); reflexivity | ].
    destruct (isNonsenseInput code);
      [ cbn; destruct (_ || _); reflexivity | ].
    cbv zeta.
    destruct (languageOf q =? "javascript")%string eqn:E1; cbn [orb returns].
    { apply evaluateJavaScript_verdict. }
    destruct (languageOf q =? "python")%string eqn:E2; cbn [orb returns].
    { apply evaluatePython_verdict. }
    destruct (languageOf q =? "java")%string eqn:E3; cbn [returns]; [ trivial | ].
    destruct (languageOf q =? "sql")%string eqn:E4; cbn [returns].
    { apply evaluateSQL_verdict. }
    apply evaluateGenericCode_verdict.
  - unfold evaluateTheoretical.
    destruct (isBlank answer); [ reflexivity | ].
    destruct (isNonsenseInput answer); [ reflexivity | ].
    destruct (_ <? _)%nat; [ reflexivity | apply evaluateByCategory_verdict ].
  - unfold evaluateBehavioral.
    destruct (isBlank answer); [ reflexivity | ].
    destruct (isNonsenseInput answer); [ reflexivity | ].
    apply evaluateSTARMethod_verdict.
Qed.

(** ** Questions the JavaScript evaluator does not know *)

Lemma evaluateJavaScript_unknown (parses : string -> bool) (code : string)
    (q : Question.t) :
  unknownToJavaScript q = true ->
  Evaluation.score (evaluateJavaScript parses code q) <= 2
  /\ Evaluation.isCorrect (evaluateJavaScript parses code q) = false.
Proof.
  unfold unknownToJavaScript. intros H. apply andb_prop in H.
  destruct H as [ H1 H2 ]. apply negb_true_iff in H1, H2.
  unfold evaluateJavaScript. rewrite H1, H2.
  split_if; split; (reflexivity || (apply Qle_bool_iff; reflexivity)).
Qed.

Lemma evaluateCode_as_javascript (parses : string -> bool) (code : string)
    (q : Question.t) :
  languageOf q = "javascript" ->
  unknownToJavaScript q = true ->
  exists r, evaluateCode parses code q = Return r
            /\ Evaluation.score r <= 2
            /\ Evaluation.isCorrect r = false.
Proof.
  intros Hl Hq. unfold evaluateCode.
  destruct (isBlank code);
    [ eexists; split; [ reflexivity | split; [ discriminate | reflexivity ] ] | ].
  destruct (isNonsenseInput code);
    [ eexists; split; [ reflexivity | split; [ discriminate | reflexivity ] ] | ].
  cbv zeta. rewrite Hl. cbn.
  eexists. split; [ reflexivity | ]. apply evaluateJavaScript_unknown, Hq.
Qed.

(** X12. A question that is evaluated as JavaScript (language javascript, or
    none) and whose text mentions neither reverse nor second largest can
    never be answered correctly: whatever the code, the score is at most 2
    and the answer is not marked correct. *)
Theorem javascript_unknown_question_capped (parses : string -> bool)
    (code : string) (q : Question.t) :
  languageOf q = "javascript" ->
  unknownToJavaScript q = true ->
  exists r, evaluateCode parses code q = Return r
            /\ Evaluation.score r <= 2
            /\ Evaluation.isCorrect r = false.
Proof. apply evaluateCode_as_javascript. Qed.

Lemma javascript_unknown_question_capped_witness :
  exists r,
    evaluateCode (fun _ => true)
      "function search(a, x) { let lo = 0; let hi = a.length; return lo; }"
      javascriptQuestion = Return r
    /\ Evaluation.score r <= 2
    /\ Evaluation.isCorrect r = false.
Proof.
  apply javascript_unknown_question_capped; reflexivity.
Defined.

(** ** The parts of a battery *)

Lemma in_firstn {A : Type} (n : nat) (l : list A) (x : A) :
  In x (firstn n l) -> In x l.
Proof.
  revert l. induction n as [ | n IH ]; intros [ | a l ]; cbn; try tauto.
  intros [ H | H ]; [ left; exact H | right; apply IH, H ].
Qed.

Lemma codingLoop_in (l : list string) :
  forall (index : nat) (questions : list Question.t) (questionId : nat)
         (q : Question.t),
    In q (fst (codingLoop l index questions questionId)) ->
    In q questions
    \/ exists language id, In language l /\ In q (codingQuestions id language).
Proof.
  induction l as [ | language l IH ]; intros index questions questionId q H;
    cbn [codingLoop fst] in H; [ left; exact H | ].
  apply IH in H. destruct H as [ H | (lang & id & Hl & Hq) ].
  - apply in_app_or in H. destruct H as [ H | H ]; [ left; exact H | ].
    right. exists language, questionId. split; [ left; reflexivity | ].
    apply (in_firstn _ _ _ H).
  - right. exists lang, id. split; [ right; exact Hl | exact Hq ].
Qed.

Lemma codingLoop_keeps (l : list string) :
  forall (index : nat) (questions : list Question.t) (questionId : nat)
         (q : Question.t),
    In q questions -> In q (fst (codingLoop l index questions questionId)).
Proof.
  induction l as [ | language l IH ]; intros index questions questionId q H;
    cbn [codingLoop fst]; [ exact H | ].
  apply IH. apply in_or_app. left. exact H.
Qed.

(** Every language of the list gets its first coding question. *)
Lemma codingLoop_first (l : list string) (language : string) :
  In language l ->
  forall (index : nat) (questions : list Question.t) (questionId : nat),
    exists id,
      In (mkQuestion id coding
            ("Implement a function to reverse a string without using built-in reverse methods in " ++ language)
            easy (Some (toLowerCase language)) "Data Structures" 10)
         (fst (codingLoop l index questions questionId)).
Proof.
  induction l as [ | x l IH ]; intros Hin index questions questionId;
    [ contradiction | ].
  cbn [codingLoop fst]. destruct Hin as [ -> | Hin ].
  - exists questionId. apply codingLoop_keeps. apply in_or_app. right.
    destruct (index =? 0)%nat; left; reflexivity.
  - apply IH, Hin.
Qed.

(** The four parts of a battery, in order. *)
Lemma generateQuestions_parts (jd : JobDescription.t) (gaps : list SkillGap.t) :
  exists id1 id2 id3,
    generateQuestions (Some jd) gaps
    = (fst (codingLoop (JobDescription.languages jd) 0 [] 1)
       ++ (if requiresSql jd then sqlQuestions id1 else [])
       ++ theoreticalQuestions id2 ++ behavioralQuestions id3)%list.
Proof.
  unfold generateQuestions.
  destruct (codingLoop (JobDescription.languages jd) 0 [] 1) as [ questions id ].
  cbn [fst]. destruct (requiresSql jd).
  - exists id, (id + 5)%nat, (id + 5 + 10)%nat.
    rewrite <- !app_assoc. reflexivity.
  - exists id, id, (id + 10)%nat. cbn [app]. rewrite <- !app_assoc. reflexivity.
Qed.

Lemma battery_in (jd : JobDescription.t) (gaps : list SkillGap.t) (q : Question.t) :
  In q (generateQuestions (Some jd) gaps) ->
  (exists language id,
      In language (JobDescription.languages jd)
      /\ In q (codingQuestions id language))
  \/ (exists id, In q (sqlQuestions id))
  \/ (exists id, In q (theoreticalQuestions id))
  \/ (exists id, In q (behavioralQuestions id)).
Proof.
  destruct (generateQuestions_parts jd gaps) as (id1 & id2 & id3 & E).
  rewrite E. intros H.
  apply in_app_or in H. destruct H as [ H | H ].
  { apply codingLoop_in in H. destruct H as [ [] | H ]. left. exact H. }
  apply in_app_or in H. destruct H as [ H | H ].
  { right. left. destruct (requiresSql jd); [ eauto | contradiction ]. }
  apply in_app_or in H. destruct H as [ H | H ]; eauto.
Qed.

Ltac each_question H :=
  cbn [codingQuestions sqlQuestions theoreticalQuestions behavioralQuestions In] in H;
  repeat (destruct H as [ H | H ]; [ subst | ]); try contradiction.

(** X13. The sql questions of a battery carry no language, so evaluateCode
    takes them for JavaScript; none of them mentions reverse or second
    largest, so whatever query is submitted scores at most 2 and is never
    marked correct. *)
Theorem sql_questions_never_correct (parses : string -> bool) (code : string)
    (jd : JobDescription.t) (gaps : list SkillGap.t) (q : Question.t) :
  In q (generateQuestions (Some jd) gaps) ->
  Question.type q = sql ->
  exists r, evaluateCode parses code q = Return r
            /\ Evaluation.score r <= 2
            /\ Evaluation.isCorrect r = false.
Proof.
  intros Hin Ht. apply battery_in in Hin.
  destruct Hin as [ (l & id & _ & H) | [ (id & H) | [ (id & H) | (id & H) ] ] ];
    each_question H; try discriminate Ht;
    apply evaluateCode_as_javascript; reflexivity.
Qed.

Lemma sql_questions_never_correct_witness :
  exists r, evaluateCode (fun _ => true) salaryQuery salaryQuestion = Return r
            /\ Evaluation.score r <= 2
            /\ Evaluation.isCorrect r = false.
Proof.
  apply (sql_questions_never_correct (fun _ => true) salaryQuery sqlJob []);
    [ do 3 right; left; reflexivity | reflexivity ].
Defined.

(** ** Theoretical questions without a category *)

Lemma evaluateByCategory_plain (answer : string) (q : Question.t) :
  plainQuestion q = true ->
  Evaluation.isCorrect (evaluateByCategory answer q) = false
  /\ Evaluation.score (evaluateByCategory answer q)
     = (if (100 <? String.length answer)%nat then 6
        else if (50 <? String.length answer)%nat then 4 else 2).
Proof.
  unfold plainQuestion. intros H.
  apply andb_prop in H. destruct H as [ H H3 ].
  apply andb_prop in H. destruct H as [ H1 H2 ].
  apply negb_true_iff in H1, H2, H3.
  unfold evaluateByCategory, microservicesCheck, solidCheck, apiDesignCheck.
  rewrite H1, H2, H3. cbv beta iota zeta. unfold defaultScoring.
  change (Qeq_bool 0 0) with true. cbv beta iota.
  destruct (100 <? String.length answer)%nat; [ split; reflexivity | ].
  destruct (50 <? String.length answer)%nat; split; reflexivity.
Qed.

Lemma evaluateTheoretical_plain (answer : string) (q : Question.t) :
  plainQuestion q = true ->
  Evaluation.isCorrect (evaluateTheoretical answer q) = false
  /\ Evaluation.score (evaluateTheoretical answer q) <= 6.
Proof.
  intros H. unfold evaluateTheoretical.
  destruct (isBlank answer); [ split; [ reflexivity | discriminate ] | ].
  destruct (isNonsenseInput answer); [ split; [ reflexivity | discriminate ] | ].
  destruct (_ <? _)%nat; [ split; [ reflexivity | discriminate ] | ].
  destruct (evaluateByCategory_plain answer q H) as [ Hc Hs ].
  split; [ exact Hc | ]. rewrite Hs.
  destruct (100 <? _)%nat; [ discriminate | ].
  destruct (50 <? _)%nat; discriminate.
Qed.

(** X14. A theoretical question whose text names none of the three topics
    the evaluator knows (REST with GraphQL, SOLID, microservices) is scored
    by the length of the answer alone, 2, 4 or 6, and is never marked
    correct; seven of the ten theoretical questions of a battery are such
    questions. *)
Theorem plain_theoretical_never_correct (answer : string) (q : Question.t) :
  plainQuestion q = true ->
  Evaluation.isCorrect (evaluateTheoretical answer q) = false
  /\ Evaluation.score (evaluateTheoretical answer q) <= 6
  /\ forall id,
       List.length (filter plainQuestion (theoreticalQuestions id)) = 7%nat.
Proof.
  intros H. destruct (evaluateTheoretical_plain answer q H) as [ Hc Hs ].
  repeat split; assumption || reflexivity.
Qed.

Lemma plain_theoretical_never_correct_witness :
  Evaluation.isCorrect
    (evaluateTheoretical
       "Clean code has small functions with one purpose each, names that say what a thing is for, no duplication, and tests that document the behaviour."
       cleanCodeQuestion) = false
  /\ Evaluation.score
       (evaluateTheoretical
          "Clean code has small functions with one purpose each, names that say what a thing is for, no duplication, and tests that document the behaviour."
          cleanCodeQuestion) <= 6
  /\ forall id,
       List.length (filter plainQuestion (theoreticalQuestions id)) = 7%nat.
Proof.
  apply plain_theoretical_never_correct. reflexivity.
Defined.

(** ** Behavioral answers without action or result *)

(** X15. A behavioral answer that uses none of the keywords of the Action and
    Result elements (action, did, implemented, decided, result, outcome,
    achieved, improved) is never marked correct, however long and detailed
    it is: its score is at most 5. *)
Theorem behavioral_needs_action_or_result (answer : string) (q : Question.t) :
  mentionsNone answer actionAndResultWords = true ->
  Evaluation.isCorrect (evaluateBehavioral answer q) = false
  /\ Evaluation.score (evaluateBehavioral answer q) <= 5.
Proof.
  unfold mentionsNone, actionAndResultWords. cbn [forallb]. intros H.
  repeat (apply andb_prop in H; destruct H as [ ?H H ]).
  repeat match goal with
         | E : negb _ = true |- _ => apply negb_true_iff in E
         end.
  unfold evaluateBehavioral.
  destruct (isBlank answer); [ split; [ reflexivity | discriminate ] | ].
  destruct (isNonsenseInput answer); [ split; [ reflexivity | discriminate ] | ].
  unfold evaluateSTARMethod.
  repeat match goal with
         | E : includes _ _ = false |- _ => rewrite E; clear E
         end.
  cbn [orb].
  split_if; split; (reflexivity || (apply Qle_bool_iff; reflexivity)).
Qed.

Lemma behavioral_needs_action_or_result_witness :
  Evaluation.isCorrect
    (evaluateBehavioral
       "When the project was late I was responsible for the task and I had to plan the time."
       teamworkQuestion) = false
  /\ Evaluation.score
       (evaluateBehavioral
          "When the project was late I was responsible for the task and I had to plan the time."
          teamworkQuestion) <= 5.
Proof.
  apply behavioral_needs_action_or_result. reflexivity.
Defined.

(** ** Inputs the guards reject *)

Lemma allSpace_sfilter (s : string) :
  allSpace s = true -> sfilter nonSpace s = "".
Proof.
  unfold allSpace. induction s as [ | c s IH ]; cbn; [ reflexivity | ].
  intros H. apply andb_prop in H. destruct H as [ Hc Hs ].
  unfold nonSpace at 1. rewrite Hc. cbn. apply IH, Hs.
Qed.

Lemma sfilter_empty_trimStart (s : string) :
  sfilter nonSpace s = "" -> trimStart s = "".
Proof.
  induction s as [ | c s IH ]; cbn; [ reflexivity | ].
  unfold nonSpace at 1. destruct (isSpace c); cbn; [ exact IH | discriminate ].
Qed.

Lemma sfilter_empty_isBlank (s : string) :
  sfilter nonSpace s = "" -> isBlank s = true.
Proof.
  intros H. unfold isBlank, trim. rewrite (sfilter_empty_trimStart s H).
  cbn. apply orb_true_r.
Qed.

(** X16. An input made of white space only (spaces, tabs, line breaks) gets no
    point from any of the three evaluators and is not marked correct,
    whatever the question and its language. *)
Theorem blank_input_rejected (parses : string -> bool) (input : string)
    (q : Question.t) :
  allSpace input = true ->
  (exists r, evaluateCode parses input q = Return r /\ rejected r)
  /\ rejected (evaluateTheoretical input q)
  /\ rejected (evaluateBehavioral input q).
Proof.
  intros H. apply allSpace_sfilter, sfilter_empty_isBlank in H.
  unfold evaluateCode, evaluateTheoretical, evaluateBehavioral, rejected.
  rewrite H. repeat split. eexists. repeat split.
Qed.

Lemma blank_input_rejected_witness :
  (exists r, evaluateCode (fun _ => true) ("   " ++ nl ++ "  ") javaQuestion = Return r
             /\ rejected r)
  /\ rejected (evaluateTheoretical ("   " ++ nl ++ "  ") javaQuestion)
  /\ rejected (evaluateBehavioral ("   " ++ nl ++ "  ") javaQuestion).
Proof.
  apply blank_input_rejected. reflexivity.
Defined.

Lemma isSpace_lowerChar (c : ascii) : isSpace (lowerChar c) = isSpace c.
Proof.
  destruct c as [ [] [] [] [] [] [] [] [] ]; reflexivity.
Qed.

Lemma sfilter_smap_lower (s : string) :
  smap lowerChar (sfilter nonSpace s) = sfilter nonSpace (smap lowerChar s).
Proof.
  induction s as [ | c s IH ]; cbn [sfilter smap]; [ reflexivity | ].
  assert (E : nonSpace (lowerChar c) = nonSpace c)
    by (unfold nonSpace; rewrite isSpace_lowerChar; reflexivity).
  rewrite E, <- IH. destruct (nonSpace c); reflexivity.
Qed.

Lemma prefix_sfilter (p : ascii -> bool) (k s : string) :
  allPass p k = true -> String.prefix k s = true ->
  String.prefix k (sfilter p s) = true.
Proof.
  revert s. induction k as [ | a k IH ]; intros s Hk H.
  - destruct (sfilter p s); reflexivity.
  - destruct s as [ | b s ]; [ discriminate H | ].
    cbn in H, Hk. apply andb_prop in Hk. destruct Hk as [ Ha Hk ].
    destruct (ascii_dec a b) as [ <- | ]; [ | discriminate H ].
    cbn [sfilter]. rewrite Ha. cbn.
    destruct (ascii_dec a a); [ | congruence ]. apply IH; assumption.
Qed.

Lemma includes_sfilter (p : ascii -> bool) (k s : string) :
  allPass p k = true -> includes s k = true -> includes (sfilter p s) k = true.
Proof.
  intros Hk. induction s as [ | b s IH ]; intros H.
  - cbn in *. exact H.
  - cbn [includes] in H. apply orb_true_iff in H. destruct H as [ H | H ].
    + apply (prefix_sfilter p) in H; [ | exact Hk ].
      destruct (sfilter p (String b s)); cbn [includes]; rewrite H; reflexivity.
    + specialize (IH H). cbn [sfilter]. destruct (p b); [ | exact IH ].
      cbn [includes]. rewrite IH. apply orb_true_r.
Qed.

Lemma mash_isNonsense (input pattern : string) :
  In pattern mashPatterns ->
  includes (toLowerCase input) pattern = true ->
  isNonsenseInput input = true.
Proof.
  intros Hin H. unfold isNonsenseInput.
  destruct (randomCharacters _); [ reflexivity | ].
  destruct (repeatedCharacters _); [ reflexivity | ].
  unfold keyboardMashing. apply existsb_exists. exists pattern.
  split; [ exact Hin | ].
  unfold cleanedOf, toLowerCase. fold nonSpace. rewrite sfilter_smap_lower.
  apply includes_sfilter; [ | exact H ].
  cbn in Hin. repeat (destruct Hin as [ <- | Hin ]; [ reflexivity | ]).
  contradiction.
Qed.

(** X17. An input that contains asdf, qwer, zxcv, hjkl, 1234 or abcd, in any
    letter case and anywhere (inside working code as well), gets no point
    from any of the three evaluators and is not marked correct. *)
Theorem mash_pattern_rejected (parses : string -> bool) (input pattern : string)
    (q : Question.t) :
  In pattern mashPatterns ->
  includes (toLowerCase input) pattern = true ->
  (exists r, evaluateCode parses input q = Return r /\ rejected r)
  /\ rejected (evaluateTheoretical input q)
  /\ rejected (evaluateBehavioral input q).
Proof.
  intros Hin H. pose proof (mash_isNonsense input pattern Hin H) as Hn.
  unfold evaluateCode, evaluateTheoretical, evaluateBehavioral, rejected.
  rewrite Hn. destruct (isBlank input); repeat split; eexists; repeat split.
Qed.

Lemma mash_pattern_rejected_witness :
  (exists r,
      evaluateCode (fun _ => true)
        "function sum(abcd) { let t = 0; for (const x of abcd) t += x; return t; }"
        javascriptQuestion = Return r /\ rejected r)
  /\ rejected
       (evaluateTheoretical
          "function sum(abcd) { let t = 0; for (const x of abcd) t += x; return t; }"
          javascriptQuestion)
  /\ rejected
       (evaluateBehavioral
          "function sum(abcd) { let t = 0; for (const x of abcd) t += x; return t; }"
          javascriptQuestion).
Proof.
  apply (mash_pattern_rejected _ _ "abcd"); [ cbn; tauto | reflexivity ].
Defined.

End ScoringFacts.

(* ================================================================== *)
(** * Answers taken for random characters                           *)
(* ================================================================== *)

Module NonsenseFacts.
Import Js Regex AnswerEvaluator Properties StringFacts EvaluatorProperties.
Import NonsenseProperties.

(** ** The letters-only pattern *)

Lemma m_class_cons {A : Type} (f : flags) (p : ascii -> bool)
    (last : option ascii) (x : ascii) (s : list ascii) (c : captures)
    (k : cont A) :
  m f (Class p) last (x :: s) c k = if p x then k (Some x) s c else None.
Proof. reflexivity. Qed.

Lemma star_class_all {A : Type} (f : flags) (p : ascii -> bool) (k : cont A) :
  forall (s : list ascii) (n : nat) (last : option ascii) (c : captures),
    forallb p s = true -> length s <= n ->
    (forall l, k l [] c <> None) ->
    star (m f (Class p)) n last s c k <> None.
Proof.
  induction s as [ | x s IH ]; intros n last c Hp Hn Hk.
  - destruct n; cbn; [ apply Hk | ]. apply Hk.
  - destruct n as [ | n ]; [ cbn in Hn; lia | ].
    cbn in Hp. apply andb_prop in Hp. destruct Hp as [ Hx Hs ].
    assert (E : (length s <? length (x :: s)) = true)
      by (apply Nat.ltb_lt; cbn; lia).
    cbn [star]. rewrite m_class_cons, Hx, E.
    specialize (IH n (Some x) c Hs ltac:(cbn in Hn; lia) Hk).
    destruct (star (m f (Class p)) n (Some x) s c k);
      [ discriminate | congruence ].
Qed.

Lemma lettersOnly_matches (s : list ascii) :
  forallb isLower s = true -> 3 <= length s ->
  test noFlags reLettersOnly (string_of_list_ascii s) = true.
Proof.
  intros Hp Hn. unfold test, exec. rewrite list_ascii_of_string_of_list_ascii.
  destruct s as [ | a [ | b [ | c s ] ] ]; cbn in Hn; try lia.
  cbn in Hp.
  apply andb_prop in Hp. destruct Hp as [ Ha Hp ].
  apply andb_prop in Hp. destruct Hp as [ Hb Hp ].
  apply andb_prop in Hp. destruct Hp as [ Hc Hp ].
  unfold reLettersOnly. cbn [search m AtLeast]. rewrite Ha, Hb, Hc.
  match goal with
  | |- context [star ?body ?n ?l ?s ?c ?k] =>
      pose proof (star_class_all noFlags isLower k s n l c Hp (le_n _)) as H
  end.
  match type of H with
  | ?P -> _ => assert (HP : P) by (intros l; cbn; discriminate)
  end.
  specialize (H HP).
  destruct (star _ _ _ _ _ _) as [ [ s' c' ] | ]; [ reflexivity | congruence ].
Qed.

(** ** The keyword pattern *)

Lemma m_Str_none {A : Type} (w : string) :
  w <> "" ->
  forall (last : option ascii) (s : list ascii) (c : captures) (k : cont A),
    (forall x s', s = (list_ascii_of_string w ++ s')%list -> In x s ->
                  k (Some x) s' c = None) ->
    m noFlags (Str w) last s c k = None.
Proof.
  induction w as [ | a w IH ]; intros Hw last s c k H; [ congruence | ].
  destruct w as [ | b w ].
  - cbn [Str m]. destruct s as [ | x s1 ]; [ reflexivity | ].
    unfold eqc. cbn [ignoreCase noFlags].
    destruct (Ascii.eqb_spec a x) as [ <- | ]; [ | reflexivity ].
    apply H; [ reflexivity | left; reflexivity ].
  - change (Str (String a (String b w))) with (Seq (Lit a) (Str (String b w))).
    cbn [m]. destruct s as [ | x s1 ]; [ reflexivity | ].
    unfold eqc. cbn [ignoreCase noFlags].
    destruct (Ascii.eqb_spec a x) as [ <- | ]; [ | reflexivity ].
    apply IH; [ discriminate | ].
    intros y s' E Hy. apply H; [ cbn; rewrite E; reflexivity | right; exact Hy ].
Qed.

Lemma m_Words_none {A : Type} (l : list string) :
  l <> [] -> (forall w, In w l -> w <> "") ->
  forall (last : option ascii) (s : list ascii) (c : captures) (k : cont A),
    (forall w x s', In w l -> s = (list_ascii_of_string w ++ s')%list ->
                    In x s -> k (Some x) s' c = None) ->
    m noFlags (Words l) last s c k = None.
Proof.
  unfold Words. induction l as [ | w l IH ]; intros Hl Hne last s c k H;
    [ congruence | ].
  destruct l as [ | w' l ].
  - cbn [map AltOf]. apply m_Str_none; [ apply Hne; left; reflexivity | ].
    intros x s' E Hx. apply (H w); [ left; reflexivity | exact E | exact Hx ].
  - change (AltOf (map Str (w :: w' :: l)))
      with (Alt (Str w) (AltOf (map Str (w' :: l)))).
    cbn [m]. rewrite m_Str_none.
    + apply IH; [ discriminate | intros v Hv; apply Hne; right; exact Hv | ].
      intros v x s' Hv. apply H. right. exact Hv.
    + apply Hne. left. reflexivity.
    + intros x s' E Hx. apply (H w); [ left; reflexivity | exact E | exact Hx ].
Qed.

Lemma isLower_isWordChar (c : ascii) : isLower c = true -> isWordChar c = true.
Proof.
  destruct c as [ [] [] [] [] [] [] [] [] ]; vm_compute; congruence.
Qed.

Lemma keyword_none_here {A : Type} (last : option ascii) (s : list ascii)
    (k : cont A) :
  forallb isLower s = true -> noKeywordAt last s ->
  m noFlags reCodeKeyword last s [] k = None.
Proof.
  intros Hs Hlast. unfold reCodeKeyword. cbn [m].
  destruct (xorb (isWordCharOpt last) (isWordCharOpt (hd_error s))) eqn:Ex;
    [ | reflexivity ].
  apply m_Words_none.
  - discriminate.
  - intros w Hw. cbn in Hw.
    repeat (destruct Hw as [ <- | Hw ]; [ discriminate | ]). contradiction.
  - intros w x s' Hw E Hx.
    assert (Hxw : isWordChar x = true).
    { apply isLower_isWordChar. rewrite forallb_forall in Hs. apply Hs, Hx. }
    cbn [m isWordCharOpt]. rewrite Hxw.
    destruct s' as [ | y s' ].
    + (* the keyword is the whole rest of the input *)
      rewrite app_nil_r in E. subst s.
      destruct last as [ p | ].
      * cbn in Hlast. cbn [isWordCharOpt] in Ex. rewrite Hlast in Ex.
        destruct w as [ | a w ]; [ cbn in Hx; contradiction | ].
        cbn in Ex, Hs. apply andb_prop in Hs. destruct Hs as [ Ha _ ].
        rewrite (isLower_isWordChar _ Ha) in Ex. discriminate Ex.
      * cbn in Hlast. rewrite string_of_list_ascii_of_string in Hlast.
        contradiction.
    + assert (Hy : isWordChar y = true).
      { apply isLower_isWordChar. rewrite forallb_forall in Hs. apply Hs.
        rewrite E. apply in_or_app. right. left. reflexivity. }
      cbn [hd_error isWordCharOpt]. rewrite Hy. reflexivity.
Qed.

Lemma keyword_search_none (s : list ascii) :
  forall (last : option ascii) (i : nat),
    forallb isLower s = true -> noKeywordAt last s ->
    search noFlags reCodeKeyword last s i = None.
Proof.
  induction s as [ | x s IH ]; intros last i Hs Hlast; cbn [search].
  - rewrite (keyword_none_here last [] _ Hs Hlast). reflexivity.
  - rewrite (keyword_none_here last (x :: s) _ Hs Hlast).
    cbn in Hs. apply andb_prop in Hs. destruct Hs as [ Hx Hs ].
    apply IH; [ exact Hs | ]. cbn. apply isLower_isWordChar, Hx.
Qed.

Lemma lower_of_letter (c : ascii) :
  isLower c || isUpper c = true -> isLower (lowerChar c) = true.
Proof.
  destruct c as [ [] [] [] [] [] [] [] [] ]; vm_compute; congruence.
Qed.

Lemma length_list_of_string (s : string) :
  length (list_ascii_of_string s) = String.length s.
Proof.
  induction s as [ | c s IH ]; cbn; [ reflexivity | rewrite IH; reflexivity ].
Qed.

Lemma cleaned_lower (input : string) :
  lettersAndSpaces input = true ->
  forallb isLower (list_ascii_of_string (cleanedOf input)) = true.
Proof.
  unfold lettersAndSpaces, cleanedOf, toLowerCase.
  induction input as [ | c input IH ]; cbn; [ reflexivity | ].
  intros H. apply andb_prop in H. destruct H as [ Hc H ].
  destruct (isSpace c) eqn:Es; cbn.
  - apply IH, H.
  - rewrite orb_false_r in Hc. rewrite (lower_of_letter c Hc). apply IH, H.
Qed.

Lemma letters_isNonsense (input : string) :
  lettersAndSpaces input = true ->
  3 <= String.length (cleanedOf input) ->
  isCodeKeyword input = false ->
  isNonsenseInput input = true.
Proof.
  intros Hl Hn Hk. unfold isNonsenseInput. cbv zeta.
  assert (E : randomCharacters (cleanedOf input) = true);
    [ | rewrite E; reflexivity ].
  pose proof (cleaned_lower input Hl) as Hlow.
  unfold randomCharacters. apply andb_true_iff. split.
  - rewrite <- (string_of_list_ascii_of_string (cleanedOf input)).
    apply lettersOnly_matches; [ exact Hlow | ].
    rewrite length_list_of_string. exact Hn.
  - apply negb_true_iff. unfold test, exec.
    rewrite keyword_search_none; [ reflexivity | exact Hlow | ].
    cbn. rewrite string_of_list_ascii_of_string. intros Hin.
    unfold isCodeKeyword in Hk.
    assert (existsb (String.eqb (cleanedOf input)) codeKeywords = true).
    { apply existsb_exists. exists (cleanedOf input). split; [ exact Hin | ].
      apply String.eqb_refl. }
    congruence.
Qed.

(** X18. An answer written with letters and white space only (no digit, no
    punctuation mark, in any letter case) that has three letters or more is
    taken for random characters, unless it is just one of the ten code
    keywords: whatever it says, each of the three evaluators gives it no
    point and does not mark it correct. *)
Theorem unpunctuated_answer_rejected (parses : string -> bool) (input : string)
    (q : Question.t) :
  lettersAndSpaces input = true ->
  3 <= String.length (cleanedOf input) ->
  isCodeKeyword input = false ->
  isNonsenseInput input = true
  /\ (exists r, evaluateCode parses input q = Return r /\ rejected r)
  /\ rejected (evaluateTheoretical input q)
  /\ rejected (evaluateBehavioral input q).
Proof.
  intros Hl Hn Hk. pose proof (letters_isNonsense input Hl Hn Hk) as H.
  split; [ exact H | ].
  unfold evaluateCode, evaluateTheoretical, evaluateBehavioral, rejected.
  rewrite H. destruct (isBlank input); repeat split; eexists; repeat split.
Qed.

Lemma unpunctuated_answer_rejected_witness :
  isNonsenseInput
    "In my last project I led the team and we delivered the result on time" = true
  /\ (exists r,
        evaluateCode (fun _ => true)
          "In my last project I led the team and we delivered the result on time"
          teamworkQuestion = Return r /\ rejected r)
  /\ rejected
       (evaluateTheoretical
          "In my last project I led the team and we delivered the result on time"
          teamworkQuestion)
  /\ rejected
       (evaluateBehavioral
          "In my last project I led the team and we delivered the result on time"
          teamworkQuestion).
Proof.
  apply unpunctuated_answer_rejected; [ reflexivity | vm_compute; lia | reflexivity ].
Defined.

End NonsenseFacts.

(* ================================================================== *)
(** * From the job description to the evaluators                    *)
(* ================================================================== *)

Module PipelineFacts.
Import Js AnswerEvaluator FileUpload SkillAnalysis Properties StringFacts.
Import EvaluatorProperties ScoringFacts PipelineProperties.

(** ** Occurrences *)

Lemma prefix_app_l (k k' s : string) :
  String.prefix (k ++ k') s = true -> String.prefix k s = true.
Proof.
  revert s. induction k as [ | a k IH ]; intros s H.
  - destruct s; reflexivity.
  - destruct s as [ | b s ]; [ discriminate H | ].
    cbn in *. destruct (ascii_dec a b); [ apply IH, H | discriminate H ].
Qed.

Lemma includes_app_l (s k k' : string) :
  includes s (k ++ k') = true -> includes s k = true.
Proof.
  induction s as [ | b s IH ]; cbn [includes]; intros H;
    apply orb_true_iff in H; destruct H as [ H | H ].
  - rewrite (prefix_app_l k k' _ H). reflexivity.
  - discriminate H.
  - rewrite (prefix_app_l k k' _ H). reflexivity.
  - rewrite (IH H). apply orb_true_r.
Qed.

(** ** The languages of a battery *)

Lemma parse_fields (text : string) (jd : JobDescription.t) :
  parseJobDescription text = Resolved jd ->
  JobDescription.languages jd = extractLanguagesFromText text
  /\ JobDescription.softSkills jd = extractSoftSkillsFromText text
  /\ JobDescription.requiredSkills jd = required (extractSkillsFromText text)
  /\ JobDescription.preferredSkills jd = preferred (extractSkillsFromText text).
Proof.
  unfold parseJobDescription. destruct (_ || _); [ discriminate | ].
  cbv zeta. destruct (_ =? 0); [ discriminate | ].
  intros H.
  apply (f_equal (fun p => match p with Resolved a => a | Rejected _ => jd end))
    in H.
  cbv beta iota in H. rewrite <- H. repeat split.
Qed.


Lemma extractLanguages_in (text language : string) :
  In language (extractLanguagesFromText text) ->
  In (toLowerCase language) batteryLanguages.
Proof.
  unfold extractLanguagesFromText. cbv zeta. intros H.
  apply filter_In in H. destruct H as [ H _ ].
  cbn in H. repeat (destruct H as [ <- | H ]; [ vm_compute; tauto | ]).
  contradiction.
Qed.

(** X19. Every question of the battery generated for a parsed job
    description is evaluated as JavaScript, Python, Java or one of the nine
    languages of the generic evaluator: none has the language sql, so the
    SQL evaluator of evaluateCode is never the one that runs. *)
Theorem battery_languages (text : string) (jd : JobDescription.t)
    (gaps : list SkillGap.t) (q : Question.t) :
  parseJobDescription text = Resolved jd ->
  In q (generateQuestions (Some jd) gaps) ->
  In (languageOf q) batteryLanguages /\ languageOf q <> "sql".
Proof.
  intros Hp Hin.
  destruct (parse_fields text jd Hp) as (Hl & _).
  assert (H : In (languageOf q) batteryLanguages).
  { apply battery_in in Hin.
    destruct Hin as [ (l & id & Hlang & H) | [ (id & H) | [ (id & H) | (id & H) ] ] ].
    - rewrite Hl in Hlang. pose proof (extractLanguages_in _ _ Hlang) as Hb.
      revert Hb. unfold extractLanguagesFromText in Hlang. cbv zeta in Hlang.
      apply filter_In in Hlang. destruct Hlang as [ Hlang _ ].
      cbn in Hlang.
      repeat (destruct Hlang as [ <- | Hlang ];
              [ intros _; each_question H; vm_compute; tauto | ]).
      contradiction.
    - each_question H; vm_compute; tauto.
    - each_question H; vm_compute; tauto.
    - each_question H; vm_compute; tauto. }
  split; [ exact H | ].
  intros E. rewrite E in H. vm_compute in H.
  repeat (destruct H as [ H | H ]; [ discriminate H | ]). contradiction.
Qed.

Lemma battery_languages_witness :
  In (languageOf pythonReverseQuestion) batteryLanguages
  /\ languageOf pythonReverseQuestion <> "sql".
Proof.
  apply (battery_languages pythonDescription pythonJob [] pythonReverseQuestion);
    [ vm_compute; reflexivity | left; reflexivity ].
Defined.

(** ** From a job description to the missing evaluator *)

(** X20. A job description that mentions JavaScript (in any case) is read as
    asking for Java as well, since java is part of the word; the battery
    generated for it then holds a coding question in java, and every
    submission for that question that passes the two guards makes
    evaluateCode throw. *)
Theorem javascript_posting_reaches_java (parses : string -> bool)
    (text : string) (jd : JobDescription.t) (gaps : list SkillGap.t) :
  parseJobDescription text = Resolved jd ->
  includes (toLowerCase text) "javascript" = true ->
  In "Java" (JobDescription.languages jd)
  /\ exists q,
      In q (generateQuestions (Some jd) gaps)
      /\ Question.type q = coding
      /\ Question.language q = Some "java"
      /\ forall code,
          isBlank code = false -> isNonsenseInput code = false ->
          evaluateCode parses code q
          = Throw "TypeError: this.evaluateJava is not a function".
Proof.
  intros Hp Hjs. destruct (parse_fields text jd Hp) as (Hl & _).
  assert (Hjava : In "Java" (JobDescription.languages jd)).
  { rewrite Hl. unfold extractLanguagesFromText. cbv zeta.
    apply filter_In. split; [ cbn; tauto | ].
    apply (includes_app_l _ "java" "script"). exact Hjs. }
  split; [ exact Hjava | ].
  destruct (generateQuestions_parts jd gaps) as (id1 & id2 & id3 & E).
  destruct (codingLoop_first _ _ Hjava 0 [] 1) as (id & Hq).
  eexists. split; [ | split; [ | split ] ].
  - rewrite E. apply in_or_app. left. exact Hq.
  - reflexivity.
  - reflexivity.
  - intros code Hb Hn. unfold evaluateCode. rewrite Hb, Hn. reflexivity.
Qed.

Lemma javascript_posting_reaches_java_witness :
  In "Java" (JobDescription.languages javascriptJob)
  /\ exists q,
      In q (generateQuestions (Some javascriptJob) [])
      /\ Question.type q = coding
      /\ Question.language q = Some "java"
      /\ forall code,
          isBlank code = false -> isNonsenseInput code = false ->
          evaluateCode (fun _ => true) code q
          = Throw "TypeError: this.evaluateJava is not a function".
Proof.
  apply (javascript_posting_reaches_java (fun _ => true) javascriptDescription);
    [ vm_compute; reflexivity | reflexivity ].
Defined.

(** ** Soft skills *)

(** X21. extractSoftSkillsFromText returns all six soft skills as soon as
    the text contains team, collaborate or communicate (in any case),
    whichever skills it names; without these three words it returns the
    skills whose name occurs in the text, and only them. *)
Theorem soft_skills_all_or_named (text : string) :
  (mentionsTeamwork text = true ->
   extractSoftSkillsFromText text = allSoftSkills)
  /\ (mentionsTeamwork text = false ->
      forall skill,
        In skill (extractSoftSkillsFromText text)
        <-> In skill allSoftSkills
            /\ includes (toLowerCase text) (toLowerCase skill) = true).
Proof.
  unfold mentionsTeamwork, extractSoftSkillsFromText. cbv zeta.
  fold allSoftSkills. split.
  - intros H. apply orb_true_iff in H.
    assert (E : forall skill,
               includes (toLowerCase text) (toLowerCase skill)
               || includes (toLowerCase text) "team"
               || includes (toLowerCase text) "collaborate"
               || includes (toLowerCase text) "communicate" = true).
    { intros skill. destruct H as [ H | H ].
      - apply orb_true_iff in H. destruct H as [ H | H ]; rewrite H.
        + rewrite orb_true_r. reflexivity.
        + rewrite !orb_true_r. reflexivity.
      - rewrite H. apply orb_true_r. }
    unfold allSoftSkills. cbn [filter]. rewrite !E. reflexivity.
  - intros H. apply orb_false_iff in H. destruct H as [ H H3 ].
    apply orb_false_iff in H. destruct H as [ H1 H2 ].
    intros skill. rewrite filter_In, H1, H2, H3, !orb_false_r. reflexivity.
Qed.

(** ** The skill R *)

(** X22. The skill R is found in every text that contains the letter r, so
    the check for technical skills lets through any text of fifty
    characters or more (after trimming) that has the letter in it: the
    parser resolves, with at least one required skill. *)
Theorem letter_r_is_a_skill (text : string) :
  50 <= String.length (trim text) ->
  includes (toLowerCase text) "r" = true ->
  In "R" (foundSkills text)
  /\ exists jd, parseJobDescription text = Resolved jd
                /\ JobDescription.requiredSkills jd <> [].
Proof.
  intros Hlen Hr.
  assert (Hin : In "R" (foundSkills text)).
  { unfold foundSkills. cbv zeta. apply filter_In. split.
    - unfold commonSkills. cbn. tauto.
    - unfold skillOccurs. change (toLowerCase "R") with "r". rewrite Hr.
      reflexivity. }
  split; [ exact Hin | ].
  assert (Hreq : required (extractSkillsFromText text) <> []).
  { unfold extractSkillsFromText. cbv zeta. cbn [required].
    unfold splitPointOf. destruct (foundSkills text) as [ | a l ];
      [ contradiction | ].
    destruct (Nat.max 3 _) as [ | n ] eqn:E; [ lia | ]. cbn. discriminate. }
  unfold parseJobDescription.
  assert (Ht : truthy text = true).
  { destruct text; [ cbn in Hlen; lia | reflexivity ]. }
  rewrite Ht. cbn [negb orb].
  destruct (Nat.ltb_spec (String.length (trim text)) 50); [ lia | ].
  cbv zeta.
  destruct (required (extractSkillsFromText text)) as [ | a l ] eqn:E;
    [ congruence | ].
  cbn [List.length Nat.eqb]. eexists. split; [ reflexivity | ].
  cbn. discriminate.
Qed.

Lemma letter_r_is_a_skill_witness :
  In "R" (foundSkills
            "We are looking for a friendly person to water our flowers every morning.")
  /\ exists jd,
      parseJobDescription
        "We are looking for a friendly person to water our flowers every morning."
      = Resolved jd
      /\ JobDescription.requiredSkills jd <> [].
Proof.
  apply letter_r_is_a_skill; [ vm_compute; lia | reflexivity ].
Defined.

(** ** The identifiers of a battery *)

Lemma natToString_inj (a b : nat) : natToString a = natToString b -> a = b.
Proof.
  unfold natToString. intros H.
  apply (f_equal NilEmpty.uint_of_string) in H.
  rewrite !NilEmpty.usu in H. injection H as H.
  apply (f_equal Nat.of_uint) in H.
  rewrite !DecimalNat.Unsigned.of_to in H. exact H.
Qed.

Lemma numbered_app qs1 ks1 qs2 ks2 :
  numbered qs1 ks1 -> numbered qs2 ks2 ->
  numbered (qs1 ++ qs2) (ks1 ++ ks2).
Proof.
  unfold numbered. intros H1 H2. rewrite !map_app, H1, H2. reflexivity.
Qed.

Lemma numbered_firstn n qs ks :
  numbered qs ks -> numbered (firstn n qs) (firstn n ks).
Proof.
  unfold numbered. intros H. rewrite <- !firstn_map, H. reflexivity.
Qed.

Lemma ascending_le lo ks hi : ascending lo ks hi -> lo <= hi.
Proof.
  revert lo. induction ks as [ | k ks IH ]; cbn; intros lo H; [ exact H | ].
  destruct H as [ H1 H2 ]. apply IH in H2. lia.
Qed.

Lemma ascending_weaken lo lo' ks hi hi' :
  lo' <= lo -> hi <= hi' -> ascending lo ks hi -> ascending lo' ks hi'.
Proof.
  revert lo lo'. induction ks as [ | k ks IH ]; cbn; intros lo lo' H1 H2 H.
  - lia.
  - destruct H as [ Ha Hb ]. split; [ lia | ].
    apply (IH (S k) (S k)); [ lia | exact H2 | exact Hb ].
Qed.

Lemma ascending_app lo ks1 mid ks2 hi :
  ascending lo ks1 mid -> ascending mid ks2 hi -> ascending lo (ks1 ++ ks2) hi.
Proof.
  revert lo. induction ks1 as [ | k ks1 IH ]; cbn; intros lo H1 H2.
  - apply (ascending_weaken mid lo ks2 hi hi); [ exact H1 | lia | exact H2 ].
  - destruct H1 as [ Ha Hb ]. split; [ exact Ha | apply IH; assumption ].
Qed.

Lemma ascending_bounds lo ks hi k :
  ascending lo ks hi -> In k ks -> lo <= k < hi.
Proof.
  revert lo. induction ks as [ | a ks IH ]; cbn; intros lo H Hin;
    [ contradiction | ].
  destruct H as [ Ha Hb ]. destruct Hin as [ <- | Hin ].
  - apply ascending_le in Hb. lia.
  - apply (IH _ Hb) in Hin. lia.
Qed.

Lemma ascending_NoDup lo ks hi : ascending lo ks hi -> NoDup ks.
Proof.
  revert lo. induction ks as [ | a ks IH ]; cbn; intros lo H; constructor.
  - destruct H as [ _ H ]. intros Hin.
    apply (ascending_bounds _ _ _ _ H) in Hin. lia.
  - destruct H as [ _ H ]. apply (IH _ H).
Qed.

Lemma NoDup_map_injective {A B : Type} (f : A -> B) (l : list A) :
  (forall a b, f a = f b -> a = b) -> NoDup l -> NoDup (map f l).
Proof.
  intros Hf. induction 1 as [ | a l Ha _ IH ]; cbn; constructor; [ | exact IH ].
  intros Hin. apply in_map_iff in Hin. destruct Hin as (b & Hb & Hin).
  apply Hf in Hb. subst b. contradiction.
Qed.

Lemma codingLoop_numbered (l : list string) :
  forall (index : nat) (questions : list Question.t) (questionId : nat)
         (ks : list nat) (lo : nat),
    numbered questions ks -> ascending lo ks questionId ->
    exists ks',
      numbered (fst (codingLoop l index questions questionId)) ks'
      /\ ascending lo ks' (snd (codingLoop l index questions questionId)).
Proof.
  induction l as [ | language l IH ]; intros index questions questionId ks lo Hn Ha;
    cbn [codingLoop].
  - exists ks. split; assumption.
  - apply (IH _ _ _
             (ks ++ firstn (if index =? 0 then 3 else 2)
                      [questionId; questionId + 1; questionId + 2])%list lo).
    + apply numbered_app; [ exact Hn | ].
      apply numbered_firstn. reflexivity.
    + apply (ascending_app lo ks questionId); [ exact Ha | ].
      destruct (index =? 0); cbn; lia.
Qed.

(** X23. The questions of a battery carry the identifiers of a counter
    that only goes up: the identifiers are decimal numbers starting at 1,
    strictly increasing along the battery, and therefore pairwise distinct
    (the store finds the answers of a question by its identifier). *)
Theorem battery_ids_distinct (jd : JobDescription.t) (gaps : list SkillGap.t) :
  exists ks hi,
    map Question.id (generateQuestions (Some jd) gaps) = map natToString ks
    /\ ascending 1 ks hi
    /\ NoDup (map Question.id (generateQuestions (Some jd) gaps)).
Proof.
  assert (H : exists ks hi,
             numbered (generateQuestions (Some jd) gaps) ks /\ ascending 1 ks hi).
  { unfold generateQuestions.
    destruct (codingLoop_numbered (JobDescription.languages jd) 0 [] 1 [] 1)
      as (ks & Hn & Ha); [ reflexivity | cbn; lia | ].
    destruct (codingLoop (JobDescription.languages jd) 0 [] 1) as [ questions id ].
    cbn [fst snd] in Hn, Ha.
    destruct (requiresSql jd).
    - exists ((ks ++ [id; id + 1; id + 2; id + 3; id + 4])
              ++ [id + 5; id + 5 + 1; id + 5 + 2; id + 5 + 3; id + 5 + 4;
                  id + 5 + 5; id + 5 + 6; id + 5 + 7; id + 5 + 8; id + 5 + 9]
              ++ [id + 5 + 10; id + 5 + 10 + 1; id + 5 + 10 + 2;
                  id + 5 + 10 + 3; id + 5 + 10 + 4])%list, (id + 5 + 10 + 5).
      split.
      + rewrite <- app_assoc.
        repeat apply numbered_app; try exact Hn; reflexivity.
      + rewrite <- app_assoc.
        apply (ascending_app 1 ks id); [ exact Ha | ]. cbn. lia.
    - exists (ks
              ++ [id; id + 1; id + 2; id + 3; id + 4;
                  id + 5; id + 6; id + 7; id + 8; id + 9]
              ++ [id + 10; id + 10 + 1; id + 10 + 2; id + 10 + 3; id + 10 + 4])%list,
             (id + 10 + 5).
      split.
      + rewrite <- app_assoc.
        repeat apply numbered_app; try exact Hn; reflexivity.
      + apply (ascending_app 1 ks id); [ exact Ha | ]. cbn. lia. }
  destruct H as (ks & hi & Hn & Ha). exists ks, hi.
  split; [ exact Hn | split; [ exact Ha | ] ].
  rewrite Hn. apply NoDup_map_injective.
  - intros a b. apply natToString_inj.
  - apply (ascending_NoDup _ _ _ Ha).
Qed.

End PipelineFacts.

(* ================================================================== *)
(** * The skill-gap analysis                                        *)
(* ================================================================== *)

Module GapFacts.
Import Js Store StoreActions GapAnalysis ComponentProperties.
Local Open Scope Z_scope.

Lemma includesSkill_In (skills : list string) (skill : string) :
  includesSkill skills skill = true <-> In skill skills.
Proof.
  unfold includesSkill. rewrite existsb_exists. split.
  - intros (x & Hx & E). apply String.eqb_eq in E. subst. exact Hx.
  - intros H. exists skill. split; [ exact H | apply String.eqb_refl ].
Qed.

Lemma gapFor_levels (jd : JobDescription.t) (skill : string) (draw : Z) :
  0 <= draw <= 2 ->
  let g := gapFor jd skill draw in
  SkillGap.skill g = skill
  /\ 5 <= SkillGap.resumeLevel g <= 7
  /\ (if includesSkill (JobDescription.requiredSkills jd) skill
      then requiredGap g else preferredGap g).
Proof.
  intros Hd. cbv zeta. unfold gapFor, requiredGap, preferredGap.
  assert (draw = 0 \/ draw = 1 \/ draw = 2) as [ -> | [ -> | -> ] ] by lia;
    destruct (includesSkill _ _); cbn;
    repeat split; try lia; try discriminate; try reflexivity;
    intros; try discriminate; try lia.
Qed.

Lemma gapsFrom_levels (jd : JobDescription.t) (draws : nat -> Z) :
  (forall call, 0 <= draws call <= 2) ->
  forall (skills : list string) (call : nat),
    map SkillGap.skill (gapsFrom jd skills draws call) = skills
    /\ Forall (fun g =>
                 5 <= SkillGap.resumeLevel g <= 7
                 /\ (In (SkillGap.skill g) (JobDescription.requiredSkills jd) ->
                     requiredGap g)
                 /\ (~ In (SkillGap.skill g) (JobDescription.requiredSkills jd) ->
                     preferredGap g))
              (gapsFrom jd skills draws call).
Proof.
  intros Hd. induction skills as [ | skill skills IH ]; intros call;
    cbn [gapsFrom map]; [ split; constructor | ].
  destruct (IH (S call)) as [ E F ].
  destruct (gapFor_levels jd skill (draws call) (Hd call)) as (Hs & Hr & Hg).
  split; [ rewrite Hs, E; reflexivity | ].
  constructor; [ | exact F ].
  split; [ exact Hr | ]. rewrite Hs.
  destruct (includesSkill _ skill) eqn:Ei.
  - split; [ intros _; exact Hg | ].
    intros Hn. apply includesSkill_In in Ei. contradiction.
  - split; [ | intros _; exact Hg ].
    intros Hin. apply includesSkill_In in Hin. congruence.
Qed.

(** X24. The gap analysis lists the required skills and then the preferred
    ones, each with an assumed level between 5 and 7.  A required skill is
    asked at level 8: its gap is between 1 and 3, it is never a match, and it
    is missing exactly when the assumed level is 5.  A skill that is only
    preferred is asked at level 6: its gap is 0 or 1 and it is never
    missing. *)
Theorem gap_analysis_levels (jd : JobDescription.t) (draws : nat -> Z) :
  (forall call, 0 <= draws call <= 2) ->
  map SkillGap.skill (analyseGaps jd draws)
  = (JobDescription.requiredSkills jd ++ JobDescription.preferredSkills jd)%list
  /\ Forall (fun g =>
               5 <= SkillGap.resumeLevel g <= 7
               /\ (In (SkillGap.skill g) (JobDescription.requiredSkills jd) ->
                   requiredGap g)
               /\ (~ In (SkillGap.skill g) (JobDescription.requiredSkills jd) ->
                   preferredGap g))
            (analyseGaps jd draws).
Proof.
  intros Hd. unfold analyseGaps. cbv zeta. apply gapsFrom_levels, Hd.
Qed.

Lemma gap_analysis_levels_witness :
  map SkillGap.skill (analyseGaps Properties.pythonJob (fun call => Z.of_nat call mod 3))
  = (JobDescription.requiredSkills Properties.pythonJob
     ++ JobDescription.preferredSkills Properties.pythonJob)%list
  /\ Forall (fun g =>
               5 <= SkillGap.resumeLevel g <= 7
               /\ (In (SkillGap.skill g)
                     (JobDescription.requiredSkills Properties.pythonJob) ->
                   requiredGap g)
               /\ (~ In (SkillGap.skill g)
                       (JobDescription.requiredSkills Properties.pythonJob) ->
                   preferredGap g))
            (analyseGaps Properties.pythonJob (fun call => Z.of_nat call mod 3)).
Proof.
  apply gap_analysis_levels. intros call.
  pose proof (Z.mod_pos_bound (Z.of_nat call) 3 ltac:(lia)). lia.
Defined.

End GapFacts.

(* ================================================================== *)
(** * The interview page                                            *)
(* ================================================================== *)

Module InterfaceFacts.
Import EvaluatorProperties InterfaceProperties.
Import Js Store StoreActions AnswerEvaluator Properties StoreProperties.
Import EvaluatorFacts InterviewInterface.
Local Open Scope Z_scope.

(** ** Store fields that speaking leaves alone *)

Lemma say_frame (speechSynthesis voice : bool) (s : state) :
  currentSession (say speechSynthesis voice s) = currentSession s
  /\ userProgress (say speechSynthesis voice s) = userProgress s
  /\ currentQuestion (say speechSynthesis voice s) = currentQuestion s
  /\ currentQuestionIndex (say speechSynthesis voice s) = currentQuestionIndex s
  /\ isInterviewActive (say speechSynthesis voice s) = isInterviewActive s
  /\ currentView (say speechSynthesis voice s) = currentView s.
Proof.
  unfold say, speak. destruct voice; [ | repeat split ].
  destruct (_ || _); repeat split.
Qed.

(** ** sql questions *)

(** X25. For a question of type sql the page shows the code editor, yet
    handleSubmitAnswer tests the text of the answer box: as long as that box
    is blank, a click on Submit records nothing, whatever code was written.
    The component is left as it was, no answer and no experience point is
    added, and the button for the next question does not appear. *)
Theorem sql_submission_ignored (parses : string -> bool) (speechSynthesis : bool)
    (c : component) (s : state) (q : Question.t) :
  currentQuestion s = Some q ->
  Question.type q = sql ->
  trim (answer c) = "" ->
  let o := handleSubmitAnswer parses speechSynthesis c s in
  after o = c
  /\ uncaught o = None
  /\ currentSession (store o) = currentSession s
  /\ userProgress (store o) = userProgress s
  /\ nextShown (after o) = nextShown c.
Proof.
  intros Hq Ht Ha. cbv zeta. unfold handleSubmitAnswer, userAnswerOf.
  rewrite Hq, Ht. cbn [questionType_eqb]. rewrite Ha. cbn.
  destruct (say_frame speechSynthesis (isVoiceEnabled s) s) as (H1 & H2 & _).
  repeat split; assumption.
Qed.

Lemma sql_submission_ignored_witness :
  let o := handleSubmitAnswer (fun _ => true) true (typed "" salaryQuery)
             (startInterview [salaryQuestion] 1000 1000 initialState) in
  after o = typed "" salaryQuery
  /\ uncaught o = None
  /\ currentSession (store o)
     = currentSession (startInterview [salaryQuestion] 1000 1000 initialState)
  /\ userProgress (store o)
     = userProgress (startInterview [salaryQuestion] 1000 1000 initialState)
  /\ nextShown (after o) = nextShown (typed "" salaryQuery).
Proof.
  apply (sql_submission_ignored (fun _ => true) true (typed "" salaryQuery)
           (startInterview [salaryQuestion] 1000 1000 initialState)
           salaryQuestion); reflexivity.
Defined.

(** ** java questions *)

(** X26. A submission for a coding question in java that passes the two
    guards ends in an error thrown inside the timer: nothing is recorded in
    the store, the component stays in the evaluating state, and with it the
    page shows neither the Submit button nor, for a question not yet
    answered, the Next button. *)
Theorem java_submission_blocks (parses : string -> bool) (speechSynthesis : bool)
    (c : component) (s : state) (q : Question.t) :
  currentQuestion s = Some q ->
  Question.type q = coding ->
  languageOf q = "java" ->
  isBlank (code c) = false ->
  isNonsenseInput (code c) = false ->
  let o := handleSubmitAnswer parses speechSynthesis c s in
  uncaught o = Some "TypeError: this.evaluateJava is not a function"
  /\ store o = s
  /\ isEvaluating (after o) = true
  /\ submitShown (after o) = false
  /\ nextShown (after o) = hasSubmitted c.
Proof.
  intros Hq Ht Hl Hb Hn. cbv zeta. unfold handleSubmitAnswer, userAnswerOf.
  rewrite Hq, Ht. cbn [questionType_eqb].
  assert (Htr : truthy (trim (code c)) = true).
  { unfold isBlank in Hb. apply orb_false_iff in Hb. destruct Hb as [ _ Hb ].
    destruct (trim (code c)); [ discriminate Hb | reflexivity ]. }
  rewrite Htr. cbn [negb]. unfold evaluationTimer. rewrite Ht. cbn [code].
  unfold evaluateCode. rewrite Hb, Hn, Hl. cbn.
  unfold submitShown. cbn. rewrite andb_false_r. repeat split.
Qed.

Lemma java_submission_blocks_witness :
  let o := handleSubmitAnswer (fun _ => true) true (typed "" javaSubmission)
             (startInterview [javaQuestion] 1000 1000 initialState) in
  uncaught o = Some "TypeError: this.evaluateJava is not a function"
  /\ store o = startInterview [javaQuestion] 1000 1000 initialState
  /\ isEvaluating (after o) = true
  /\ submitShown (after o) = false
  /\ nextShown (after o) = hasSubmitted (typed "" javaSubmission).
Proof.
  apply (java_submission_blocks (fun _ => true) true (typed "" javaSubmission)
           (startInterview [javaQuestion] 1000 1000 initialState)
           javaQuestion); reflexivity.
Defined.

(** ** The next question *)

(** X27. handleNextQuestion tests by itself whether the current question is
    the last one and then calls endInterview, but nextQuestion makes the same
    test: whatever the state, the handler leaves the store as a plain call of
    nextQuestion would (followed by the spoken message when voice is on), and
    it leaves the component alone. *)
Theorem handleNextQuestion_is_nextQuestion (speechSynthesis : bool) (now : Z)
    (c : component) (s : state) :
  store (handleNextQuestion speechSynthesis now c s)
  = say speechSynthesis (isVoiceEnabled s) (nextQuestion now s)
  /\ after (handleNextQuestion speechSynthesis now c s) = c
  /\ uncaught (handleNextQuestion speechSynthesis now c s) = None.
Proof.
  unfold handleNextQuestion, nextQuestion.
  destruct (currentSession s) as [ cs | ] eqn:Hcs.
  - destruct (Z.leb_spec (len (InterviewSession.questions cs) - 1)
                (currentQuestionIndex s)) as [ H | H ];
      destruct (Z.ltb_spec (currentQuestionIndex s + 1)
                  (len (InterviewSession.questions cs))) as [ H' | H' ];
      try lia; cbn; repeat split.
  - cbn. repeat split.
Qed.

(** ** What a submission records *)

Lemma evaluateCode_inScale (parses : string -> bool) (code : string)
    (q : Question.t) (r : Evaluation.t) :
  evaluateCode parses code q = Return r -> inScale (Evaluation.score r) = true.
Proof.
  unfold evaluateCode.
  destruct (isBlank code); [ intros H; injection H as <-; reflexivity | ].
  destruct (isNonsenseInput code); [ intros H; injection H as <-; reflexivity | ].
  cbv zeta.
  repeat match goal with
         | |- context [if ?c then _ else _] => destruct c
         end; intros H; try discriminate H; injection H as <-.
  - apply evaluateJavaScript_inScale.
  - apply evaluatePython_inScale.
  - apply evaluateSQL_inScale.
  - apply evaluateGenericCode_inScale.
Qed.

Lemma xp_of_score (x : Q) :
  inScale x = true -> 0 <= Qfloor (x * 10) <= 100.
Proof.
  intros H. apply inScale_spec in H. destruct H as [ H0 H1 ].
  split.
  - change 0 with (Qfloor 0). apply Qfloor_resp_le. lra.
  - change 100 with (Qfloor 100). apply Qfloor_resp_le. lra.
Qed.

Lemma evaluationTimer_recorded (parses : string -> bool) (speechSynthesis : bool)
    (voice : bool) (c : component) (s : state) (q : Question.t)
    (cs : InterviewSession.t) :
  currentSession s = Some cs ->
  uncaught (evaluationTimer parses speechSynthesis q voice c s) = None ->
  recorded q cs s (evaluationTimer parses speechSynthesis q voice c s).
Proof.
  intros Hcs. unfold evaluationTimer. cbv zeta.
  set (result :=
         match Question.type q with
         | coding | sql => evaluateCode parses _ q
         | theoretical => Return (evaluateTheoretical _ q)
         | behavioral => Return (evaluateBehavioral _ q)
         end).
  assert (Hr : forall r, result = Return r -> inScale (Evaluation.score r) = true).
  { intros r. subst result. destruct (Question.type q).
    - apply evaluateCode_inScale.
    - apply evaluateCode_inScale.
    - intros H. injection H as <-. apply evaluateTheoretical_inScale.
    - intros H. injection H as <-. apply evaluateBehavioral_inScale. }
  destruct result as [ r | e ]; [ | discriminate ].
  intros _. specialize (Hr r eq_refl).
  match goal with
  | |- context [submitAnswer ?x s] => set (a := x)
  end.
  exists r, a. cbn [after store evaluation].
  destruct (say_frame speechSynthesis voice (submitAnswer a s)) as (H1 & H2 & _).
  unfold answersOf. rewrite H1, H2.
  unfold submitAnswer. rewrite Hcs. cbn.
  repeat split; try reflexivity; try (apply inScale_spec, Hr);
    apply xp_of_score, Hr.
Qed.

(** X28. When handleSubmitAnswer gets past its guard and the evaluator
    returns, exactly one answer is added to the session, for the current
    question and with the score shown on the page, a score between 0 and 10;
    the user earns the floor of ten times the score, between 0 and 100
    experience points; the Submit button gives way to the Next button, and
    the Retry button is shown exactly when the answer is not marked
    correct. *)
Theorem submission_recorded (parses : string -> bool) (speechSynthesis : bool)
    (c : component) (s : state) (q : Question.t) (cs : InterviewSession.t) :
  currentQuestion s = Some q ->
  currentSession s = Some cs ->
  truthy (trim (userAnswerOf q c)) = true ->
  uncaught (handleSubmitAnswer parses speechSynthesis c s) = None ->
  recorded q cs s (handleSubmitAnswer parses speechSynthesis c s).
Proof.
  intros Hq Hcs Hu. unfold handleSubmitAnswer.
  rewrite Hq. cbv zeta. rewrite Hu. cbn [negb].
  apply evaluationTimer_recorded, Hcs.
Qed.

Lemma submission_recorded_witness :
  recorded cleanCodeQuestion sampleSession sampleStart
    (handleSubmitAnswer (fun _ => true) true
       (typed "Small functions, clear names and tests." "") sampleStart).
Proof.
  apply submission_recorded; reflexivity.
Defined.

End InterfaceFacts.

(* ================================================================== *)
(** * The input of the job description                              *)
(* ================================================================== *)

Module JobInputFacts.
Import Js Store StoreActions FileUpload JobInput.

Lemma trimStart_length (s : string) :
  String.length (trimStart s) <= String.length s.
Proof.
  induction s as [ | c s IH ]; cbn; [ lia | ].
  destruct (isSpace c); cbn; lia.
Qed.

Lemma trimEnd_length (s : string) :
  String.length (trimEnd s) <= String.length s.
Proof.
  induction s as [ | c s IH ]; cbn; [ lia | ].
  destruct (trimEnd s); [ destruct (isSpace c) | ]; cbn in *; lia.
Qed.

Lemma trim_length (s : string) : String.length (trim s) <= String.length s.
Proof.
  unfold trim. pose proof (trimEnd_length (trimStart s)).
  pose proof (trimStart_length s). lia.
Qed.

Lemma speak_frame (speechSynthesis : bool) (s : state) :
  jobDescription (speak speechSynthesis s) = jobDescription s
  /\ error (speak speechSynthesis s) = error s.
Proof.
  unfold speak. destruct (_ || _); split; reflexivity.
Qed.

(** X29. What the page does with a text typed into the box.  A text of fewer
    than 50 characters is not analysed at all: the status goes back to idle
    and the store is untouched, so no message says that it is too short.
    A longer text is analysed: the page lets the user proceed exactly when
    parseJobDescription resolves, the store then holds the parsed job
    description and no error; when it rejects, the store holds the message
    and keeps the job description it had, and the message is the one about
    the length exactly when the text has fewer than 50 characters once
    trimmed. *)
Theorem job_input_outcomes (speechSynthesis : bool) (text : string)
    (c : component) (s : state) :
  let c' := fst (input speechSynthesis text c s) in
  let s' := snd (input speechSynthesis text c s) in
  jdText c' = text
  /\ (String.length text < 50 -> uploadStatus c' = status_idle /\ s' = s)
  /\ (canProceed c' = true <-> exists jd, parseJobDescription text = Resolved jd)
  /\ (forall jd, parseJobDescription text = Resolved jd ->
                 jobDescription s' = Some jd /\ error s' = None)
  /\ (forall message,
        50 <= String.length text ->
        parseJobDescription text = Rejected message ->
        uploadStatus c' = status_error
        /\ error s' = Some message
        /\ jobDescription s' = jobDescription s
        /\ (message = tooShortMessage <-> String.length (trim text) < 50)).
Proof.
  cbv zeta.
  assert (Hres : forall jd, parseJobDescription text = Resolved jd ->
                            50 <= String.length text).
  { intros jd. unfold parseJobDescription.
    destruct (truthy text); cbn [negb orb]; [ | discriminate ].
    destruct (Nat.ltb_spec (String.length (trim text)) 50); [ discriminate | ].
    intros _. pose proof (trim_length text). lia. }
  unfold input, handleJDInput.
  destruct (Nat.ltb_spec (String.length text) 50) as [ Hlt | Hge ].
  - cbn [fst snd jdText uploadStatus canProceed].
    split; [ reflexivity | ].
    split; [ intros _; split; reflexivity | ].
    split; [ split; [ discriminate
                    | intros (jd & Hjd); apply Hres in Hjd; lia ] | ].
    split; [ intros jd Hjd; apply Hres in Hjd; lia | intros message Hge; lia ].
  - unfold analyse. cbv zeta.
    assert (Hjob : forall st,
               jobDescription (if isVoiceEnabled (clearError s)
                               then speak speechSynthesis st else st)
               = jobDescription st).
    { intros st. destruct (isVoiceEnabled _); [ apply speak_frame | reflexivity ]. }
    assert (Herr : forall st,
               Store.error (if isVoiceEnabled (clearError s)
                            then speak speechSynthesis st else st)
               = Store.error st).
    { intros st. destruct (isVoiceEnabled _); [ apply speak_frame | reflexivity ]. }
    destruct (parseJobDescription text) as [ jd | message ] eqn:Hp;
      cbn [fst snd jdText uploadStatus canProceed].
    + split; [ reflexivity | ].
      split; [ intros Hlt; lia | ].
      split; [ split; [ intros _; exists jd; reflexivity | reflexivity ] | ].
      split; [ | intros message _ H; discriminate H ].
      intros jd' H. injection H as <-. rewrite Hjob, Herr. split; reflexivity.
    + split; [ reflexivity | ].
      split; [ intros Hlt; lia | ].
      split; [ split; [ discriminate | intros (jd & Hjd); discriminate Hjd ] | ].
      split; [ intros jd H; discriminate H | ].
      intros message' _ H. injection H as <-. rewrite Hjob, Herr.
      split; [ reflexivity | ]. split; [ reflexivity | ].
      split; [ reflexivity | ].
      revert Hp. unfold parseJobDescription.
      assert (Ht : truthy text = true)
        by (destruct text; [ cbn in Hge; lia | reflexivity ]).
      rewrite Ht. cbn [negb orb].
      destruct (Nat.ltb_spec (String.length (trim text)) 50) as [ Hl | Hl ].
      * intros H. injection H as <-. split; [ intros _; exact Hl | reflexivity ].
      * cbv zeta. destruct (_ =? 0); [ | discriminate ].
        intros H. injection H as <-. split; [ discriminate | lia ].
Qed.

End JobInputFacts.

(* ================================================================== *)
(** * The results page                                              *)
(* ================================================================== *)

Module ResultsFacts.
Import Js Store StoreActions StoreProperties InterviewResults.
Local Open Scope Z_scope.

(** X30. The average shown on the results page is the overall score that
    endInterview stored in the session, as long as the session has an
    answer; for a session without answers the store holds 0 while the page
    divides zero by zero and shows NaN. *)
Theorem results_average_is_overall_score (now : Z) (s : state)
    (cs : InterviewSession.t) :
  currentSession s = Some cs ->
  exists cs',
    currentSession (endInterview now s) = Some cs'
    /\ (InterviewSession.answers cs <> [] ->
        averageScore cs' = Some (InterviewSession.overallScore cs'))
    /\ (InterviewSession.answers cs = [] ->
        averageScore cs' = None /\ InterviewSession.overallScore cs' = 0%Q).
Proof.
  intros Hcs. unfold endInterview. rewrite Hcs. cbn.
  eexists. split; [ reflexivity | ]. unfold averageScore. cbn.
  destruct (InterviewSession.answers cs) as [ | a l ].
  - split; [ congruence | intros _; split; reflexivity ].
  - split; [ intros _ | discriminate ].
    unfold len. cbn [List.length].
    destruct (Z.eqb_spec (Z.of_nat (S (List.length l))) 0); [ lia | reflexivity ].
Qed.

Lemma results_average_is_overall_score_witness :
  exists cs',
    currentSession
      (endInterview 5000 (submitAnswer Properties.sampleAnswer sampleStart))
    = Some cs'
    /\ (InterviewSession.answers
          (with_answers sampleSession [Properties.sampleAnswer]) <> [] ->
        averageScore cs' = Some (InterviewSession.overallScore cs'))
    /\ (InterviewSession.answers
          (with_answers sampleSession [Properties.sampleAnswer]) = [] ->
        averageScore cs' = None /\ InterviewSession.overallScore cs' = 0%Q).
Proof.
  apply (results_average_is_overall_score 5000
           (submitAnswer Properties.sampleAnswer sampleStart)
           (with_answers sampleSession [Properties.sampleAnswer])).
  reflexivity.
Defined.

End ResultsFacts.
